(** * The BEACON DAQ driver (src/beacondaq.c), embedded in Rocq

    The driver talks to an FPGA board through a SPI character device.  The
    embedding keeps the structure of the C file: the handle [beacon_dev] is a
    record, the process-wide counter and the caller's storage live in a
    [machine] state, and every system call goes through one oracle (the
    environment) and is recorded in a trace, so that what is transmitted, and
    in which order, can be stated.

    The driver is modelled as run by one thread.  The waiter mutex is a flag
    of the handle.  The bus mutex of the USING/DONE macros is not
    represented: the macros do nothing on a handle that does not lock
    ([enable_locking] is 0), and there the embedding is the code as it runs.
    On a handle that locks, a call that takes the bus mutex while it is held
    never returns (a read that fails leaves it held, because CHK jumps over
    DONE); a statement that depends on it is made for handles that do not
    lock. *)

From Stdlib Require Import ZArith List Bool Lia QArith.
Import ListNotations.
Open Scope Z_scope.

(** ** Constants *)

(** Modelled from the spec: the header beacon.h is not among the sources; the
    spec fixes a frame at four bytes, four ring buffers per board, eight
    channels, four chunks per RAM address (registers 0x23..0x26), at most two
    boards and waveforms of at most 2048 samples. *)
Definition BN_WORD_SIZE : Z := 4.
Definition BN_NUM_BUFFER : Z := 4.
Definition BN_NUM_CHAN : Z := 8.
Definition BN_NUM_CHUNK : Z := 4.
Definition BN_MAX_BOARDS : Z := 2.
Definition BN_MAX_WAVEFORM_LENGTH : Z := 2048.

Definition BN_ADDRESS_MAX : Z := 256.
Definition BN_SPI_BYTES : Z := BN_WORD_SIZE.
Definition BN_NUM_MODE : Z := 4.
Definition BN_NUM_REGISTER : Z := 256.
Definition BUF_MASK : Z := 0xf.
Definition MIN_GOOD_MAX_V : Z := 20.
Definition MAX_MISERY : Z := 100.
Definition BN_DELAY_USECS : Z := 0.
Definition BN_CS_CHANGE : Z := 0.
Definition SPI_CLOCK : Z := 20000000.
Definition MAX_XFERS : Z := 511.

(** errno values returned by [beacon_wait] (Linux). *)
Definition EINTR : Z := 4.
Definition EAGAIN : Z := 11.
Definition EBUSY : Z := 16.

(** The register map (the part the modelled functions use). *)
Definition REG_FIRMWARE_VER : Z := 0x01.
Definition REG_STATUS : Z := 0x07.
Definition REG_CLEAR_STATUS : Z := 0x09.
Definition REG_EVENT_COUNTER_LOW : Z := 0xa.
Definition REG_EVENT_COUNTER_HIGH : Z := 0xb.
Definition REG_TRIG_COUNTER_LOW : Z := 0xc.
Definition REG_TRIG_COUNTER_HIGH : Z := 0xd.
Definition REG_TRIG_TIME_LOW : Z := 0xe.
Definition REG_TRIG_TIME_HIGH : Z := 0xf.
Definition REG_DEADTIME : Z := 0x10.
Definition REG_TRIG_INFO : Z := 0x11.
Definition REG_CH_MASKS : Z := 0x12.
Definition REG_LAST_BEAM : Z := 0x14.
Definition REG_TRIG_BEAM_POWER : Z := 0x15.
Definition REG_PPS_COUNTER : Z := 0x16.
Definition REG_HD_DYN_MASK : Z := 0x17.
Definition REG_USER_MASK : Z := 0x18.
Definition REG_VETO_DEADTIME_CTR : Z := 0x19.
Definition REG_CHUNK : Z := 0x23.
Definition REG_SYNC : Z := 0x27.
Definition REG_CALPULSE : Z := 0x2a.
Definition REG_ATTEN_012 : Z := 0x32.
Definition REG_ATTEN_345 : Z := 0x33.
Definition REG_ATTEN_67 : Z := 0x34.
Definition REG_ATTEN_APPLY : Z := 0x35.
Definition REG_ADC_CLK_RST : Z := 0x37.
Definition REG_ADC_DELAYS : Z := 0x38.
Definition REG_FORCE_TRIG : Z := 0x40.
Definition REG_CHANNEL : Z := 0x41.
Definition REG_MODE : Z := 0x42.
Definition REG_RAM_ADDR : Z := 0x45.
Definition REG_CLEAR : Z := 0x4d.
Definition REG_BUFFER : Z := 0x4e.
Definition REG_TRIG_ENABLE : Z := 0x52.
Definition REG_PHASED_TRIGGER : Z := 0x54.
Definition REG_TIMESTAMP_SELECT : Z := 0x58.
Definition REG_SET_READ_REG : Z := 0x6d.
Definition REG_RESET_COUNTER : Z := 0x7e.
Definition REG_RESET_ALL : Z := 0x7f.

(** Readout modes. *)
Definition MODE_REGISTER : Z := 0.
Definition MODE_WAVEFORMS : Z := 1.

(** Modelled from the spec: the reset kinds of beacon.h, in increasing
    severity: counters-only, calibrate, almost-global, global. *)
Inductive beacon_reset_t :=
| BN_RESET_COUNTERS
| BN_RESET_CALIBRATE
| BN_RESET_ALMOST_GLOBAL
| BN_RESET_GLOBAL.

Definition reset_rank (r : beacon_reset_t) : Z :=
  match r with
  | BN_RESET_COUNTERS => 0
  | BN_RESET_CALIBRATE => 1
  | BN_RESET_ALMOST_GLOBAL => 2
  | BN_RESET_GLOBAL => 3
  end.

(** ** Integer helpers *)

Definition u8 (x : Z) : Z := x mod 2 ^ 8.
Definition u16 (x : Z) : Z := x mod 2 ^ 16.
Definition u32 (x : Z) : Z := x mod 2 ^ 32.
Definition u64 (x : Z) : Z := x mod 2 ^ 64.

(** C's [/] on int truncates toward zero. *)
Definition cdiv (a b : Z) : Z := Z.quot a b.

Definition nonzero (x : Z) : bool := negb (x =? 0).

(** [__builtin_popcount] and [__builtin_ctz] on a buffer mask (a byte). *)
Definition popcount (mask : Z) : nat :=
  length (filter (fun i => Z.testbit mask (Z.of_nat i)) (seq 0 8)).

Definition ctz (mask : Z) : Z :=
  match filter (fun i => Z.testbit mask (Z.of_nat i)) (seq 0 8) with
  | i :: _ => Z.of_nat i
  | [] => 0
  end.

(** ** Boards, frames and the transfer list *)

Inductive beacon_which_board_t := MASTER | SLAVE.

Definition board_index (b : beacon_which_board_t) : Z :=
  match b with MASTER => 0 | SLAVE => 1 end.

Definition board_eqb (a b : beacon_which_board_t) : bool :=
  match a, b with
  | MASTER, MASTER | SLAVE, SLAVE => true
  | _, _ => false
  end.

(** An array of two, indexed by the board. *)
Definition arr2 (T : Type) := beacon_which_board_t -> T.

Definition set2 {T} (a : arr2 T) (b : beacon_which_board_t) (v : T) : arr2 T :=
  fun c => if board_eqb c b then v else a c.

(** A SPI frame: four bytes, [buf[0]] .. [buf[3]]. *)
Record frame := Frame { byte0 : Z; byte1 : Z; byte2 : Z; byte3 : Z }.

Definition frame0 : frame := Frame 0 0 0 0.

(** be32toh of the 32-bit word whose four bytes in memory are the frame. *)
Definition be32 (f : frame) : Z :=
  Z.lor (Z.shiftl (byte0 f) 24)
    (Z.lor (Z.shiftl (byte1 f) 16) (Z.lor (Z.shiftl (byte2 f) 8) (byte3 f))).

(** Where received bytes go.  A region is an object of the C program that is
    handed to the kernel as an rx buffer; a pointer is a region and a byte
    offset in it. *)
Inductive region :=
| L_event_counter (i : nat)      (* event_counter[i] of beacon_read_multiple_ptr *)
| L_trig_counter (i : nat)
| L_trig_time (i : nat)
| L_deadtime
| L_tinfo
| L_tmask
| L_last_beam
| H_beam_mask (h : nat)          (* hd->beam_mask of header h *)
| H_beam_power (h : nat)
| H_pps_counter (h : nat)
| H_dynamic_beam_mask (h : nat)
| H_veto_deadtime_counter (h : nat)
| E_data (e : nat) (ibd : beacon_which_board_t) (ichan : nat)
                                 (* ev->data[ibd][ichan] of event e *)
| L_result (k : nat).            (* a four-byte result buffer of a caller *)

Definition ptr : Type := region * Z.

Definition region_eqb (a b : region) : bool :=
  match a, b with
  | L_event_counter i, L_event_counter j => Nat.eqb i j
  | L_trig_counter i, L_trig_counter j => Nat.eqb i j
  | L_trig_time i, L_trig_time j => Nat.eqb i j
  | L_deadtime, L_deadtime => true
  | L_tinfo, L_tinfo => true
  | L_tmask, L_tmask => true
  | L_last_beam, L_last_beam => true
  | H_beam_mask i, H_beam_mask j => Nat.eqb i j
  | H_beam_power i, H_beam_power j => Nat.eqb i j
  | H_pps_counter i, H_pps_counter j => Nat.eqb i j
  | H_dynamic_beam_mask i, H_dynamic_beam_mask j => Nat.eqb i j
  | H_veto_deadtime_counter i, H_veto_deadtime_counter j => Nat.eqb i j
  | E_data e b c, E_data e' b' c' =>
      Nat.eqb e e' && board_eqb b b' && Nat.eqb c c'
  | L_result i, L_result j => Nat.eqb i j
  | _, _ => false
  end.

Definition ptr_eqb (p q : ptr) : bool :=
  region_eqb (fst p) (fst q) && (snd p =? snd q).

Definition ptr_add (p : ptr) (n : Z) : ptr := (fst p, snd p + n).

(** One entry of the transfer list (struct spi_ioc_transfer): the frame to
    send, if any, and where to put the four bytes clocked in, if anywhere.
    [len], [cs_change] and [delay_usecs] are the same for every entry
    (setup_xfers) and are kept in the handle only. *)
Record spi_ioc_transfer := Xfer { tx_buf : option frame; rx_buf : option ptr }.

Definition xfer0 : spi_ioc_transfer := Xfer None None.

Record timespec := Timespec { tv_sec : Z; tv_nsec : Z }.

(** ** The handle *)

Record beacon_dev := {
  fd : arr2 Z;
  enable_locking : Z;
  readout_number_offset : Z;
  event_counter : Z;
  buffer_length : Z;
  wait_mut : bool;                  (* true: the waiter mutex is held *)
  board_id : arr2 Z;
  channel_read_mask : arr2 Z;
  cancel_wait : Z;
  start_time : timespec;
  next_read_buffer : Z;
  hardware_next : Z;
  poll_interval : Z;
  spi_clock : Z;
  cs_change : Z;
  delay_us : Z;
  pretrigger : Z;
  buf : arr2 (nat -> spi_ioc_transfer);
  nused : arr2 Z;
  current_buf : arr2 Z;
  current_mode : arr2 Z;
  gpio_pin : Z
}.

(** What memset(dev,0,sizeof( *dev)) leaves. *)
Definition zero_dev : beacon_dev := {|
  fd := fun _ => 0; enable_locking := 0; readout_number_offset := 0;
  event_counter := 0; buffer_length := 0; wait_mut := false;
  board_id := fun _ => 0; channel_read_mask := fun _ => 0; cancel_wait := 0;
  start_time := Timespec 0 0; next_read_buffer := 0; hardware_next := 0;
  poll_interval := 0; spi_clock := 0; cs_change := 0; delay_us := 0;
  pretrigger := 0; buf := fun _ _ => xfer0; nused := fun _ => 0;
  current_buf := fun _ => 0; current_mode := fun _ => 0; gpio_pin := 0 |}.

Definition with_fd (v : arr2 Z) (d : beacon_dev) : beacon_dev :=
  {| fd := v; enable_locking := enable_locking d;
     readout_number_offset := readout_number_offset d;
     event_counter := event_counter d; buffer_length := buffer_length d;
     wait_mut := wait_mut d; board_id := board_id d;
     channel_read_mask := channel_read_mask d; cancel_wait := cancel_wait d;
     start_time := start_time d; next_read_buffer := next_read_buffer d;
     hardware_next := hardware_next d; poll_interval := poll_interval d;
     spi_clock := spi_clock d; cs_change := cs_change d; delay_us := delay_us d;
     pretrigger := pretrigger d; buf := buf d; nused := nused d;
     current_buf := current_buf d; current_mode := current_mode d;
     gpio_pin := gpio_pin d |}.

Definition with_enable_locking (v : Z) (d : beacon_dev) : beacon_dev :=
  {| fd := fd d; enable_locking := v;
     readout_number_offset := readout_number_offset d;
     event_counter := event_counter d; buffer_length := buffer_length d;
     wait_mut := wait_mut d; board_id := board_id d;
     channel_read_mask := channel_read_mask d; cancel_wait := cancel_wait d;
     start_time := start_time d; next_read_buffer := next_read_buffer d;
     hardware_next := hardware_next d; poll_interval := poll_interval d;
     spi_clock := spi_clock d; cs_change := cs_change d; delay_us := delay_us d;
     pretrigger := pretrigger d; buf := buf d; nused := nused d;
     current_buf := current_buf d; current_mode := current_mode d;
     gpio_pin := gpio_pin d |}.

Definition with_readout_number_offset (v : Z) (d : beacon_dev) : beacon_dev :=
  {| fd := fd d; enable_locking := enable_locking d;
     readout_number_offset := v;
     event_counter := event_counter d; buffer_length := buffer_length d;
     wait_mut := wait_mut d; board_id := board_id d;
     channel_read_mask := channel_read_mask d; cancel_wait := cancel_wait d;
     start_time := start_time d; next_read_buffer := next_read_buffer d;
     hardware_next := hardware_next d; poll_interval := poll_interval d;
     spi_clock := spi_clock d; cs_change := cs_change d; delay_us := delay_us d;
     pretrigger := pretrigger d; buf := buf d; nused := nused d;
     current_buf := current_buf d; current_mode := current_mode d;
     gpio_pin := gpio_pin d |}.

Definition with_event_counter (v : Z) (d : beacon_dev) : beacon_dev :=
  {| fd := fd d; enable_locking := enable_locking d;
     readout_number_offset := readout_number_offset d;
     event_counter := v; buffer_length := buffer_length d;
     wait_mut := wait_mut d; board_id := board_id d;
     channel_read_mask := channel_read_mask d; cancel_wait := cancel_wait d;
     start_time := start_time d; next_read_buffer := next_read_buffer d;
     hardware_next := hardware_next d; poll_interval := poll_interval d;
     spi_clock := spi_clock d; cs_change := cs_change d; delay_us := delay_us d;
     pretrigger := pretrigger d; buf := buf d; nused := nused d;
     current_buf := current_buf d; current_mode := current_mode d;
     gpio_pin := gpio_pin d |}.

Definition with_buffer_length (v : Z) (d : beacon_dev) : beacon_dev :=
  {| fd := fd d; enable_locking := enable_locking d;
     readout_number_offset := readout_number_offset d;
     event_counter := event_counter d; buffer_length := v;
     wait_mut := wait_mut d; board_id := board_id d;
     channel_read_mask := channel_read_mask d; cancel_wait := cancel_wait d;
     start_time := start_time d; next_read_buffer := next_read_buffer d;
     hardware_next := hardware_next d; poll_interval := poll_interval d;
     spi_clock := spi_clock d; cs_change := cs_change d; delay_us := delay_us d;
     pretrigger := pretrigger d; buf := buf d; nused := nused d;
     current_buf := current_buf d; current_mode := current_mode d;
     gpio_pin := gpio_pin d |}.

Definition with_wait_mut (v : bool) (d : beacon_dev) : beacon_dev :=
  {| fd := fd d; enable_locking := enable_locking d;
     readout_number_offset := readout_number_offset d;
     event_counter := event_counter d; buffer_length := buffer_length d;
     wait_mut := v; board_id := board_id d;
     channel_read_mask := channel_read_mask d; cancel_wait := cancel_wait d;
     start_time := start_time d; next_read_buffer := next_read_buffer d;
     hardware_next := hardware_next d; poll_interval := poll_interval d;
     spi_clock := spi_clock d; cs_change := cs_change d; delay_us := delay_us d;
     pretrigger := pretrigger d; buf := buf d; nused := nused d;
     current_buf := current_buf d; current_mode := current_mode d;
     gpio_pin := gpio_pin d |}.

Definition with_board_id (v : arr2 Z) (d : beacon_dev) : beacon_dev :=
  {| fd := fd d; enable_locking := enable_locking d;
     readout_number_offset := readout_number_offset d;
     event_counter := event_counter d; buffer_length := buffer_length d;
     wait_mut := wait_mut d; board_id := v;
     channel_read_mask := channel_read_mask d; cancel_wait := cancel_wait d;
     start_time := start_time d; next_read_buffer := next_read_buffer d;
     hardware_next := hardware_next d; poll_interval := poll_interval d;
     spi_clock := spi_clock d; cs_change := cs_change d; delay_us := delay_us d;
     pretrigger := pretrigger d; buf := buf d; nused := nused d;
     current_buf := current_buf d; current_mode := current_mode d;
     gpio_pin := gpio_pin d |}.

Definition with_channel_read_mask (v : arr2 Z) (d : beacon_dev) : beacon_dev :=
  {| fd := fd d; enable_locking := enable_locking d;
     readout_number_offset := readout_number_offset d;
     event_counter := event_counter d; buffer_length := buffer_length d;
     wait_mut := wait_mut d; board_id := board_id d;
     channel_read_mask := v; cancel_wait := cancel_wait d;
     start_time := start_time d; next_read_buffer := next_read_buffer d;
     hardware_next := hardware_next d; poll_interval := poll_interval d;
     spi_clock := spi_clock d; cs_change := cs_change d; delay_us := delay_us d;
     pretrigger := pretrigger d; buf := buf d; nused := nused d;
     current_buf := current_buf d; current_mode := current_mode d;
     gpio_pin := gpio_pin d |}.

Definition with_cancel_wait (v : Z) (d : beacon_dev) : beacon_dev :=
  {| fd := fd d; enable_locking := enable_locking d;
     readout_number_offset := readout_number_offset d;
     event_counter := event_counter d; buffer_length := buffer_length d;
     wait_mut := wait_mut d; board_id := board_id d;
     channel_read_mask := channel_read_mask d; cancel_wait := v;
     start_time := start_time d; next_read_buffer := next_read_buffer d;
     hardware_next := hardware_next d; poll_interval := poll_interval d;
     spi_clock := spi_clock d; cs_change := cs_change d; delay_us := delay_us d;
     pretrigger := pretrigger d; buf := buf d; nused := nused d;
     current_buf := current_buf d; current_mode := current_mode d;
     gpio_pin := gpio_pin d |}.

Definition with_start_time (v : timespec) (d : beacon_dev) : beacon_dev :=
  {| fd := fd d; enable_locking := enable_locking d;
     readout_number_offset := readout_number_offset d;
     event_counter := event_counter d; buffer_length := buffer_length d;
     wait_mut := wait_mut d; board_id := board_id d;
     channel_read_mask := channel_read_mask d; cancel_wait := cancel_wait d;
     start_time := v; next_read_buffer := next_read_buffer d;
     hardware_next := hardware_next d; poll_interval := poll_interval d;
     spi_clock := spi_clock d; cs_change := cs_change d; delay_us := delay_us d;
     pretrigger := pretrigger d; buf := buf d; nused := nused d;
     current_buf := current_buf d; current_mode := current_mode d;
     gpio_pin := gpio_pin d |}.

Definition with_next_read_buffer (v : Z) (d : beacon_dev) : beacon_dev :=
  {| fd := fd d; enable_locking := enable_locking d;
     readout_number_offset := readout_number_offset d;
     event_counter := event_counter d; buffer_length := buffer_length d;
     wait_mut := wait_mut d; board_id := board_id d;
     channel_read_mask := channel_read_mask d; cancel_wait := cancel_wait d;
     start_time := start_time d; next_read_buffer := v;
     hardware_next := hardware_next d; poll_interval := poll_interval d;
     spi_clock := spi_clock d; cs_change := cs_change d; delay_us := delay_us d;
     pretrigger := pretrigger d; buf := buf d; nused := nused d;
     current_buf := current_buf d; current_mode := current_mode d;
     gpio_pin := gpio_pin d |}.

Definition with_hardware_next (v : Z) (d : beacon_dev) : beacon_dev :=
  {| fd := fd d; enable_locking := enable_locking d;
     readout_number_offset := readout_number_offset d;
     event_counter := event_counter d; buffer_length := buffer_length d;
     wait_mut := wait_mut d; board_id := board_id d;
     channel_read_mask := channel_read_mask d; cancel_wait := cancel_wait d;
     start_time := start_time d; next_read_buffer := next_read_buffer d;
     hardware_next := v; poll_interval := poll_interval d;
     spi_clock := spi_clock d; cs_change := cs_change d; delay_us := delay_us d;
     pretrigger := pretrigger d; buf := buf d; nused := nused d;
     current_buf := current_buf d; current_mode := current_mode d;
     gpio_pin := gpio_pin d |}.

Definition with_poll_interval (v : Z) (d : beacon_dev) : beacon_dev :=
  {| fd := fd d; enable_locking := enable_locking d;
     readout_number_offset := readout_number_offset d;
     event_counter := event_counter d; buffer_length := buffer_length d;
     wait_mut := wait_mut d; board_id := board_id d;
     channel_read_mask := channel_read_mask d; cancel_wait := cancel_wait d;
     start_time := start_time d; next_read_buffer := next_read_buffer d;
     hardware_next := hardware_next d; poll_interval := v;
     spi_clock := spi_clock d; cs_change := cs_change d; delay_us := delay_us d;
     pretrigger := pretrigger d; buf := buf d; nused := nused d;
     current_buf := current_buf d; current_mode := current_mode d;
     gpio_pin := gpio_pin d |}.

Definition with_spi (clock cs delay : Z) (d : beacon_dev) : beacon_dev :=
  {| fd := fd d; enable_locking := enable_locking d;
     readout_number_offset := readout_number_offset d;
     event_counter := event_counter d; buffer_length := buffer_length d;
     wait_mut := wait_mut d; board_id := board_id d;
     channel_read_mask := channel_read_mask d; cancel_wait := cancel_wait d;
     start_time := start_time d; next_read_buffer := next_read_buffer d;
     hardware_next := hardware_next d; poll_interval := poll_interval d;
     spi_clock := clock; cs_change := cs; delay_us := delay;
     pretrigger := pretrigger d; buf := buf d; nused := nused d;
     current_buf := current_buf d; current_mode := current_mode d;
     gpio_pin := gpio_pin d |}.

Definition with_pretrigger (v : Z) (d : beacon_dev) : beacon_dev :=
  {| fd := fd d; enable_locking := enable_locking d;
     readout_number_offset := readout_number_offset d;
     event_counter := event_counter d; buffer_length := buffer_length d;
     wait_mut := wait_mut d; board_id := board_id d;
     channel_read_mask := channel_read_mask d; cancel_wait := cancel_wait d;
     start_time := start_time d; next_read_buffer := next_read_buffer d;
     hardware_next := hardware_next d; poll_interval := poll_interval d;
     spi_clock := spi_clock d; cs_change := cs_change d; delay_us := delay_us d;
     pretrigger := v; buf := buf d; nused := nused d;
     current_buf := current_buf d; current_mode := current_mode d;
     gpio_pin := gpio_pin d |}.

Definition with_buf (v : arr2 (nat -> spi_ioc_transfer)) (d : beacon_dev)
  : beacon_dev :=
  {| fd := fd d; enable_locking := enable_locking d;
     readout_number_offset := readout_number_offset d;
     event_counter := event_counter d; buffer_length := buffer_length d;
     wait_mut := wait_mut d; board_id := board_id d;
     channel_read_mask := channel_read_mask d; cancel_wait := cancel_wait d;
     start_time := start_time d; next_read_buffer := next_read_buffer d;
     hardware_next := hardware_next d; poll_interval := poll_interval d;
     spi_clock := spi_clock d; cs_change := cs_change d; delay_us := delay_us d;
     pretrigger := pretrigger d; buf := v; nused := nused d;
     current_buf := current_buf d; current_mode := current_mode d;
     gpio_pin := gpio_pin d |}.

Definition with_nused (v : arr2 Z) (d : beacon_dev) : beacon_dev :=
  {| fd := fd d; enable_locking := enable_locking d;
     readout_number_offset := readout_number_offset d;
     event_counter := event_counter d; buffer_length := buffer_length d;
     wait_mut := wait_mut d; board_id := board_id d;
     channel_read_mask := channel_read_mask d; cancel_wait := cancel_wait d;
     start_time := start_time d; next_read_buffer := next_read_buffer d;
     hardware_next := hardware_next d; poll_interval := poll_interval d;
     spi_clock := spi_clock d; cs_change := cs_change d; delay_us := delay_us d;
     pretrigger := pretrigger d; buf := buf d; nused := v;
     current_buf := current_buf d; current_mode := current_mode d;
     gpio_pin := gpio_pin d |}.

Definition with_current_buf (v : arr2 Z) (d : beacon_dev) : beacon_dev :=
  {| fd := fd d; enable_locking := enable_locking d;
     readout_number_offset := readout_number_offset d;
     event_counter := event_counter d; buffer_length := buffer_length d;
     wait_mut := wait_mut d; board_id := board_id d;
     channel_read_mask := channel_read_mask d; cancel_wait := cancel_wait d;
     start_time := start_time d; next_read_buffer := next_read_buffer d;
     hardware_next := hardware_next d; poll_interval := poll_interval d;
     spi_clock := spi_clock d; cs_change := cs_change d; delay_us := delay_us d;
     pretrigger := pretrigger d; buf := buf d; nused := nused d;
     current_buf := v; current_mode := current_mode d;
     gpio_pin := gpio_pin d |}.

Definition with_current_mode (v : arr2 Z) (d : beacon_dev) : beacon_dev :=
  {| fd := fd d; enable_locking := enable_locking d;
     readout_number_offset := readout_number_offset d;
     event_counter := event_counter d; buffer_length := buffer_length d;
     wait_mut := wait_mut d; board_id := board_id d;
     channel_read_mask := channel_read_mask d; cancel_wait := cancel_wait d;
     start_time := start_time d; next_read_buffer := next_read_buffer d;
     hardware_next := hardware_next d; poll_interval := poll_interval d;
     spi_clock := spi_clock d; cs_change := cs_change d; delay_us := delay_us d;
     pretrigger := pretrigger d; buf := buf d; nused := nused d;
     current_buf := current_buf d; current_mode := v;
     gpio_pin := gpio_pin d |}.

Definition with_gpio_pin (v : Z) (d : beacon_dev) : beacon_dev :=
  {| fd := fd d; enable_locking := enable_locking d;
     readout_number_offset := readout_number_offset d;
     event_counter := event_counter d; buffer_length := buffer_length d;
     wait_mut := wait_mut d; board_id := board_id d;
     channel_read_mask := channel_read_mask d; cancel_wait := cancel_wait d;
     start_time := start_time d; next_read_buffer := next_read_buffer d;
     hardware_next := hardware_next d; poll_interval := poll_interval d;
     spi_clock := spi_clock d; cs_change := cs_change d; delay_us := delay_us d;
     pretrigger := pretrigger d; buf := buf d; nused := nused d;
     current_buf := current_buf d; current_mode := current_mode d;
     gpio_pin := v |}.

(** ** Headers and events (the caller's storage) *)

(** beacon_header_t.  The two approximate trigger-time fields, which the
    driver computes in double precision, are left out. *)
Record beacon_header_t := {
  event_number : Z;
  trig_number : Z;
  hd_buffer_length : Z;
  pretrigger_samples : Z;
  readout_time : arr2 Z;
  readout_time_ns : arr2 Z;
  trig_time : arr2 Z;
  triggered_beams : Z;
  beam_mask : Z;
  beam_power : Z;
  pps_counter : Z;
  dynamic_beam_mask : Z;
  veto_deadtime_counter : Z;
  deadtime : arr2 Z;
  buffer_number : Z;
  channel_mask : Z;
  hd_channel_read_mask : arr2 Z;
  gate_flag : Z;
  buffer_mask : Z;
  hd_board_id : arr2 Z;
  trig_type : Z;
  trig_pol : Z;
  calpulser : Z;
  sync_problem : Z
}.

Definition header0 : beacon_header_t := {|
  event_number := 0; trig_number := 0; hd_buffer_length := 0;
  pretrigger_samples := 0; readout_time := fun _ => 0;
  readout_time_ns := fun _ => 0; trig_time := fun _ => 0;
  triggered_beams := 0; beam_mask := 0; beam_power := 0; pps_counter := 0;
  dynamic_beam_mask := 0; veto_deadtime_counter := 0; deadtime := fun _ => 0;
  buffer_number := 0; channel_mask := 0; hd_channel_read_mask := fun _ => 0;
  gate_flag := 0; buffer_mask := 0; hd_board_id := fun _ => 0; trig_type := 0;
  trig_pol := 0; calpulser := 0; sync_problem := 0 |}.

Definition with_sync_problem (v : Z) (h : beacon_header_t) : beacon_header_t :=
  {| event_number := event_number h; trig_number := trig_number h;
     hd_buffer_length := hd_buffer_length h;
     pretrigger_samples := pretrigger_samples h;
     readout_time := readout_time h; readout_time_ns := readout_time_ns h;
     trig_time := trig_time h; triggered_beams := triggered_beams h;
     beam_mask := beam_mask h; beam_power := beam_power h;
     pps_counter := pps_counter h; dynamic_beam_mask := dynamic_beam_mask h;
     veto_deadtime_counter := veto_deadtime_counter h; deadtime := deadtime h;
     buffer_number := buffer_number h; channel_mask := channel_mask h;
     hd_channel_read_mask := hd_channel_read_mask h; gate_flag := gate_flag h;
     buffer_mask := buffer_mask h; hd_board_id := hd_board_id h;
     trig_type := trig_type h; trig_pol := trig_pol h; calpulser := calpulser h;
     sync_problem := v |}.

(** The fields written for every board (indexed by ibd). *)
Definition with_board_fields (b : beacon_which_board_t)
    (rt rtns tt crm dt bid : Z) (h : beacon_header_t) : beacon_header_t :=
  {| event_number := event_number h; trig_number := trig_number h;
     hd_buffer_length := hd_buffer_length h;
     pretrigger_samples := pretrigger_samples h;
     readout_time := set2 (readout_time h) b rt;
     readout_time_ns := set2 (readout_time_ns h) b rtns;
     trig_time := set2 (trig_time h) b tt;
     triggered_beams := triggered_beams h;
     beam_mask := beam_mask h; beam_power := beam_power h;
     pps_counter := pps_counter h; dynamic_beam_mask := dynamic_beam_mask h;
     veto_deadtime_counter := veto_deadtime_counter h;
     deadtime := set2 (deadtime h) b dt;
     buffer_number := buffer_number h; channel_mask := channel_mask h;
     hd_channel_read_mask := set2 (hd_channel_read_mask h) b crm;
     gate_flag := gate_flag h;
     buffer_mask := buffer_mask h; hd_board_id := set2 (hd_board_id h) b bid;
     trig_type := trig_type h; trig_pol := trig_pol h; calpulser := calpulser h;
     sync_problem := sync_problem h |}.

(** The fields written from the master only. *)
Definition with_master_fields
    (evn tn bl ps tb bm bp pps dbm vdc bn gf bmask tty cp cm tp : Z)
    (h : beacon_header_t) : beacon_header_t :=
  {| event_number := evn; trig_number := tn; hd_buffer_length := bl;
     pretrigger_samples := ps;
     readout_time := readout_time h; readout_time_ns := readout_time_ns h;
     trig_time := trig_time h; triggered_beams := tb;
     beam_mask := bm; beam_power := bp; pps_counter := pps;
     dynamic_beam_mask := dbm; veto_deadtime_counter := vdc;
     deadtime := deadtime h; buffer_number := bn; channel_mask := cm;
     hd_channel_read_mask := hd_channel_read_mask h; gate_flag := gf;
     buffer_mask := bmask; hd_board_id := hd_board_id h;
     trig_type := tty; trig_pol := tp; calpulser := cp;
     sync_problem := sync_problem h |}.

(** beacon_event_t without its samples, which live in the byte memory
    (regions [E_data]). *)
Record beacon_event_t := {
  ev_event_number : Z;
  ev_buffer_length : Z;
  ev_board_id : arr2 Z
}.

Definition event0 : beacon_event_t :=
  {| ev_event_number := 0; ev_buffer_length := 0; ev_board_id := fun _ => 0 |}.

(** ** The machine: environment, trace, memory *)

Inductive clockid := CLOCK_REALTIME | CLOCK_MONOTONIC.

(** Every call that leaves the process. *)
Inductive syscall :=
| SysSpiMessage (fd : Z) (msg : list spi_ioc_transfer)
      (* ioctl(fd, SPI_IOC_MESSAGE(n), xfer) *)
| SysWrite (fd : Z) (p : frame)          (* write(fd, p, BN_SPI_BYTES) *)
| SysRead (fd : Z)                       (* read(fd, p, BN_SPI_BYTES) *)
| SysClockGettime (c : clockid)
| SysTime
| SysUsleep (us : Z)
| SysSleep (s : Z)
| SysSchedYield
| SysOpen (slave : bool)                 (* open(devicename, O_RDWR) *)
| SysFlock (fd : Z) (lock : bool)        (* LOCK_EX|LOCK_NB, or LOCK_UN *)
| SysClose (fd : Z)
| SysSpiWrMode (fd : Z)
| SysSpiWrMaxSpeed (fd : Z) (hz : Z)
| SysGpioOpen (n : Z)
| SysGpioSet (pin : Z) (v : Z)
| SysGpioClose (pin : Z).

(** What a call gives back: the integer result, the frames clocked in (one
    for each transfer of a message, or the one of a read), the time. *)
Record sysret := { ret_val : Z; rx_data : nat -> frame; ret_time : timespec }.

Record machine := {
  m_env : nat -> syscall -> sysret;   (* the n-th call, what it asks *)
  m_trace : list syscall;             (* the calls made, oldest first *)
  m_mem : ptr -> Z;                   (* bytes of the rx regions *)
  m_hd : nat -> beacon_header_t;      (* headers, by the caller's pointer *)
  m_ev : nat -> beacon_event_t;       (* events, by the caller's pointer *)
  board_id_counter : Z;               (* static int board_id_counter *)
  m_dev : beacon_dev                  (* the handle *)
}.

Definition with_trace (t : list syscall) (m : machine) : machine :=
  {| m_env := m_env m; m_trace := t; m_mem := m_mem m; m_hd := m_hd m;
     m_ev := m_ev m; board_id_counter := board_id_counter m;
     m_dev := m_dev m |}.

Definition with_mem (v : ptr -> Z) (m : machine) : machine :=
  {| m_env := m_env m; m_trace := m_trace m; m_mem := v; m_hd := m_hd m;
     m_ev := m_ev m; board_id_counter := board_id_counter m;
     m_dev := m_dev m |}.

Definition with_hd (v : nat -> beacon_header_t) (m : machine) : machine :=
  {| m_env := m_env m; m_trace := m_trace m; m_mem := m_mem m; m_hd := v;
     m_ev := m_ev m; board_id_counter := board_id_counter m;
     m_dev := m_dev m |}.

Definition with_ev (v : nat -> beacon_event_t) (m : machine) : machine :=
  {| m_env := m_env m; m_trace := m_trace m; m_mem := m_mem m; m_hd := m_hd m;
     m_ev := v; board_id_counter := board_id_counter m;
     m_dev := m_dev m |}.

Definition with_board_id_counter (v : Z) (m : machine) : machine :=
  {| m_env := m_env m; m_trace := m_trace m; m_mem := m_mem m; m_hd := m_hd m;
     m_ev := m_ev m; board_id_counter := v; m_dev := m_dev m |}.

Definition with_dev (v : beacon_dev) (m : machine) : machine :=
  {| m_env := m_env m; m_trace := m_trace m; m_mem := m_mem m; m_hd := m_hd m;
     m_ev := m_ev m; board_id_counter := board_id_counter m; m_dev := v |}.

(** A fresh process: nothing called yet, the counter at its initializer. *)
Definition boot (env : nat -> syscall -> sysret) : machine :=
  {| m_env := env; m_trace := []; m_mem := fun _ => 0;
     m_hd := fun _ => header0; m_ev := fun _ => event0;
     board_id_counter := 1; m_dev := zero_dev |}.

(** The state monad of the driver. *)
Definition M (A : Type) : Type := machine -> A * machine.

Definition ret {A} (a : A) : M A := fun m => (a, m).

Definition bind {A B} (c : M A) (k : A -> M B) : M B :=
  fun m => let (a, m') := c m in k a m'.

Declare Scope drv_scope.
Delimit Scope drv_scope with drv.
Notation "x <- c1 ;; c2" := (bind c1 (fun x => c2))
  (at level 61, c1 at next level, right associativity) : drv_scope.
Notation "c1 ;; c2" := (bind c1 (fun _ => c2))
  (at level 61, right associativity) : drv_scope.
Open Scope drv_scope.

Definition get_dev : M beacon_dev := fun m => (m_dev m, m).

Definition modify_dev (f : beacon_dev -> beacon_dev) : M unit :=
  fun m => (tt, with_dev (f (m_dev m)) m).

Definition get : M machine := fun m => (m, m).

Definition modify (f : machine -> machine) : M unit := fun m => (tt, f m).

Definition when (b : bool) (c : M unit) : M unit := if b then c else ret tt.

(** A loop [for (i = ...; ...; i++)] over the listed values of [i]. *)
Fixpoint for_each {A} (l : list A) (body : A -> M unit) : M unit :=
  match l with
  | [] => ret tt
  | x :: l' => body x ;; for_each l' body
  end.

(** Ask the environment, and record the call. *)
Definition sys (c : syscall) : M sysret :=
  fun m => (m_env m (length (m_trace m)) c, with_trace (m_trace m ++ [c]) m).

(** Memory of the rx regions. *)
Definition store_byte (p : ptr) (v : Z) (mem : ptr -> Z) : ptr -> Z :=
  fun q => if ptr_eqb q p then v else mem q.

Definition store_frame (p : ptr) (f : frame) (mem : ptr -> Z) : ptr -> Z :=
  store_byte (ptr_add p 3) (byte3 f)
    (store_byte (ptr_add p 2) (byte2 f)
       (store_byte (ptr_add p 1) (byte1 f) (store_byte p (byte0 f) mem))).

Definition load_frame (mem : ptr -> Z) (p : ptr) : frame :=
  Frame (mem p) (mem (ptr_add p 1)) (mem (ptr_add p 2)) (mem (ptr_add p 3)).

Definition load (r : region) : M frame :=
  fun m => (load_frame (m_mem m) (r, 0), m).

(** memset(p, 0, n) on an rx region. *)
Definition memset0 (p : ptr) (n : Z) (mem : ptr -> Z) : ptr -> Z :=
  fun q =>
    if region_eqb (fst q) (fst p) && (snd p <=? snd q) && (snd q <? snd p + n)
    then 0 else mem q.

(** The transfers of a message that have an rx buffer receive their frame. *)
Fixpoint store_rx (msg : list spi_ioc_transfer) (i : nat) (rx : nat -> frame)
    (mem : ptr -> Z) : ptr -> Z :=
  match msg with
  | [] => mem
  | x :: msg' =>
      store_rx msg' (S i) rx
        (match rx_buf x with
         | Some p => store_frame p (rx i) mem
         | None => mem
         end)
  end.

(** ** The wrappers of the I/O calls *)

(** do_xfer: one multi-transfer ioctl with the first [n] entries of the list.
    The kernel fills the rx buffers unless it reports an error (a negative
    result). *)
Definition do_xfer (fd_ n : Z) (xfer : nat -> spi_ioc_transfer) : M Z :=
  let msg := map xfer (seq 0 (Z.to_nat n)) in
  r <- sys (SysSpiMessage fd_ msg) ;;
  when (0 <=? ret_val r)
       (modify (fun m => with_mem (store_rx msg 0 (rx_data r) (m_mem m)) m)) ;;
  ret (ret_val r).

Definition do_write (fd_ : Z) (p : frame) : M Z :=
  r <- sys (SysWrite fd_ p) ;; ret (ret_val r).

(** do_read: the frame read lands in the caller's buffer [p]. *)
Definition do_read (fd_ : Z) (p : ptr) : M Z :=
  r <- sys (SysRead fd_) ;;
  when (0 <? ret_val r)
       (modify (fun m => with_mem (store_frame p (rx_data r 0%nat) (m_mem m)) m)) ;;
  ret (ret_val r).

Definition clock_gettime (c : clockid) : M timespec :=
  r <- sys (SysClockGettime c) ;; ret (ret_time r).

(** ** The precomputed frames (fillBuffers); the tables are indexed within
    their bounds by the driver, the byte stored is the index cut to eight
    bits. *)
Definition buf_mode (i : Z) : frame := Frame REG_MODE 0 0 (u8 i).
Definition buf_set_read_reg (i : Z) : frame := Frame REG_SET_READ_REG 0 0 (u8 i).
Definition buf_channel (i : Z) : frame := Frame REG_CHANNEL 0 0 (u8 (Z.shiftl 1 i)).
Definition buf_buffer (i : Z) : frame := Frame REG_BUFFER 0 0 (u8 i).
Definition buf_chunk (i : Z) : frame := Frame (u8 (REG_CHUNK + i)) 0 0 0.
Definition buf_ram_addr (i : Z) : frame := Frame REG_RAM_ADDR 0 0 (u8 i).
Definition buf_clear (i : Z) : frame := Frame REG_CLEAR 0 0 (u8 i).
Definition buf_reset_buf : frame := Frame REG_CLEAR 0 1 0.
Definition buf_sync_on : frame := Frame REG_SYNC 0 0 1.
Definition buf_sync_off : frame := Frame REG_SYNC 0 0 0.
Definition buf_reset_all : frame := Frame REG_RESET_ALL 0 0 1.
Definition buf_reset_almost_all : frame := Frame REG_RESET_ALL 0 0 2.
Definition buf_reset_counter : frame := Frame REG_RESET_COUNTER 0 0 1.
Definition buf_adc_clk_rst : frame := Frame REG_ADC_CLK_RST 0 0 0.
Definition buf_apply_attenuation : frame := Frame REG_ATTEN_APPLY 0 0 0.

(** The number of boards the driver drives: [#define NBD(d) (1)]. *)
Definition NBD (d : beacon_dev) : Z := 1.

(** The boards [ibd] with [0 <= ibd < n]. *)
Definition boards_below (n : Z) : list beacon_which_board_t :=
  filter (fun b => board_index b <? n) [MASTER; SLAVE].

(** ** The transfer batcher *)

Definition buffer_send (which : beacon_which_board_t) : M Z :=
  d <- get_dev ;;
  if nused d which =? 0 then ret 0
  else
    wrote <- do_xfer (fd d which) (nused d which) (buf d which) ;;
    if wrote <? nused d which * BN_SPI_BYTES then ret (-1)
    else
      modify_dev (fun d => with_nused (set2 (nused d) which 0) d) ;;
      ret 0.

(** The used entries of a board's list: the message a flush sends. *)
Definition pending (which : beacon_which_board_t) (d : beacon_dev)
  : list spi_ioc_transfer :=
  map (buf d which) (seq 0 (Z.to_nat (nused d which))).

(** What the multi-transfer ioctl of a flush of [which] will return in
    machine [m]. *)
Definition flush_result (which : beacon_which_board_t) (m : machine) : Z :=
  ret_val (m_env m (length (m_trace m))
             (SysSpiMessage (fd (m_dev m) which) (pending which (m_dev m)))).

(** A flush fails when there is something to send and the ioctl reports
    fewer bytes than were asked for. *)
Definition flush_fails (which : beacon_which_board_t) (m : machine) : bool :=
  nonzero (nused (m_dev m) which)
  && (flush_result which m <? nused (m_dev m) which * BN_SPI_BYTES).

Definition set_entry (a : nat -> spi_ioc_transfer) (i : nat)
    (x : spi_ioc_transfer) : nat -> spi_ioc_transfer :=
  fun j => if Nat.eqb j i then x else a j.

(** The entry [nused] of the list is written and [nused] grows by one. *)
Definition push_xfer (which : beacon_which_board_t) (x : spi_ioc_transfer)
    (d : beacon_dev) : beacon_dev :=
  with_nused (set2 (nused d) which (nused d which + 1))
    (with_buf (set2 (buf d) which
                 (set_entry (buf d which) (Z.to_nat (nused d which)) x)) d).

(** this will send if full! *)
Definition buffer_append (which : beacon_which_board_t)
    (txbuf : option frame) (rxbuf : option ptr) : M Z :=
  d <- get_dev ;;
  failed <- (if nused d which >=? MAX_XFERS
             then r <- buffer_send which ;; ret (nonzero r)
             else ret false) ;;
  if failed : bool then ret (-1)
  else modify_dev (push_xfer which (Xfer txbuf rxbuf)) ;; ret 0.

(** A null [result] gives a transfer without rx buffer. *)
Definition append_read_register (which : beacon_which_board_t) (address : Z)
    (result : option ptr) : M Z :=
  r1 <- buffer_append which (Some (buf_set_read_reg address)) None ;;
  r2 <- buffer_append which None result ;;
  ret (r1 + r2).

(** ** Loops with an early exit *)

(** The values 0, 1, ..., n-1 of a loop counter. *)
Definition zrange (n : Z) : list Z := map Z.of_nat (seq 0 (Z.to_nat n)).

(** [ret += body; if (ret) return ret;] for each element in turn: the first
    non-zero result ends the loop and is the result. *)
Fixpoint until_fail {A} (l : list A) (body : A -> M Z) : M Z :=
  match l with
  | [] => ret 0
  | x :: l' =>
      r <- body x ;;
      if nonzero r then ret r else until_fail l' body
  end.

(** ** Synchronized command *)

(** The branch taken when there is no second board: just do a normal
    command.  (USING and DONE around the body: see the head of the file.) *)
Definition synchronized_command_master_only (cmd : frame)
    (reg_to_read_after : Z) (result_master : option ptr) : M Z :=
  r1 <- buffer_append MASTER (Some cmd) None ;;
  r2 <- (if nonzero reg_to_read_after
         then append_read_register MASTER reg_to_read_after result_master
         else ret 0) ;;
  r3 <- buffer_send MASTER ;;
  ret (r1 + r2 + r3).

(** The branch for two boards: sync on to the master, the command to the
    slave, then the command and sync off to the master. *)
Definition synchronized_command_both (cmd : frame) (reg_to_read_after : Z)
    (result_master result_slave : option ptr) : M Z :=
  r1 <- buffer_append MASTER (Some buf_sync_on) None ;;
  r2 <- buffer_send MASTER ;;
  r3 <- buffer_append SLAVE (Some cmd) None ;;
  r4 <- buffer_send SLAVE ;;
  r5 <- buffer_append MASTER (Some cmd) None ;;
  r6 <- buffer_append MASTER (Some buf_sync_off) None ;;
  r7 <- buffer_send MASTER ;;
  r8 <- (if nonzero reg_to_read_after
         then
           a <- append_read_register MASTER reg_to_read_after result_master ;;
           b <- append_read_register SLAVE reg_to_read_after result_slave ;;
           c <- buffer_send SLAVE ;;
           e <- buffer_send MASTER ;;
           ret (a + b + c + e)
         else ret 0) ;;
  ret (r1 + r2 + r3 + r4 + r5 + r6 + r7 + r8).

Definition synchronized_command (cmd : frame) (reg_to_read_after : Z)
    (result_master result_slave : option ptr) : M Z :=
  d <- get_dev ;;
  if NBD d <? 2
  then synchronized_command_master_only cmd reg_to_read_after result_master
  else synchronized_command_both cmd reg_to_read_after
         result_master result_slave.

(** The (board, frame) pairs a trace puts on the bus, in order: each transfer
    of each message that carries a frame, and each plain write, with the
    descriptor it went to. *)
Definition transmitted_by (c : syscall) : list (Z * frame) :=
  match c with
  | SysSpiMessage fd_ msg =>
      flat_map (fun x => match tx_buf x with
                         | Some f => [(fd_, f)]
                         | None => []
                         end) msg
  | SysWrite fd_ p => [(fd_, p)]
  | _ => []
  end.

Definition transmitted (t : list syscall) : list (Z * frame) :=
  flat_map transmitted_by t.

(** Result buffers that are locals of driver functions. *)
Definition data_status : ptr := (L_result 0, 0).
Definition cleared_master : ptr := (L_result 1, 0).
Definition cleared_slave : ptr := (L_result 2, 0).
Definition status_result : ptr := (L_result 3, 0).
Definition fwver : ptr := (L_result 4, 0).
Definition trigger_enable_buf : ptr := (L_result 5, 0).
Definition attenuation_012 : ptr := (L_result 6, 0).
Definition attenuation_345 : ptr := (L_result 7, 0).
Definition attenuation_067 : ptr := (L_result 8, 0).

Definition mark_buffers_done (buf_ : Z) : M Z :=
  d <- get_dev ;;
  if NBD d <? 2
  then
    r1 <- buffer_append MASTER (Some (buf_clear buf_)) None ;;
    r2 <- append_read_register MASTER REG_CLEAR_STATUS (Some data_status) ;;
    r3 <- buffer_send MASTER ;;
    ret (r1 + r2 + r3)
  else
    r <- synchronized_command (buf_clear buf_) REG_CLEAR_STATUS
           (Some cleared_master) (Some cleared_slave) ;;
    if nonzero r then ret r else ret 0.

Definition loop_over_chunks_half_duplex (which : beacon_which_board_t)
    (naddr start_address : Z) (result : ptr) : M Z :=
  until_fail (zrange naddr) (fun iaddr =>
    r <- buffer_append which (Some (buf_ram_addr (start_address + iaddr))) None ;;
    if nonzero r then ret r
    else
      until_fail (zrange BN_NUM_CHUNK) (fun ichunk =>
        r <- buffer_append which (Some (buf_chunk ichunk)) None ;;
        if nonzero r then ret r
        else
          buffer_append which None
            (Some (ptr_add result
                     (BN_NUM_CHUNK * BN_SPI_BYTES * iaddr
                      + ichunk * BN_SPI_BYTES))))).

Definition beacon_read_register (address : Z) (result : ptr)
    (which : beacon_which_board_t) : M Z :=
  r1 <- append_read_register which address (Some result) ;;
  r2 <- buffer_send which ;;
  m <- get ;;
  if m_mem m result =? address then ret (r1 + r2) else ret (r1 + r2 + 1).

Definition beacon_sw_trigger : M Z :=
  let buf_ := Frame REG_FORCE_TRIG 0 0 1 in
  d <- get_dev ;;
  if NBD d <? 2
  then
    wrote <- do_write (fd d MASTER) buf_ ;;
    ret (if wrote =? BN_SPI_BYTES then 0 else -1)
  else synchronized_command buf_ 0 None None.

Definition beacon_calpulse (state : Z) : M Z :=
  let buf_ := Frame REG_CALPULSE 0 0 (u8 state) in
  d <- get_dev ;;
  r0 <- (if nonzero (fd d MASTER) then do_write (fd d MASTER) buf_ else ret 0) ;;
  r1 <- (if nonzero (fd d SLAVE) then do_write (fd d SLAVE) buf_ else ret r0) ;;
  ret (if r1 =? BN_SPI_BYTES then 0 else 1).

(** ** Board ids *)

(** [id] is a uint8_t. *)
Definition beacon_set_board_id (id : Z) (which : beacon_which_board_t)
  : M unit :=
  m <- get ;;
  when (id <=? board_id_counter m)
       (modify (with_board_id_counter (id + 1))) ;;
  modify_dev (fun d => with_board_id (set2 (board_id d) which id) d).

Definition beacon_get_board_id (which : beacon_which_board_t) : M Z :=
  d <- get_dev ;; ret (board_id d which).

(** ** Raw write and read *)

(** The number of bytes the write calls of beacon_write report ([written]). *)
Definition beacon_write_written (buffer : frame) : M Z :=
  d <- get_dev ;;
  w0 <- do_write (fd d MASTER) buffer ;;
  if nonzero (fd d SLAVE)
  then w1 <- do_write (fd d SLAVE) buffer ;; ret (w0 + w1)
  else ret w0.

(** [return written == d->fd[1] ? 2 * BN_SPI_BYTES : BN_SPI_BYTES ? 0 : -1;]
    which C reads as [a ? b : (c ? 0 : -1)]. *)
Definition beacon_write (buffer : frame) : M Z :=
  d <- get_dev ;;
  written <- beacon_write_written buffer ;;
  ret (if written =? fd d SLAVE then 2 * BN_SPI_BYTES
       else if nonzero BN_SPI_BYTES then 0 else -1).

Definition beacon_read (buffer : ptr) (which : beacon_which_board_t) : M Z :=
  d <- get_dev ;;
  got <- do_read (fd d which) buffer ;;
  ret (if got =? BN_SPI_BYTES then 0 else -1).

(** ** Attenuation *)

(** reverse_bits, the portable version: bit [i] of [in] becomes bit [7-i]. *)
Definition reverse_bits (in_ : Z) : Z :=
  fold_left (fun out i =>
               if nonzero (Z.land in_ (Z.shiftl 1 i))
               then Z.lor out (Z.shiftl 1 (7 - i))
               else out)
            (zrange 8) 0.

(** reverse_buf_bits calls reverse_bits on bytes 3, 2 and 1 and drops the three
    results: the buffer is not written. *)
Definition reverse_buf_bits (buf_ : frame) : frame :=
  let _ := reverse_bits (byte3 buf_) in
  let _ := reverse_bits (byte2 buf_) in
  let _ := reverse_bits (byte1 buf_) in
  buf_.

(** The three attenuator frames of one board, before reverse_buf_bits. *)
Definition attenuation_frames (att : nat -> Z) : frame * frame * frame :=
  (Frame REG_ATTEN_012 (att 2%nat) (att 1%nat) (att 0%nat),
   Frame REG_ATTEN_345 (att 5%nat) (att 4%nat) (att 3%nat),
   Frame REG_ATTEN_67 0 (att 7%nat) (att 6%nat)).

Definition send_attenuation (which : beacon_which_board_t) (att : nat -> Z)
  : M Z :=
  let '(a012, a345, a067) := attenuation_frames att in
  let a012 := reverse_buf_bits a012 in
  let a345 := reverse_buf_bits a345 in
  let a067 := reverse_buf_bits a067 in
  r1 <- buffer_append which (Some a012) None ;;
  r2 <- buffer_append which (Some a345) None ;;
  r3 <- buffer_append which (Some a067) None ;;
  r4 <- buffer_send which ;;
  ret (r1 + r2 + r3 + r4).

(** A null array pointer is [None]. *)
Definition beacon_set_attenuation (attenuation_master attenuation_slave
    : option (nat -> Z)) : M Z :=
  d <- get_dev ;;
  r1 <- match attenuation_master with
        | Some att => send_attenuation MASTER att
        | None => ret 0
        end ;;
  r2 <- match attenuation_slave with
        | Some att =>
            if nonzero (fd d SLAVE) then send_attenuation SLAVE att else ret 0
        | None => ret 0
        end ;;
  r3 <- synchronized_command buf_apply_attenuation 0 None None ;;
  ret (r1 + r2 + r3).

(** The read of the three attenuator registers; both blocks of
    beacon_get_attenuation read them from the master. *)
Definition read_attenuation_registers : M Z :=
  r1 <- append_read_register MASTER REG_ATTEN_012 (Some attenuation_012) ;;
  r2 <- append_read_register MASTER REG_ATTEN_345 (Some attenuation_345) ;;
  r3 <- append_read_register MASTER REG_ATTEN_67 (Some attenuation_067) ;;
  r4 <- buffer_send MASTER ;;
  ret (r1 + r2 + r3 + r4).

(** The eight values copied out of the three (so-called reversed) buffers. *)
Definition attenuation_out (a012 a345 a067 : frame) : nat -> Z :=
  fun i => nth i [byte3 a012; byte2 a012; byte1 a012;
                  byte3 a345; byte2 a345; byte1 a345;
                  byte3 a067; byte2 a067] 0.

Definition copy_attenuation_out (old : nat -> Z) : M (nat -> Z) :=
  m <- get ;;
  let a012 := reverse_buf_bits (load_frame (m_mem m) attenuation_012) in
  let a345 := reverse_buf_bits (load_frame (m_mem m) attenuation_345) in
  let a067 := reverse_buf_bits (load_frame (m_mem m) attenuation_067) in
  ret (fun i => if Nat.ltb i 8 then attenuation_out a012 a345 a067 i
                else old i).

(** The arrays are the caller's; the result carries what they hold after the
    call. *)
Definition beacon_get_attenuation (attenuation_master attenuation_slave
    : option (nat -> Z)) : M (Z * option (nat -> Z) * option (nat -> Z)) :=
  d <- get_dev ;;
  r1 <- match attenuation_master with
        | Some old =>
            r <- read_attenuation_registers ;;
            if nonzero r then ret (r, Some old)
            else new <- copy_attenuation_out old ;; ret (r, Some new)
        | None => ret (0, None)
        end ;;
  let '(ret1, am) := r1 in
  match attenuation_slave with
  | Some old =>
      if negb (nonzero ret1) && nonzero (fd d SLAVE)
      then
        r <- read_attenuation_registers ;;
        if nonzero (ret1 + r) then ret (ret1 + r, am, Some old)
        else new <- copy_attenuation_out old ;; ret (ret1 + r, am, Some new)
      else ret (ret1, am, Some old)
  | None => ret (ret1, am, None)
  end.

(** ** Trigger enables, phased trigger *)

(** Modelled from the spec: beacon_trigger_enable_t of beacon.h, the four
    enable flags the driver packs into the trigger-enable register. *)
Record beacon_trigger_enable_t := {
  enable_beamforming : Z;
  enable_beam8 : Z;
  enable_beam4a : Z;
  enable_beam4b : Z
}.

(** The write is made between USING and DONE: the definition is the
    function on a handle that does not lock. *)
Definition beacon_set_trigger_enables (enables : beacon_trigger_enable_t)
    (w : beacon_which_board_t) : M Z :=
  let buf_ :=
    Frame REG_TRIG_ENABLE 0
      (u8 (Z.lor (enable_beam8 enables)
             (Z.lor (Z.shiftl (enable_beam4a enables) 1)
                    (Z.shiftl (enable_beam4b enables) 2))))
      (u8 (enable_beamforming enables)) in
  d <- get_dev ;;
  written <- do_write (fd d w) buf_ ;;
  ret (if written =? BN_SPI_BYTES then 0 else 1).

Definition beacon_get_trigger_enables (w : beacon_which_board_t)
  : M beacon_trigger_enable_t :=
  beacon_read_register REG_TRIG_ENABLE trigger_enable_buf w ;;
  m <- get ;;
  let b := load_frame (m_mem m) trigger_enable_buf in
  ret {| enable_beamforming := Z.land (byte3 b) 1;
         enable_beam8 := Z.land (byte2 b) 1;
         enable_beam4a := Z.land (Z.shiftr (byte2 b) 1) 1;
         enable_beam4b := Z.land (Z.shiftr (byte2 b) 2) 1 |}.

(** The writes are made between USING and DONE: the definition is the
    function on a handle that does not lock. *)
Definition beacon_phased_trigger_readout (phased : Z) : M Z :=
  let trigger_buf := Frame REG_PHASED_TRIGGER 0 0 (Z.land phased 1) in
  d <- get_dev ;;
  (if nonzero (fd d SLAVE)
   then do_write (fd d SLAVE) trigger_buf ;; ret tt
   else ret tt) ;;
  do_write (fd d MASTER) trigger_buf ;;
  ret 0.

(** ** Buffer-ready tracker *)

(** [next], when not null, is where the hardware-next hint goes; the driver
    only ever passes the address of the handle's [hardware_next]. *)
Definition beacon_check_buffers (next : option (Z -> beacon_dev -> beacon_dev))
    (which : beacon_which_board_t) : M Z :=
  append_read_register which REG_STATUS (Some status_result) ;;
  buffer_send which ;;
  m <- get ;;
  let result := load_frame (m_mem m) status_result in
  let mask := Z.land (byte3 result) BUF_MASK in
  match next with
  | Some store => modify_dev (store (Z.land (Z.shiftr (byte2 result) 4) 0x3))
  | None => ret tt
  end ;;
  ret mask.

(** ** Wait *)

Definition beacon_cancel_wait : M unit := modify_dev (with_cancel_wait 1).

Definition Qltb (a b : Q) : bool := negb (Qle_bool b a).

(** The elapsed time as the poll loop computes it,
    [(now.tv_sec - start.tv_nsec) * 1e-9f * (now.tv_nsec - start.tv_nsec)],
    in exact rational arithmetic (the C expression is evaluated in single
    precision). *)
Definition waited_expr (start now : timespec) : Q :=
  (inject_Z (tv_sec now - tv_nsec start) * (1 # 1000000000)
   * inject_Z (tv_nsec now - tv_nsec start))%Q.

(** The poll loop.  It may go on for ever, so it is given fuel: [None] means
    the fuel ran out before the loop ended.  The result is [something].  A
    cancellation by another thread while the loop runs is not modelled: the
    flag is as the calls before the wait left it. *)
Fixpoint wait_loop (fuel : nat) (timeout : Q) (start : timespec)
    (which : beacon_which_board_t) (something : Z) (waited : Q)
  : M (option Z) :=
  if negb (nonzero something)
     && (Qle_bool timeout 0 || Qltb waited timeout)
  then
    match fuel with
    | O => ret None
    | S fuel' =>
        something <- beacon_check_buffers (Some with_hardware_next) which ;;
        d <- get_dev ;;
        if nonzero (cancel_wait d) then ret (Some something)
        else if nonzero something
        then wait_loop fuel' timeout start which something waited
        else
          (if nonzero (poll_interval d)
           then sys (SysUsleep (poll_interval d)) ;; ret tt
           else sys SysSchedYield ;; ret tt) ;;
          waited <- (if Qltb 0 timeout
                     then now <- clock_gettime CLOCK_REALTIME ;;
                          ret (waited_expr start now)
                     else ret waited) ;;
          wait_loop fuel' timeout start which something waited
    end
  else ret (Some something).

(** The result is the return value and, when the function got as far as
    writing it, the mask stored through [ready_buffers].  [start] is not
    initialised when the timeout is not positive; it is not read then. *)
Definition beacon_wait (fuel : nat) (timeout : Q)
    (which : beacon_which_board_t) : M (option (Z * option Z)) :=
  d <- get_dev ;;
  if nonzero (enable_locking d) && wait_mut d
  then ret (Some (EBUSY, None))
  else
    when (nonzero (enable_locking d)) (modify_dev (with_wait_mut true)) ;;
    if nonzero (cancel_wait d)
    then
      modify_dev (with_cancel_wait 0) ;;
      when (nonzero (enable_locking d)) (modify_dev (with_wait_mut false)) ;;
      ret (Some (EAGAIN, None))
    else
      start <- (if Qltb 0 timeout then clock_gettime CLOCK_MONOTONIC
                else ret (Timespec 0 0)) ;;
      r <- wait_loop fuel timeout start which 0 0%Q ;;
      match r with
      | None => ret None
      | Some something =>
          d' <- get_dev ;;
          let interrupted := cancel_wait d' in
          modify_dev (with_cancel_wait 0) ;;
          when (nonzero (enable_locking d)) (modify_dev (with_wait_mut false)) ;;
          ret (Some (if nonzero interrupted then EINTR else 0, Some something))
      end.

(** ** Event readout *)

(** [CHK(X)]: when X is not zero, [ret++] and jump to the end of
    beacon_read_multiple_ptr. *)
Inductive chk (A : Type) :=
| Go (a : A)
| TheEnd.
Arguments Go {A} a.
Arguments TheEnd {A}.

Definition E (A : Type) : Type := M (chk A).

Definition CHK (c : M Z) : E unit :=
  r <- c ;; ret (if nonzero r then TheEnd else Go tt).

Definition ebind {A B} (c : E A) (k : A -> E B) : E B :=
  r <- c ;; match r with Go a => k a | TheEnd => ret TheEnd end.

Definition lift {A} (c : M A) : E A := a <- c ;; ret (Go a).

Notation "x <-- c1 ;;; c2" := (ebind c1 (fun x => c2))
  (at level 61, c1 at next level, right associativity) : drv_scope.
Notation "c1 ;;; c2" := (ebind c1 (fun _ => c2))
  (at level 61, right associativity) : drv_scope.

Fixpoint efor_each {A} (l : list A) (body : A -> E unit) : E unit :=
  match l with
  | [] => ret (Go tt)
  | x :: l' => body x ;;; efor_each l' body
  end.

Definition modify_hd (h : nat) (f : beacon_header_t -> beacon_header_t)
  : M unit :=
  modify (fun m => with_hd (fun k => if Nat.eqb k h then f (m_hd m k)
                                     else m_hd m k) m).

Definition modify_ev (e : nat) (f : beacon_event_t -> beacon_event_t)
  : M unit :=
  modify (fun m => with_ev (fun k => if Nat.eqb k e then f (m_ev m k)
                                     else m_ev m k) m).

(** A 24-bit register field: be32toh of the word received, low three bytes. *)
Definition field24 (f : frame) : Z := Z.land (be32 f) 0xffffff.

(** [abs] of the difference of two uint64_t, taken as an int. *)
Definition abs_diff_int (a b : Z) : Z :=
  let x := u32 (u64 (a - b)) in
  Z.abs (if x <? 2 ^ 31 then x else x - 2 ^ 32).

(** [uint8_t hwbuf = (tinfo >> 22) & 0x3;] on the trig_info word received:
    the hardware buffer index. *)
Definition hwbuf_of (tinfo : frame) : Z :=
  u8 (Z.land (Z.shiftr (be32 tinfo) 22) 0x3).

(** Queue the metadata reads of one board for header [h]. *)
Definition queue_metadata (ibd : beacon_which_board_t) (h : nat) : E unit :=
  CHK (append_read_register ibd REG_EVENT_COUNTER_LOW
         (Some (L_event_counter 0, 0))) ;;;
  CHK (append_read_register ibd REG_EVENT_COUNTER_HIGH
         (Some (L_event_counter 1, 0))) ;;;
  CHK (append_read_register ibd REG_TRIG_COUNTER_LOW
         (Some (L_trig_counter 0, 0))) ;;;
  CHK (append_read_register ibd REG_TRIG_COUNTER_HIGH
         (Some (L_trig_counter 1, 0))) ;;;
  CHK (append_read_register ibd REG_TRIG_TIME_LOW (Some (L_trig_time 0, 0))) ;;;
  CHK (append_read_register ibd REG_TRIG_TIME_HIGH (Some (L_trig_time 1, 0))) ;;;
  CHK (append_read_register ibd REG_DEADTIME (Some (L_deadtime, 0))) ;;;
  CHK (append_read_register ibd REG_TRIG_INFO (Some (L_tinfo, 0))) ;;;
  if board_eqb ibd MASTER
  then
    CHK (append_read_register ibd REG_CH_MASKS (Some (L_tmask, 0))) ;;;
    CHK (append_read_register ibd REG_USER_MASK (Some (H_beam_mask h, 0))) ;;;
    CHK (append_read_register ibd REG_LAST_BEAM (Some (L_last_beam, 0))) ;;;
    CHK (append_read_register ibd REG_TRIG_BEAM_POWER
           (Some (H_beam_power h, 0))) ;;;
    CHK (append_read_register ibd REG_PPS_COUNTER
           (Some (H_pps_counter h, 0))) ;;;
    CHK (append_read_register ibd REG_HD_DYN_MASK
           (Some (H_dynamic_beam_mask h, 0))) ;;;
    CHK (append_read_register ibd REG_VETO_DEADTIME_CTR
           (Some (H_veto_deadtime_counter h, 0)))
  else ret (Go tt).

(** Fill header [h] and event [e] from the metadata received from board
    [ibd], with the consistency checks. *)
Definition fill_header (mask : Z) (ibd : beacon_which_board_t) (h e : nat)
    (ibuf : Z) (now : timespec) : M unit :=
  m <- get ;;
  let d := m_dev m in
  let rd r := load_frame (m_mem m) (r, 0) in
  let event_counter0 := field24 (rd (L_event_counter 0)) in
  let event_counter1 := field24 (rd (L_event_counter 1)) in
  let trig_counter0 := field24 (rd (L_trig_counter 0)) in
  let trig_counter1 := field24 (rd (L_trig_counter 1)) in
  let trig_time0 := field24 (rd (L_trig_time 0)) in
  let trig_time1 := field24 (rd (L_trig_time 1)) in
  let big_event_counter := event_counter0 + Z.shiftl event_counter1 24 in
  let tinfo := be32 (rd L_tinfo) in
  let tmask := be32 (rd L_tmask) in
  let last_beam := be32 (rd L_last_beam) in
  let hwbuf := hwbuf_of (rd L_tinfo) in
  when (negb (hwbuf =? ibuf))
       (modify_hd h (fun hh => with_sync_problem (Z.lor (sync_problem hh) 1) hh)) ;;
  modify_hd h (with_board_fields ibd (tv_sec now) (tv_nsec now)
                 (trig_time0 + Z.shiftl trig_time1 24)
                 (channel_read_mask d ibd)
                 (field24 (rd L_deadtime))
                 (board_id d ibd)) ;;
  (if board_eqb ibd MASTER
   then
     let evn := u64 (readout_number_offset d + big_event_counter) in
     modify_hd h (with_master_fields evn
                    (trig_counter0 + Z.shiftl trig_counter1 24)
                    (buffer_length d)
                    (pretrigger d * 8 * 16)
                    (Z.land last_beam 0xffffff)
                    (field24 (rd (H_beam_mask h)))
                    (field24 (rd (H_beam_power h)))
                    (field24 (rd (H_pps_counter h)))
                    (field24 (rd (H_dynamic_beam_mask h)))
                    (field24 (rd (H_veto_deadtime_counter h)))
                    hwbuf
                    (Z.land (Z.shiftr tmask 23) 1)
                    mask
                    (Z.land (Z.shiftr tinfo 15) 0x3)
                    (Z.land (Z.shiftr tinfo 21) 0x1)
                    (Z.land (Z.shiftr tmask 15) 0xff)
                    (Z.land tinfo 0xf)) ;;
     modify_ev e (fun ee => {| ev_event_number := evn;
                               ev_buffer_length := buffer_length d;
                               ev_board_id := ev_board_id ee |})
   else if 1 <? BN_MAX_BOARDS
   then
     hh <- (fun m => (m_hd m h, m)) ;;
     when (negb (trig_number hh =? trig_counter0 + Z.shiftl trig_counter1 24))
          (modify_hd h (fun x => with_sync_problem (Z.lor (sync_problem x) 2) x)) ;;
     when (2 <? abs_diff_int (trig_time hh ibd) (trig_time hh MASTER))
          (modify_hd h (fun x => with_sync_problem (Z.lor (sync_problem x) 4) x)) ;;
     when (negb (hwbuf =? buffer_number hh))
          (modify_hd h (fun x => with_sync_problem (Z.lor (sync_problem x) 8) x))
   else ret tt) ;;
  modify_ev e (fun ee => {| ev_event_number := ev_event_number ee;
                            ev_buffer_length := ev_buffer_length ee;
                            ev_board_id := set2 (ev_board_id ee) ibd
                                             (board_id d ibd) |}).

(** Queue the waveform reads of one channel, or zero the channel. *)
Definition read_channel (ibd : beacon_which_board_t) (e : nat) (ibuf : Z)
    (ichan : Z) : E unit :=
  d <- get_dev ;;
  if nonzero (Z.land (channel_read_mask d ibd) (Z.shiftl 1 ichan))
  then
    (if negb (current_mode d ibd =? MODE_WAVEFORMS)
     then
       CHK (buffer_append ibd (Some (buf_mode MODE_WAVEFORMS)) None) ;;;
       lift (modify_dev (fun d =>
               with_current_mode (set2 (current_mode d) ibd MODE_WAVEFORMS) d))
     else ret (Go tt)) ;;;
    (if negb (current_buf d ibd =? ibuf)
     then CHK (buffer_append ibd (Some (buf_buffer ibuf)) None)
     else ret (Go tt)) ;;;
    (if nonzero (Z.land (channel_read_mask d ibd) (Z.shiftl 1 ichan))
     then
       CHK (buffer_append ibd (Some (buf_channel ichan)) None) ;;;
       CHK (loop_over_chunks_half_duplex ibd
              (u16 (cdiv (buffer_length d) (BN_SPI_BYTES * BN_NUM_CHUNK))) 1
              (E_data e ibd (Z.to_nat ichan), 0))
     else ret (Go tt))
  else
    lift (modify (fun m =>
            with_mem (memset0 (E_data e ibd (Z.to_nat ichan), 0)
                        (buffer_length d) (m_mem m)) m)).

(** zero out things that don't make sense if there is no slave *)
Definition zero_slave (h e : nat) : M unit :=
  modify_hd h (fun hh => with_board_fields SLAVE 0 0 0
                           (hd_channel_read_mask hh SLAVE) 0 0 hh) ;;
  modify (fun m =>
    with_mem (fun q => match fst q with
                       | E_data e' SLAVE _ =>
                           if Nat.eqb e' e then 0 else m_mem m q
                       | _ => m_mem m q
                       end) m).

(** grab the metadata: the buffer is selected and the registers are read;
    the list is flushed. *)
Definition read_metadata (ibd : beacon_which_board_t) (h : nat) (ibuf : Z)
  : E unit :=
  CHK (buffer_append ibd (Some (buf_buffer ibuf)) None) ;;;
  lift (modify_dev (fun d =>
          with_current_buf (set2 (current_buf d) ibd ibuf) d)) ;;;
  queue_metadata ibd h ;;;
  CHK (buffer_send ibd).

(** now start to read the data: the channels in turn, then the flush that
    ends the turn of the board. *)
Definition read_waveforms (ibd : beacon_which_board_t) (h e : nat) (ibuf : Z)
  : E (option Z) :=
  efor_each (zrange BN_NUM_CHAN) (read_channel ibd e ibuf) ;;;
  d <- get_dev ;;
  when (NBD d <? BN_MAX_BOARDS) (zero_slave h e) ;;
  CHK (buffer_send ibd) ;;;
  ret (Go None).

(** One turn of the loop over the boards, for the buffer [ibuf] and the
    output slot with header [h] and event [e].  The result is [Some ibuf']
    when the loop is left by [break], with the new value of [ibuf].  (On a
    handle that locks, the bus mutex is taken after the clock is read and
    given back after each flush; a CHK that fails leaves it held.) *)
Definition read_board (mask : Z) (h e : nat) (ibuf : Z)
    (ibd : beacon_which_board_t) : E (option Z) :=
  if Z.land mask (Z.shiftl 1 ibuf) =? 0
  then
    modify_dev (with_next_read_buffer (ctz mask)) ;;
    ret (Go (Some (ctz mask)))
  else
    now <- clock_gettime CLOCK_REALTIME ;;
    when (board_eqb ibd MASTER)
         (modify_dev (fun d =>
            with_next_read_buffer ((next_read_buffer d + 1) mod BN_NUM_BUFFER)
              (with_event_counter (u64 (event_counter d + 1)) d))) ;;
    read_metadata ibd h ibuf ;;;
    lift (fill_header mask ibd h e ibuf now) ;;;
    read_waveforms ibd h e ibuf.

Fixpoint board_loop (bds : list beacon_which_board_t) (mask : Z) (h e : nat)
    (ibuf : Z) : E Z :=
  match bds with
  | [] => ret (Go ibuf)
  | ibd :: rest =>
      r <-- read_board mask h e ibuf ibd ;;;
      match r with
      | Some ibuf' => ret (Go ibuf')
      | None => board_loop rest mask h e ibuf
      end
  end.

(** One turn of the loop over the buffers: output slot [iout]. *)
Definition read_buffer (mask : Z) (hd ev : nat -> nat) (iout : nat) : E unit :=
  d <- get_dev ;;
  let ibuf := next_read_buffer d in
  modify_hd (hd iout) (with_sync_problem 0) ;;
  ibuf' <-- board_loop (boards_below (NBD d)) mask (hd iout) (ev iout) ibuf ;;;
  mark_buffers_done (u8 (Z.shiftl 1 ibuf')) ;;
  ret (Go tt).

Fixpoint buffer_loop (n : nat) (mask : Z) (hd ev : nat -> nat) (iout : nat)
  : E unit :=
  match n with
  | O => ret (Go tt)
  | S n' => read_buffer mask hd ev iout ;;; buffer_loop n' mask hd ev (S iout)
  end.

(** [hd] and [ev] are the arrays of pointers: the header and the event of
    each output slot. *)
Definition beacon_read_multiple_ptr (mask : Z) (hd ev : nat -> nat) : M Z :=
  r <- buffer_loop (popcount mask) mask hd ev 0 ;;
  ret (match r with Go _ => 0 | TheEnd => 1 end).

Definition beacon_read_single (buffer : Z) (header event : nat) : M Z :=
  let mask := u8 (Z.shiftl 1 buffer) in
  beacon_read_multiple_ptr mask (fun _ => header) (fun _ => event).

Definition beacon_read_multiple_array (mask : Z) (headers events : nat)
  : M Z :=
  beacon_read_multiple_ptr mask (fun i => (headers + i)%nat)
    (fun i => (events + i)%nat).

Definition beacon_clear_buffer (mask : Z) : M Z := mark_buffers_done mask.

(** ** Reset and ADC alignment *)

Definition avg_time (A B : timespec) : timespec :=
  let nsec := cdiv (tv_nsec A + tv_nsec B) 2 in
  let tmp_sum := u32 (tv_sec A + tv_sec B) in
  let sec := tmp_sum / 2 in
  let nsec := if tmp_sum mod 2 =? 1 then nsec + 500000000 else nsec in
  if 1000000000 <? nsec then Timespec (sec + 1) (nsec - 1000000000)
  else Timespec sec nsec.

(** The handle's own header and event ([calib_hd], [calib_ev]) are slot 0 of
    the headers and of the events. *)
Definition calib_hd : nat := 0.
Definition calib_ev : nat := 0.

(** What the alignment learns from one event: where the maximum of each
    channel is, and the extremes over the channels read. *)
Record peaks := {
  max_i : beacon_which_board_t -> Z -> Z;
  min_max_i : Z;
  max_max_i : Z;
  min_max_v : Z
}.

Definition peaks0 : peaks :=
  {| max_i := fun _ _ => 0; min_max_i := u16 BN_MAX_WAVEFORM_LENGTH;
     max_max_i := 0; min_max_v := 255 |}.

(** The first sample that holds the largest value, and that value. *)
Definition find_peak (samples : Z -> Z) : Z * Z :=
  fold_left (fun acc isamp =>
               if snd acc <? samples isamp then (isamp, samples isamp) else acc)
            (zrange BN_MAX_WAVEFORM_LENGTH) (0, 0).

Definition scan_channel (crm : arr2 Z)
    (data : beacon_which_board_t -> Z -> Z -> Z)
    (p : peaks) (ibd : beacon_which_board_t) (ichan : Z) : peaks :=
  if Z.land (Z.shiftl 1 ichan) (crm ibd) =? 0 then p
  else
    let '(mi, mv) := find_peak (data ibd ichan) in
    {| max_i := fun b c => if board_eqb b ibd && (c =? ichan) then mi
                           else max_i p b c;
       min_max_i := if mi <? min_max_i p then mi else min_max_i p;
       max_max_i := if max_max_i p <? mi then mi else max_max_i p;
       min_max_v := if mv <? min_max_v p then mv else min_max_v p |}.

Definition find_peaks (d : beacon_dev)
    (data : beacon_which_board_t -> Z -> Z -> Z) : peaks :=
  fold_left (fun p ibd =>
               fold_left (fun p ichan =>
                            scan_channel (channel_read_mask d) data p ibd ichan)
                         (zrange BN_NUM_CHAN) p)
            (boards_below (NBD d)) peaks0.

(** [uint8_t delay = (max_i[ibd][2*iadc] + max_i[ibd][2*iadc+1]
                      - 2*min_max_i)/2;] *)
Definition adc_delay (p : peaks) (ibd : beacon_which_board_t) (iadc : Z) : Z :=
  u8 (cdiv (max_i p ibd (2 * iadc) + max_i p ibd (2 * iadc + 1)
            - 2 * min_max_i p) 2).

Definition adc_delay_frame (iadc delay : Z) : frame :=
  Frame (u8 (REG_ADC_DELAYS + iadc)) 0
        (Z.lor (Z.land delay 0xf) (Z.shiftl 1 4))
        (Z.lor (Z.land delay 0xf) (Z.shiftl 1 4)).

(** The body of the loop over the ADCs of a board. *)
Definition write_adc_delay (p : peaks) (ibd : beacon_which_board_t) (iadc : Z)
  : M unit :=
  d <- get_dev ;;
  if Z.land (Z.shiftl 1 (2 * iadc)) (channel_read_mask d ibd) =? 0 then ret tt
  else
    let delay := adc_delay p ibd iadc in
    if 0 <? delay
    then do_write (fd d ibd) (adc_delay_frame iadc delay) ;; ret tt
    else ret tt.

(** otherwise, we are in business! Take averages of channel for each adc *)
Definition write_adc_delays (p : peaks) : M unit :=
  d <- get_dev ;;
  for_each (boards_below (NBD d)) (fun ibd =>
    for_each (zrange (BN_NUM_CHAN / 2)) (write_adc_delay p ibd)).

(** The samples of the calibration event, as the memory holds them. *)
Definition calib_data (m : machine) : beacon_which_board_t -> Z -> Z -> Z :=
  fun ibd ichan isamp => m_mem m (E_data calib_ev ibd (Z.to_nat ichan), isamp).

(** Whether an attempt is accepted (the two sanity checks pass). *)
Definition peaks_accepted (p : peaks) : bool :=
  negb (min_max_v p <? MIN_GOOD_MAX_V)
  && negb (16 <? max_max_i p - min_max_i p).

Inductive loop_ctl := Proceed | Continue | Break.

(** What the loop does before an attempt once misery is felt. *)
Definition misery_step (misery : Z) : M loop_ctl :=
  d <- get_dev ;;
  if MAX_MISERY <? misery then ret Break
  else if nonzero (fd d SLAVE)
  then
    r <- synchronized_command buf_adc_clk_rst 0 None None ;;
    if nonzero r then ret Continue
    else sys (SysSleep 1) ;; ret Proceed
  else
    wrote <- do_write (fd d MASTER) buf_adc_clk_rst ;;
    if wrote =? BN_SPI_BYTES then ret Proceed else ret Continue.

(** The loop [while (!happy)]; [n] bounds its turns (misery grows by one at
    each turn and the loop is left when it exceeds MAX_MISERY), [fuel] is for
    the waits.  The result is [happy].  A [mask] left unwritten by beacon_wait
    is read as 0. *)
Fixpoint calib_loop (n fuel : nat) (misery : Z) : M (option bool) :=
  match n with
  | O => ret (Some false)
  | S n' =>
      ctl <- (if 0 <? misery then misery_step (misery + 1) else ret Proceed) ;;
      match ctl with
      | Break => ret (Some false)
      | Continue => calib_loop n' fuel (misery + 1)
      | Proceed =>
          beacon_sw_trigger ;;
          w <- beacon_wait fuel 1%Q MASTER ;;
          match w with
          | None => ret None
          | Some (_, ready) =>
              let mask := match ready with Some x => x | None => 0 end in
              if Nat.eqb (popcount mask) 0 then calib_loop n' fuel (misery + 1)
              else
                beacon_read_single (ctz mask) calib_hd calib_ev ;;
                m <- get ;;
                let p := find_peaks (m_dev m) (calib_data m) in
                if peaks_accepted p
                then write_adc_delays p ;; ret (Some true)
                else calib_loop n' fuel (misery + 1)
          end
      end
  end.

(** The calibration block of beacon_reset; the result is [happy]. *)
Definition calibrate (fuel : nat) : M (option bool) :=
  d <- get_dev ;;
  let old_buf_length := buffer_length d in
  modify_dev (with_buffer_length 1024) ;;
  old_enables <- beacon_get_trigger_enables MASTER ;;
  let tmp_enables :=
    {| enable_beamforming := 0; enable_beam8 := enable_beam8 old_enables;
       enable_beam4a := enable_beam4a old_enables;
       enable_beam4b := enable_beam4b old_enables |} in
  beacon_set_trigger_enables tmp_enables MASTER ;;
  beacon_calpulse 3 ;;
  happy <- calib_loop (Z.to_nat MAX_MISERY + 2) fuel 0 ;;
  match happy with
  | None => ret None
  | Some happy =>
      modify_dev (with_buffer_length old_buf_length) ;;
      beacon_calpulse 0 ;;
      d <- get_dev ;;
      for_each (boards_below (NBD d)) (fun ibd =>
        do_write (fd d ibd) (buf_clear 0xf) ;; ret tt) ;;
      beacon_set_trigger_enables old_enables MASTER ;;
      ret (Some happy)
  end.

(** The part of beacon_reset before the calibration: the reset register, the
    phased trigger off, the buffers cleared.  Non-zero: the reset is given
    up. *)
Definition reset_prologue (reset_type : beacon_reset_t) : M Z :=
  d <- get_dev ;;
  r <- match reset_type with
       | BN_RESET_GLOBAL =>
           r <- synchronized_command buf_reset_all 0 None None ;;
           if nonzero r then ret 1 else sys (SysSleep 20) ;; ret 0
       | BN_RESET_ALMOST_GLOBAL =>
           r <- until_fail (boards_below (NBD d)) (fun ibd =>
                  wrote <- do_write (fd d ibd) buf_reset_almost_all ;;
                  ret (if wrote =? BN_SPI_BYTES then 0 else 1)) ;;
           if nonzero r then ret 1 else sys (SysSleep 20) ;; ret 0
       | _ => ret 0
       end ;;
  if nonzero r then ret 1
  else
    r <- beacon_phased_trigger_readout 0 ;;
    if nonzero r then ret 1
    else
      r <- until_fail (boards_below (NBD d)) (fun ibd =>
             w1 <- do_write (fd d ibd) (buf_clear 0xf) ;;
             w2 <- do_write (fd d ibd) buf_reset_buf ;;
             ret (if w1 + w2 =? 2 * BN_SPI_BYTES then 0 else 1)) ;;
      if nonzero r then ret 1
      else modify_dev (with_next_read_buffer 0) ;; ret 0.

(** The part after the calibration: free-running timestamps, the counters
    reset between two readings of the clock. *)
Definition reset_counters : M Z :=
  d <- get_dev ;;
  for_each (boards_below (NBD d)) (fun ibd =>
    do_write (fd d ibd) (Frame REG_TIMESTAMP_SELECT 0 0 1) ;; ret tt) ;;
  if 1 <? NBD d
  then
    tbefore <- clock_gettime CLOCK_REALTIME ;;
    r <- synchronized_command buf_reset_counter 0 None None ;;
    if nonzero r then ret 1
    else
      tafter <- clock_gettime CLOCK_REALTIME ;;
      modify_dev (with_start_time (avg_time tbefore tafter)) ;;
      ret 0
  else
    tbefore <- clock_gettime CLOCK_REALTIME ;;
    wrote <- do_write (fd d MASTER) buf_reset_counter ;;
    tafter <- clock_gettime CLOCK_REALTIME ;;
    if wrote =? BN_SPI_BYTES
    then modify_dev (with_start_time (avg_time tbefore tafter)) ;; ret 0
    else ret 1.

Definition beacon_reset (fuel : nat) (reset_type : beacon_reset_t)
  : M (option Z) :=
  r <- reset_prologue reset_type ;;
  if nonzero r then ret (Some r)
  else
    happy <- (if reset_rank BN_RESET_CALIBRATE <=? reset_rank reset_type
              then calibrate fuel else ret (Some true)) ;;
    match happy with
    | None => ret None
    | Some false => ret (Some (-1))
    | Some true => r <- reset_counters ;; ret (Some r)
    end.

(** ** Open and close *)

(** [ret += body] for each element in turn. *)
Fixpoint sum_each {A} (l : list A) (body : A -> M Z) : M Z :=
  match l with
  | [] => ret 0
  | x :: l' => r <- body x ;; s <- sum_each l' body ;; ret (r + s)
  end.

(** On a handle that locks, the code takes the bus mutex first, destroys both
    mutexes (64 and 128 times the results of pthread_mutex_destroy are added
    to the return value) and, when a waiter holds the waiter mutex, cancels
    the wait and blocks until the mutex is released.  Of that block the
    embedding keeps what it leaves in the handle: locking off, the waiter
    mutex free.  On a handle that does not lock the block is skipped and the
    embedding is the function as it runs. *)
Definition beacon_close : M Z :=
  beacon_cancel_wait ;;
  d <- get_dev ;;
  r1 <- sum_each (boards_below (NBD d)) buffer_send ;;
  when (nonzero (enable_locking d))
       (modify_dev (fun d => with_enable_locking 0 (with_wait_mut false d))) ;;
  r2 <- (if nonzero (gpio_pin d)
         then r <- sys (SysGpioClose (gpio_pin d)) ;; ret (256 * ret_val r)
         else ret 0) ;;
  r3 <- (if nonzero (fd d SLAVE)
         then a <- sys (SysFlock (fd d SLAVE) false) ;;
              b <- sys (SysClose (fd d SLAVE)) ;;
              ret (ret_val a + 4 * ret_val b)
         else ret 0) ;;
  a <- sys (SysFlock (fd d MASTER) false) ;;
  b <- sys (SysClose (fd d MASTER)) ;;
  ret (r1 + r2 + r3 + 8 * ret_val a + 16 * ret_val b).

(** The handle is set up in the malloc'ed block, which is [m_dev] as the
    machine has it before the call. *)
Definition init_handle (fd0 fd1 gpio : Z) : M unit :=
  modify_dev (with_poll_interval 500) ;;             (* dev->poll_interval = 500 *)
  modify_dev (fun _ => zero_dev) ;;                  (* memset(dev,0,sizeof( *dev)) *)
  modify_dev (with_gpio_pin gpio) ;;
  modify_dev (with_fd (fun b => match b with MASTER => fd0 | SLAVE => fd1 end)) ;;
  modify_dev (fun d => with_spi SPI_CLOCK (cs_change d) (delay_us d) d) ;;
  modify_dev (with_cancel_wait 0) ;;
  modify_dev (with_event_counter 0) ;;
  modify_dev (with_next_read_buffer 0) ;;
  modify_dev (fun d => with_spi (spi_clock d) BN_CS_CHANGE BN_DELAY_USECS d) ;;
  modify_dev (with_current_buf (fun _ => -1)) ;;
  modify_dev (with_current_mode (fun _ => -1)).

(** The first part of beacon_open: the device nodes are opened and locked.
    The result is the two descriptors (0 for no slave), or [None] when the
    function gives up and returns null. *)
Definition open_nodes (devicename_slave : bool) : M (option (Z * Z)) :=
  o0 <- sys (SysOpen false) ;;
  let fd0 := ret_val o0 in
  if fd0 <? 0 then ret None
  else
    l0 <- sys (SysFlock fd0 true) ;;
    if ret_val l0 <? 0 then sys (SysClose fd0) ;; ret None
    else if devicename_slave
    then
      o1 <- sys (SysOpen true) ;;
      if ret_val o1 <? 0
      then sys (SysClose fd0) ;; ret None
      else
        l1 <- sys (SysFlock (ret_val o1) true) ;;
        if ret_val l1 <? 0
        then sys (SysClose fd0) ;; sys (SysClose (ret_val o1)) ;; ret None
        else ret (Some (fd0, ret_val o1))
    else ret (Some (fd0, 0)).

(** The rest of beacon_open, from the malloc on: the handle is filled, the
    SPI protocol configured, the board ids drawn, the firmware version read
    and the counters reset. *)
Definition setup_handle (fuel : nat) (fd0 fd1 gpio locking : Z)
  : M (option bool) :=
  init_handle fd0 fd1 gpio ;;
  d <- get_dev ;;
  for_each (boards_below (NBD d)) (fun ifd =>
    sys (SysSpiWrMode (fd d ifd)) ;;
    sys (SysSpiWrMaxSpeed (fd d ifd) (spi_clock d)) ;; ret tt) ;;
  t <- sys SysTime ;;
  modify_dev (with_readout_number_offset
                (u64 (Z.shiftl (u64 (ret_val t)) 32))) ;;
  modify_dev (with_buffer_length 624) ;;
  modify_dev (with_channel_read_mask
                (fun b => match b with
                          | MASTER => 0xff
                          | SLAVE => if nonzero fd1 then 0xf else 0
                          end)) ;;
  m <- get ;;
  let id0 := u8 (board_id_counter m) in
  let id1 := if nonzero fd1 then u8 (board_id_counter m + 1) else 0 in
  modify (with_board_id_counter
            (board_id_counter m + (if nonzero fd1 then 2 else 1))) ;;
  modify_dev (with_board_id
                (fun b => match b with MASTER => id0 | SLAVE => id1 end)) ;;
  modify_dev (with_enable_locking locking) ;;
  modify_dev (with_nused (fun _ => 0)) ;;
  beacon_read_register REG_FIRMWARE_VER fwver MASTER ;;
  when (nonzero fd1)
       (beacon_read_register REG_FIRMWARE_VER fwver SLAVE ;; ret tt) ;;
  r <- beacon_reset fuel BN_RESET_COUNTERS ;;
  match r with
  | None => ret None
  | Some r =>
      if nonzero r then beacon_close ;; ret (Some false)
      else ret (Some true)
  end.

(** The result is [Some true] when a handle is returned, [Some false] when
    the function returns null ([None]: the fuel ran out). *)
Definition beacon_open (fuel : nat) (devicename_slave : bool)
    (gpio_number locking : Z) : M (option bool) :=
  nodes <- open_nodes devicename_slave ;;
  match nodes with
  | None => ret (Some false)
  | Some (fd0, fd1) =>
      gpio <- (if nonzero gpio_number
               then g <- sys (SysGpioOpen gpio_number) ;;
                    sys (SysGpioSet (ret_val g) 0) ;;
                    ret (ret_val g)
               else ret 0) ;;
      when (nonzero fd1) (do_write fd0 buf_sync_off ;; ret tt) ;;
      setup_handle fuel fd0 fd1 gpio locking
  end.

Definition beacon_set_poll_interval (interval : Z) : M Z :=
  modify_dev (with_poll_interval interval) ;; ret 0.

(** ** Vocabulary of the statements *)

(** The calls made between machine [m] and a later machine [m']. *)
Definition trace_since (m m' : machine) : list syscall :=
  skipn (length (m_trace m)) (m_trace m').

(** An environment in which no SPI message fails: the ioctl reports at least
    four bytes for each transfer of the message. *)
Definition spi_ok (env : nat -> syscall -> sysret) : Prop :=
  forall n fd_ msg,
    BN_SPI_BYTES * Z.of_nat (length msg) <= ret_val (env n (SysSpiMessage fd_ msg)).

(** The operation [c] does not change the component [proj] of the machine. *)
Definition keeps {T A : Type} (proj : machine -> T) (c : M A) : Prop :=
  forall m, proj (snd (c m)) = proj m.

(** The driver-side cursor: the next buffer to read. *)
Definition cursor (m : machine) : Z := next_read_buffer (m_dev m).

(** In an environment where no SPI message fails, [c] returns 0. *)
Definition succeeds (c : M Z) : Prop :=
  forall m, spi_ok (m_env m) -> fst (c m) = 0.

(** In an environment where no SPI message fails, [c] does not jump to the
    end of the readout. *)
Definition goes {A : Type} (c : E A) : Prop :=
  forall m, spi_ok (m_env m) -> exists a, fst (c m) = Go a.

(** A register read in the list: the address is set, then four bytes are
    clocked into [r]. *)
Definition read_xfers (address : Z) (r : region) : list spi_ioc_transfer :=
  [Xfer (Some (buf_set_read_reg address)) None; Xfer None (Some (r, 0))].

(** The message that harvests the metadata of buffer [ibuf] from the master
    for header [h]: the buffer is selected, then fifteen registers are read.
    The trig_info word is received by transfer 16. *)
Definition metadata_message (h : nat) (ibuf : Z) : list spi_ioc_transfer :=
  Xfer (Some (buf_buffer ibuf)) None
  :: read_xfers REG_EVENT_COUNTER_LOW (L_event_counter 0)
  ++ read_xfers REG_EVENT_COUNTER_HIGH (L_event_counter 1)
  ++ read_xfers REG_TRIG_COUNTER_LOW (L_trig_counter 0)
  ++ read_xfers REG_TRIG_COUNTER_HIGH (L_trig_counter 1)
  ++ read_xfers REG_TRIG_TIME_LOW (L_trig_time 0)
  ++ read_xfers REG_TRIG_TIME_HIGH (L_trig_time 1)
  ++ read_xfers REG_DEADTIME L_deadtime
  ++ read_xfers REG_TRIG_INFO L_tinfo
  ++ read_xfers REG_CH_MASKS L_tmask
  ++ read_xfers REG_USER_MASK (H_beam_mask h)
  ++ read_xfers REG_LAST_BEAM L_last_beam
  ++ read_xfers REG_TRIG_BEAM_POWER (H_beam_power h)
  ++ read_xfers REG_PPS_COUNTER (H_pps_counter h)
  ++ read_xfers REG_HD_DYN_MASK (H_dynamic_beam_mask h)
  ++ read_xfers REG_VETO_DEADTIME_CTR (H_veto_deadtime_counter h).

(** Modelled from the spec: the elapsed time of a wait as the spec defines
    it, the seconds difference plus 1e-9 times the nanoseconds difference
    between two readings of the same clock. *)
Definition elapsed_spec (start now : timespec) : Q :=
  (inject_Z (tv_sec now - tv_sec start)
   + (1 # 1000000000) * inject_Z (tv_nsec now - tv_nsec start))%Q.

(** The fifteen register reads of [metadata_message]. *)
Definition metadata_reads (h : nat) : list spi_ioc_transfer :=
  tl (metadata_message h 0).

(** The machine after an append that found room in the list of [which]. *)
Definition appended (which : beacon_which_board_t) (x : spi_ioc_transfer)
    (m : machine) : machine :=
  with_dev (push_xfer which x (m_dev m)) m.

(** The machine after the appends of the entries of [l], in turn. *)
Definition append_all (which : beacon_which_board_t)
    (l : list spi_ioc_transfer) (m : machine) : machine :=
  fold_left (fun s x => appended which x s) l m.

(** The machine after a flush of the list of [which] that did not fail: the
    message is in the trace, the frames received are in memory, the list is
    empty. *)
Definition flushed (which : beacon_which_board_t) (m : machine) : machine :=
  let d := m_dev m in
  let call := SysSpiMessage (fd d which) (pending which d) in
  let r := m_env m (length (m_trace m)) call in
  with_dev (with_nused (set2 (nused d) which 0) d)
    (with_mem (store_rx (pending which d) 0 (rx_data r) (m_mem m))
       (with_trace (m_trace m ++ [call]) m)).

(** An ADC (a pair of channels) is aligned when the read mask has the bit of
    its even channel: the test of the loop over the ADCs. *)
Definition adc_enabled (d : beacon_dev) (ibd : beacon_which_board_t)
    (iadc : Z) : bool :=
  nonzero (Z.land (Z.shiftl 1 (2 * iadc)) (channel_read_mask d ibd)).

(** The delay of an ADC as the spec writes it:
    [(peak_idx[2k] + peak_idx[2k+1])/2 - min_peak_idx]. *)
Definition spec_delay (p : peaks) (ibd : beacon_which_board_t) (k : Z) : Z :=
  (max_i p ibd (2 * k) + max_i p ibd (2 * k + 1)) / 2 - min_max_i p.

(** The write of a delay into the delay register of ADC [k], with the apply
    bit (bit 4) set in both bytes that carry it. *)
Definition delay_write (fd_ k delay : Z) : syscall :=
  SysWrite fd_ (Frame (REG_ADC_DELAYS + k) 0 (delay + 16) (delay + 16)).

(** ** Mock devices and concrete machines *)

Definition reply (v : Z) (rx : nat -> frame) : sysret :=
  {| ret_val := v; rx_data := rx; ret_time := Timespec 0 0 |}.

(** A device on which every call succeeds and that answers every read with
    the frame [rx]; the master is descriptor 3, a slave descriptor 4. *)
Definition mock (rx : nat -> frame) : nat -> syscall -> sysret :=
  fun _ c =>
    match c with
    | SysSpiMessage _ msg => reply (BN_SPI_BYTES * Z.of_nat (length msg)) rx
    | SysWrite _ _ => reply BN_SPI_BYTES rx
    | SysRead _ => reply BN_SPI_BYTES rx
    | SysOpen slave => reply (if slave then 4 else 3) rx
    | _ => reply 0 rx
    end.

(** A device whose SPI messages all fail. *)
Definition mock_spi_dead : nat -> syscall -> sysret :=
  fun n c =>
    match c with
    | SysSpiMessage _ _ => reply (-1) (fun _ => frame0)
    | _ => mock (fun _ => frame0) n c
    end.

(** The working mock, with clocks: the monotonic clock always reads [mono],
    the wall clock always reads [real]. *)
Definition mock_clocks (mono real : timespec) : nat -> syscall -> sysret :=
  fun n c =>
    match c with
    | SysClockGettime CLOCK_MONOTONIC =>
        {| ret_val := 0; rx_data := fun _ => frame0; ret_time := mono |}
    | SysClockGettime CLOCK_REALTIME =>
        {| ret_val := 0; rx_data := fun _ => frame0; ret_time := real |}
    | _ => mock (fun _ => frame0) n c
    end.

(** A device that reports hardware buffer 1 in every trig_info word (bits
    22-23 of the 24-bit field are bits 6-7 of the second byte). *)
Definition mock_hwbuf1 : nat -> syscall -> sysret :=
  mock (fun _ => Frame 0 0x40 0 0).

(** The machine after a successful open of the master alone. *)
Definition opened (env : nat -> syscall -> sysret) : machine :=
  snd (beacon_open 0 false 0 0 (boot env)).

(** The same, with a short buffer and one channel read, to keep the readout
    small. *)
Definition small (m : machine) : machine :=
  with_dev (with_channel_read_mask (fun _ => 1)
              (with_buffer_length 16 (m_dev m))) m.

(** The machine after a successful open of a master and a slave. *)
Definition opened_pair (env : nat -> syscall -> sysret) : machine :=
  snd (beacon_open 0 true 0 0 (boot env)).

(** Attenuation 1 on channel 0, 0 elsewhere. *)
Definition att_one : nat -> Z := fun i => if Nat.eqb i 0 then 1 else 0.

(** What the alignment finds in scenario S5 of the spec: the peak of channel
    [c] is at sample [100, 101, 104, 105, 100, 102, 103, 105][c], with
    value 80. *)
Definition s5_peaks : peaks :=
  {| max_i := fun _ c =>
                nth (Z.to_nat c) [100; 101; 104; 105; 100; 102; 103; 105] 0;
     min_max_i := 100; max_max_i := 105; min_max_v := 80 |}.

(** The small machine on the device whose SPI messages fail, read with the
    mask of buffer 0 into header 0 and event 0. *)
Definition failed_read : Z * machine :=
  beacon_read_multiple_ptr 1 (fun i => i) (fun i => i)
    (small (opened mock_spi_dead)).

(** ** More vocabulary *)

(** From a machine where [inv] holds, the operation [c] only adds calls to
    the trace, each of them satisfies [P], and [inv] holds afterwards. *)
Definition calls_only {A : Type} (inv : machine -> Prop)
    (P : syscall -> Prop) (c : M A) : Prop :=
  forall m, inv m ->
    inv (snd (c m)) /\
    exists l, m_trace (snd (c m)) = m_trace m ++ l /\ Forall P l.

(** The descriptors of the handle are [fds]. *)
Definition fds_are (fds : arr2 Z) (m : machine) : Prop := fd (m_dev m) = fds.

(** A call of the event readout on the master's descriptor [f]: an SPI
    message to [f] or a reading of the wall clock. *)
Definition readout_call (f : Z) (c : syscall) : Prop :=
  c = SysClockGettime CLOCK_REALTIME \/ exists msg, c = SysSpiMessage f msg.

(** A call of a poll loop: a status read, a sleep or a yield. *)
Definition poll_call (c : syscall) : Prop :=
  match c with
  | SysSpiMessage _ _ | SysUsleep _ | SysSchedYield => True
  | _ => False
  end.

(** The calls [l] close the descriptor [f0] and, when it is not 0, the
    descriptor [f1]. *)
Definition closed_in (f0 f1 : Z) (l : list syscall) : Prop :=
  In (SysClose f0) l /\ (f1 <> 0 -> In (SysClose f1) l).

(** From a machine whose handle has the descriptors [fds], whenever the
    result of [c] satisfies [ok], the calls that [c] added to the trace close
    the descriptors. *)
Definition closes_descriptors {A : Type} (fds : arr2 Z) (ok : A -> Prop)
    (c : M A) : Prop :=
  forall m, fds_are fds m -> ok (fst (c m)) ->
    exists l, m_trace (snd (c m)) = m_trace m ++ l /\
              closed_in (fds MASTER) (fds SLAVE) l.

(** ** More of the configuration surface *)

Definition REG_PRETRIGGER : Z := 0x4c.
Definition REG_TRIGGER_MASK : Z := 0x50.
Definition REG_TRIG_HOLDOFF : Z := 0x51.
Definition REG_DYN_MASK : Z := 0x5d.
Definition REG_DYN_HOLDOFF : Z := 0x5e.
Definition REG_THRESHOLDS : Z := 0x81.

(** Modelled from the spec: BN_NUM_BEAMS of beacon.h, the number of beams
    (the spec has twenty-four beam-threshold registers). *)
Definition BN_NUM_BEAMS : Z := 24.

(** More result buffers that are locals of driver functions. *)
Definition trigger_holdoff_buf : ptr := (L_result 9, 0).
Definition dyn_buf0 : ptr := (L_result 10, 0).
Definition dyn_buf1 : ptr := (L_result 11, 0).
Definition trigger_mask_buf : ptr := (L_result 12, 0).
Definition thresholds_buf (i : Z) : ptr := (L_result (16 + Z.to_nat i), 0).

(** [pretrigger] is a uint8_t.  The frame carries its low four bits; the
    handle remembers the argument as it is. *)
Definition beacon_set_pretrigger (pretrigger : Z) : M Z :=
  let pretrigger_buf := Frame REG_PRETRIGGER 0 0 (Z.land pretrigger 0xf) in
  r <- synchronized_command pretrigger_buf 0 None None ;;
  when (negb (nonzero r)) (modify_dev (with_pretrigger pretrigger)) ;;
  ret r.

Definition beacon_get_pretrigger : M Z :=
  d <- get_dev ;; ret (pretrigger d).

(** [trigger_holdoff] is a uint16_t.  The write is made between USING and
    DONE: the definition is the function on a handle that does not lock. *)
Definition set_trigger_holdoff (trigger_holdoff : Z) : M Z :=
  let buf_ := Frame REG_TRIG_HOLDOFF 0
                (Z.land (Z.shiftr trigger_holdoff 8) 0xf)
                (Z.land trigger_holdoff 0xff) in
  d <- get_dev ;;
  written <- do_write (fd d MASTER) buf_ ;;
  ret (if written =? BN_SPI_BYTES then 0 else 1).

(** The result of the register read is not looked at. *)
Definition beacon_get_trigger_holdoff : M Z :=
  beacon_read_register REG_TRIG_HOLDOFF trigger_holdoff_buf MASTER ;;
  m <- get ;;
  let b := load_frame (m_mem m) trigger_holdoff_buf in
  ret (u16 (Z.lor (byte3 b) (Z.shiftl (byte2 b) 8))).

(** [mask] is a uint32_t.  The write is made between USING and DONE: the
    definition is the function on a handle that does not lock. *)
Definition beacon_set_trigger_mask (mask : Z) : M Z :=
  let buf_ := Frame REG_TRIGGER_MASK
                (Z.land (Z.shiftr mask 16) 0xff)
                (Z.land (Z.shiftr mask 8) 0xff)
                (Z.land mask 0xff) in
  d <- get_dev ;;
  written <- do_write (fd d MASTER) buf_ ;;
  ret (if written =? 4 then 0 else 1).

Definition beacon_get_trigger_mask : M Z :=
  beacon_read_register REG_TRIGGER_MASK trigger_mask_buf MASTER ;;
  m <- get ;;
  let b := load_frame (m_mem m) trigger_mask_buf in
  ret (u32 (Z.lor (Z.lor (byte3 b) (Z.shiftl (byte2 b) 8))
              (Z.shiftl (byte1 b) 16))).

(** [int threshold = trigger_thresholds[i]]: a uint32_t taken as an int. *)
Definition to_int (x : Z) : Z :=
  let y := u32 x in if y <? 2 ^ 31 then y else y - 2 ^ 32.

(** The frame of beam [i] for the threshold [t]: values above 0xfffff are
    replaced by 0xfffff. *)
Definition threshold_frame (i t : Z) : frame :=
  let threshold := to_int t in
  let threshold := if threshold <=? 0xfffff then threshold else 0xfffff in
  Frame (u8 (REG_THRESHOLDS + i))
        (Z.land (Z.shiftr threshold 16) 0xf)
        (Z.land (Z.shiftr threshold 8) 0xff)
        (Z.land threshold 0xff).

(** [dont] is not used. *)
Definition beacon_set_thresholds (trigger_thresholds : Z -> Z) (dont : Z)
  : M Z :=
  r <- sum_each (zrange BN_NUM_BEAMS) (fun i =>
         buffer_append MASTER
           (Some (threshold_frame i (trigger_thresholds i))) None) ;;
  s <- buffer_send MASTER ;;
  ret (r + s).

(** The threshold in a frame read back. *)
Definition threshold_value (b : frame) : Z :=
  Z.lor (Z.lor (Z.land (byte3 b) 0xff) (Z.shiftl (Z.land (byte2 b) 0xff) 8))
        (Z.shiftl (Z.land (byte1 b) 0xf) 16).

(** beacon_get_thresholds as compiled without CHEAT_READ_THRESHOLDS.  The
    second component is what the array [thresholds] holds after the call, for
    the indices below BN_NUM_BEAMS. *)
Definition beacon_get_thresholds : M (Z * (Z -> Z)) :=
  r <- sum_each (zrange BN_NUM_BEAMS) (fun i =>
         append_read_register MASTER (REG_THRESHOLDS + i)
           (Some (thresholds_buf i))) ;;
  s <- buffer_send MASTER ;;
  m <- get ;;
  if nonzero (r + s) then ret (r + s, fun _ => 0)
  else ret (r + s,
            fun i => threshold_value (load_frame (m_mem m) (thresholds_buf i))).

(** [enable] is an int, [threshold] a uint8_t, [holdoff] a uint16_t.  The
    results of the two appends are not looked at. *)
Definition beacon_set_dynamic_masking (enable threshold holdoff : Z) : M Z :=
  let buf0 := Frame REG_DYN_MASK 0 (Z.land enable 1) threshold in
  let buf1 := Frame REG_DYN_HOLDOFF 0 (u8 (Z.shiftr holdoff 8))
                (Z.land holdoff 0xff) in
  buffer_append MASTER (Some buf0) None ;;
  buffer_append MASTER (Some buf1) None ;;
  buffer_send MASTER.

(** The result is the return value and, when the flush did not fail, the
    three values stored through the pointers: enable, threshold, holdoff. *)
Definition beacon_get_dynamic_masking : M (Z * option (Z * Z * Z)) :=
  append_read_register MASTER REG_DYN_MASK (Some dyn_buf0) ;;
  append_read_register MASTER REG_DYN_HOLDOFF (Some dyn_buf1) ;;
  r <- buffer_send MASTER ;;
  if nonzero r then ret (r, None)
  else
    m <- get ;;
    let b0 := load_frame (m_mem m) dyn_buf0 in
    let b1 := load_frame (m_mem m) dyn_buf1 in
    ret (0, Some (Z.land (byte2 b0) 1, byte3 b0,
                  u16 (Z.lor (byte3 b1) (Z.shiftl (byte2 b1) 8)))).

(** The regions of a list are pairwise different. *)
Fixpoint distinct_regions (l : list region) : bool :=
  match l with
  | [] => true
  | r :: l' =>
      forallb (fun r' => negb (region_eqb r r')) l' && distinct_regions l'
  end.

(** The message that reads the registers [reads] (address, result buffer)
    in turn. *)
Definition reads_message (reads : list (Z * region)) : list spi_ioc_transfer :=
  flat_map (fun ar => read_xfers (fst ar) (snd ar)) reads.

(** The registers and the result buffers of beacon_get_thresholds. *)
Definition threshold_reads : list (Z * region) :=
  map (fun i => (REG_THRESHOLDS + i, fst (thresholds_buf i)))
      (zrange BN_NUM_BEAMS).

(** The rx buffers of a list of transfers, in order. *)
Definition rx_targets (l : list spi_ioc_transfer) : list ptr :=
  flat_map (fun x => match rx_buf x with Some p => [p] | None => [] end) l.

(** The nine transfers that read the sixteen bytes at RAM address
    [start + iaddr] into [result + 16 * iaddr]: the address, then for each of
    the four chunks its selection and a read of four bytes. *)
Definition chunk_xfers (start : Z) (result : ptr) (iaddr : Z)
  : list spi_ioc_transfer :=
  Xfer (Some (buf_ram_addr (start + iaddr))) None
  :: flat_map (fun ichunk =>
       [Xfer (Some (buf_chunk ichunk)) None;
        Xfer None (Some (ptr_add result
                           (BN_NUM_CHUNK * BN_SPI_BYTES * iaddr
                            + ichunk * BN_SPI_BYTES)))])
       (zrange BN_NUM_CHUNK).

(** The registers read for the metadata of the master, with their result
    buffers, in the order of [metadata_message]. *)
Definition metadata_registers (h : nat) : list (Z * region) :=
  [(REG_EVENT_COUNTER_LOW, L_event_counter 0);
   (REG_EVENT_COUNTER_HIGH, L_event_counter 1);
   (REG_TRIG_COUNTER_LOW, L_trig_counter 0);
   (REG_TRIG_COUNTER_HIGH, L_trig_counter 1);
   (REG_TRIG_TIME_LOW, L_trig_time 0);
   (REG_TRIG_TIME_HIGH, L_trig_time 1);
   (REG_DEADTIME, L_deadtime);
   (REG_TRIG_INFO, L_tinfo);
   (REG_CH_MASKS, L_tmask);
   (REG_USER_MASK, H_beam_mask h);
   (REG_LAST_BEAM, L_last_beam);
   (REG_TRIG_BEAM_POWER, H_beam_power h);
   (REG_PPS_COUNTER, H_pps_counter h);
   (REG_HD_DYN_MASK, H_dynamic_beam_mask h);
   (REG_VETO_DEADTIME_CTR, H_veto_deadtime_counter h)].

(** ** The cursor over a call, full lists, the alignment pulse *)

(** The move of the cursor in one turn of the loop over the buffers of
    beacon_read_multiple_ptr, from the value [c]: one further modulo 4 when
    buffer [c] is in the mask, the lowest buffer of the mask otherwise. *)
Definition cursor_turn (mask c : Z) : Z :=
  if Z.land mask (Z.shiftl 1 c) =? 0 then ctz mask
  else (c + 1) mod BN_NUM_BUFFER.

(** [n] more entries appended to the list of [which]. *)
Fixpoint fill_list (n : nat) (which : beacon_which_board_t) (m : machine)
  : machine :=
  match n with
  | O => m
  | S n' => fill_list n' which (snd (buffer_append which (Some frame0) None m))
  end.

(** Channel [c] of the board is read: its bit is in the read mask. *)
Definition channel_read (d : beacon_dev) (ibd : beacon_which_board_t)
    (c : Z) : bool :=
  nonzero (Z.land (Z.shiftl 1 c) (channel_read_mask d ibd)).

(** Every ADC of the board that is aligned has both its channels read. *)
Definition pairs_read (d : beacon_dev) (ibd : beacon_which_board_t) : bool :=
  forallb (fun k => implb (adc_enabled d ibd k) (channel_read d ibd (2 * k + 1)))
          (zrange (BN_NUM_CHAN / 2)).

(** The machine [m] with a calibration event in memory: channel [c] of the
    master holds the value [v] at sample [peak[c]] and 0 elsewhere. *)
Definition pulsed (peak : list Z) (v : Z) (m : machine) : machine :=
  with_mem (fun q =>
              match fst q with
              | E_data e MASTER c =>
                  if Nat.eqb e calib_ev && (snd q =? nth c peak (-1)) then v
                  else 0
              | _ => 0
              end) m.

(** An alignment pulse with a spread of exactly 16 samples, in the memory of
    a machine opened on a working device: the peaks of the eight channels
    are at samples 100, 101, 104, 105, 100, 102, 116 and 116, with value
    80. *)
Definition spread16 : machine :=
  pulsed [100; 101; 104; 105; 100; 102; 116; 116] 80
    (opened (mock (fun _ => frame0))).

(** * Properties of the driver *)

(** ** Running the monad *)

Lemma bind_eq {A B} (c : M A) (k : A -> M B) (m : machine) :
  bind c k m = k (fst (c m)) (snd (c m)).
Proof. unfold bind. destruct (c m); reflexivity. Qed.

Lemma ebind_eq {A B} (c : E A) (k : A -> E B) (m : machine) :
  ebind c k m =
  match fst (c m) with
  | Go a => k a (snd (c m))
  | TheEnd => (TheEnd, snd (c m))
  end.
Proof. unfold ebind. rewrite bind_eq. destruct (fst (c m)); reflexivity. Qed.

Lemma nonzero_false (x : Z) : nonzero x = false <-> x = 0.
Proof. unfold nonzero. rewrite negb_false_iff. apply Z.eqb_eq. Qed.

Lemma nonzero_true (x : Z) : nonzero x = true <-> x <> 0.
Proof. unfold nonzero. rewrite negb_true_iff. apply Z.eqb_neq. Qed.

(** ** The transfer batcher *)

(** do_xfer hands the used entries to the kernel. *)
Lemma do_xfer_result (which : beacon_which_board_t) (m : machine) :
  fst (do_xfer (fd (m_dev m) which) (nused (m_dev m) which)
         (buf (m_dev m) which) m) = flush_result which m.
Proof.
  unfold do_xfer, flush_result, pending. rewrite !bind_eq. simpl.
  try match goal with |- context [when ?b _] => destruct b end; reflexivity.
Qed.

Lemma do_xfer_dev (fd_ n : Z) (xfer : nat -> spi_ioc_transfer) (m : machine) :
  m_dev (snd (do_xfer fd_ n xfer m)) = m_dev m.
Proof.
  unfold do_xfer. rewrite !bind_eq. simpl.
  try match goal with |- context [when ?b _] => destruct b end; reflexivity.
Qed.

(** C5, as the code has it.  A flush that fails returns -1 and leaves the
    list as it was (the used-entry count is not reset); a flush that does not
    fail returns 0 and leaves the list empty. *)
Theorem buffer_send_outcome (which : beacon_which_board_t) (m : machine) :
  (flush_fails which m = true ->
     fst (buffer_send which m) = -1 /\
     nused (m_dev (snd (buffer_send which m))) which = nused (m_dev m) which /\
     pending which (m_dev (snd (buffer_send which m))) = pending which (m_dev m))
  /\
  (flush_fails which m = false ->
     fst (buffer_send which m) = 0 /\
     nused (m_dev (snd (buffer_send which m))) which = 0 /\
     pending which (m_dev (snd (buffer_send which m))) = []).
Proof.
  unfold flush_fails, buffer_send.
  rewrite bind_eq; simpl.
  destruct (nused (m_dev m) which =? 0) eqn:E0.
  - apply Z.eqb_eq in E0. simpl. split.
    + unfold nonzero. rewrite E0. simpl. discriminate.
    + intros _. unfold pending. rewrite E0. auto.
  - assert (N : nonzero (nused (m_dev m) which) = true)
      by (unfold nonzero; rewrite E0; reflexivity).
    rewrite N, bind_eq, do_xfer_result. simpl.
    destruct (flush_result which m <? nused (m_dev m) which * BN_SPI_BYTES).
    + split; [intros _ | discriminate]. simpl.
      rewrite do_xfer_dev. auto.
    + split; [discriminate | intros _].
      rewrite bind_eq. simpl. unfold pending. simpl.
      destruct which; simpl; auto.
Qed.

(** Both cases of C5 on concrete machines: the master's list holds two
    entries after an open on a device whose SPI messages fail, and a flush
    there fails; on the working mock the list is empty and a flush is a
    success. *)
Lemma buffer_send_outcome_witness :
  (fst (buffer_send MASTER (opened mock_spi_dead)) = -1 /\
   nused (m_dev (snd (buffer_send MASTER (opened mock_spi_dead)))) MASTER = 2)
  /\
  (fst (buffer_send MASTER (opened (mock (fun _ => frame0)))) = 0 /\
   nused (m_dev (snd (buffer_send MASTER (opened (mock (fun _ => frame0))))))
     MASTER = 0).
Proof.
  split.
  - destruct (proj1 (buffer_send_outcome MASTER (opened mock_spi_dead)))
      as (H1 & H2 & _); [vm_compute; reflexivity|].
    split; [exact H1 | rewrite H2; vm_compute; reflexivity].
  - destruct (proj2 (buffer_send_outcome MASTER
                       (opened (mock (fun _ => frame0)))))
      as (H1 & H2 & _); [vm_compute; reflexivity|].
    split; [exact H1 | exact H2].
Defined.

(** C5 as the spec states it does not hold: after a failed flush the list is
    not empty. *)
Lemma buffer_send_resets_regardless_fails :
  ~ (forall which m, nused (m_dev (snd (buffer_send which m))) which = 0).
Proof.
  intro H. specialize (H MASTER (opened mock_spi_dead)).
  assert (E : nused (m_dev (snd (buffer_send MASTER (opened mock_spi_dead))))
                MASTER = 2) by (vm_compute; reflexivity).
  rewrite E in H. discriminate H.
Qed.

(** ** Board ids *)

(** C9, the code at the failing input.  The counter starts at 1; after one
    open it is 2, and setting board id 0 then moves it back to 1. *)
Theorem set_board_id_moves_counter_back :
  (forall env, board_id_counter (boot env) = 1) /\
  board_id_counter (opened (mock (fun _ => frame0))) = 2 /\
  board_id_counter
    (snd (beacon_set_board_id 0 MASTER (opened (mock (fun _ => frame0))))) = 1.
Proof.
  split; [reflexivity|]. split; vm_compute; reflexivity.
Qed.

(** What beacon_set_board_id does to the counter, for every id. *)
Lemma set_board_id_counter (id : Z) (which : beacon_which_board_t)
    (m : machine) :
  board_id_counter (snd (beacon_set_board_id id which m)) =
  if id <=? board_id_counter m then id + 1 else board_id_counter m.
Proof.
  unfold beacon_set_board_id. rewrite !bind_eq. simpl.
  destruct (id <=? board_id_counter m); reflexivity.
Qed.

(** ** Raw write *)

(** C10.  beacon_write never returns -1: it returns 2 * BN_SPI_BYTES exactly
    when the number of bytes written equals the slave's file descriptor, and
    0 otherwise. *)
Theorem beacon_write_never_minus_one (buffer : frame) (m : machine) :
  let written := fst (beacon_write_written buffer m) in
  let r := fst (beacon_write buffer m) in
  r <> -1 /\
  (r = 2 * BN_SPI_BYTES <-> written = fd (m_dev m) SLAVE) /\
  (r = 0 <-> written <> fd (m_dev m) SLAVE).
Proof.
  unfold beacon_write. rewrite !bind_eq. simpl.
  destruct (fst (beacon_write_written buffer m) =? fd (m_dev m) SLAVE) eqn:E.
  - apply Z.eqb_eq in E. vm_compute (2 * BN_SPI_BYTES).
    repeat split; intros; try discriminate; try assumption; try reflexivity.
    contradiction.
  - apply Z.eqb_neq in E. vm_compute (2 * BN_SPI_BYTES). simpl.
    repeat split; intros; try discriminate; try assumption; try reflexivity.
    contradiction.
Qed.

(** ** What an operation leaves alone *)

Section Keeps.
Context {T : Type} (proj : machine -> T).

Lemma keeps_ret {A} (a : A) : keeps proj (ret a).
Proof. intro m; reflexivity. Qed.

Lemma keeps_bind {A B} (c : M A) (k : A -> M B) :
  keeps proj c -> (forall a, keeps proj (k a)) -> keeps proj (bind c k).
Proof.
  intros Hc Hk m. rewrite bind_eq. rewrite Hk. apply Hc.
Qed.

Lemma keeps_ebind {A B} (c : E A) (k : A -> E B) :
  keeps proj c -> (forall a, keeps proj (k a)) -> keeps proj (ebind c k).
Proof.
  intros Hc Hk. unfold ebind. apply keeps_bind; [assumption|].
  intros [a|]; [apply Hk | apply keeps_ret].
Qed.

Lemma keeps_when (b : bool) (c : M unit) : keeps proj c -> keeps proj (when b c).
Proof. intro H. destruct b; [exact H | apply keeps_ret]. Qed.

Lemma keeps_lift {A} (c : M A) : keeps proj c -> keeps proj (lift c).
Proof.
  intro H. unfold lift. apply keeps_bind; [exact H|].
  intro; apply keeps_ret.
Qed.

Lemma keeps_CHK (c : M Z) : keeps proj c -> keeps proj (CHK c).
Proof.
  intro H. unfold CHK. apply keeps_bind; [exact H|].
  intro; apply keeps_ret.
Qed.

Lemma keeps_for_each {A} (l : list A) (body : A -> M unit) :
  (forall x, keeps proj (body x)) -> keeps proj (for_each l body).
Proof.
  intro H. induction l as [|x l IH]; simpl.
  - apply keeps_ret.
  - apply keeps_bind; [apply H | intro; exact IH].
Qed.

Lemma keeps_efor_each {A} (l : list A) (body : A -> E unit) :
  (forall x, keeps proj (body x)) -> keeps proj (efor_each l body).
Proof.
  intro H. induction l as [|x l IH]; simpl.
  - apply keeps_ret.
  - apply keeps_ebind; [apply H | intro; exact IH].
Qed.

Lemma keeps_until_fail {A} (l : list A) (body : A -> M Z) :
  (forall x, keeps proj (body x)) -> keeps proj (until_fail l body).
Proof.
  intro H. induction l as [|x l IH]; simpl.
  - apply keeps_ret.
  - apply keeps_bind; [apply H|].
    intro r. destruct (nonzero r); [apply keeps_ret | exact IH].
Qed.

Lemma keeps_sum_each {A} (l : list A) (body : A -> M Z) :
  (forall x, keeps proj (body x)) -> keeps proj (sum_each l body).
Proof.
  intro H. induction l as [|x l IH]; simpl.
  - apply keeps_ret.
  - apply keeps_bind; [apply H|]. intro.
    apply keeps_bind; [exact IH|]. intro; apply keeps_ret.
Qed.
End Keeps.

(** Decompose a goal [keeps proj c] along the structure of [c]; what is left
    are the updates of the state, closed by computation when they do not
    touch [proj]. *)
Ltac keeps_head c :=
  lazymatch c with
  | ?f _ _ _ _ _ _ => unfold f
  | ?f _ _ _ _ _ => unfold f
  | ?f _ _ _ _ => unfold f
  | ?f _ _ _ => unfold f
  | ?f _ _ => unfold f
  | ?f _ => unfold f
  | ?f => unfold f
  end.

Ltac keeps_step :=
  lazymatch goal with
  | |- keeps _ (ret _) => apply keeps_ret
  | |- keeps _ (bind _ _) => apply keeps_bind; [ | intro ]
  | |- keeps _ (ebind _ _) => apply keeps_ebind; [ | intro ]
  | |- keeps _ (when _ _) => apply keeps_when
  | |- keeps _ (lift _) => apply keeps_lift
  | |- keeps _ (CHK _) => apply keeps_CHK
  | |- keeps _ (for_each _ _) => apply keeps_for_each; intro
  | |- keeps _ (efor_each _ _) => apply keeps_efor_each; intro
  | |- keeps _ (until_fail _ _) => apply keeps_until_fail; intro
  | |- keeps _ (sum_each _ _) => apply keeps_sum_each; intro
  | |- keeps _ (if ?b then _ else _) => destruct b
  | |- keeps _ (match ?x with _ => _ end) => destruct x
  | |- keeps _ (let '_ := ?x in _) => destruct x
  | |- keeps _ (sys _) => intro; reflexivity
  | |- keeps _ get_dev => intro; reflexivity
  | |- keeps _ get => intro; reflexivity
  | |- keeps _ (modify_dev _) => intro; reflexivity
  | |- keeps _ (modify _) => intro; reflexivity
  | |- keeps _ (modify_hd _ _) =>
      intro; simpl; try reflexivity;
      match goal with |- context [Nat.eqb ?a ?b] => destruct (Nat.eqb a b) end;
      reflexivity
  | |- keeps _ (modify_ev _ _) => intro; reflexivity
  | |- keeps _ (fun _ => _) => intro; reflexivity
  | |- keeps _ ?c => keeps_head c
  end.

Ltac solve_keeps := repeat keeps_step.

(** ** Open *)

Lemma buffer_send_keeps_poll (which : beacon_which_board_t) :
  keeps (fun m => poll_interval (m_dev m)) (buffer_send which).
Proof. solve_keeps. Qed.

Lemma read_register_keeps_poll a r w :
  keeps (fun m => poll_interval (m_dev m)) (beacon_read_register a r w).
Proof. solve_keeps. Qed.

Lemma reset_counters_only_keeps_poll (fuel : nat) :
  keeps (fun m => poll_interval (m_dev m)) (beacon_reset fuel BN_RESET_COUNTERS).
Proof.
  unfold beacon_reset.
  change (reset_rank BN_RESET_CALIBRATE <=? reset_rank BN_RESET_COUNTERS)
    with false.
  solve_keeps.
Qed.

Lemma setup_handle_poll (fuel : nat) (fd0 fd1 gpio locking : Z) (m : machine) :
  poll_interval (m_dev (snd (setup_handle fuel fd0 fd1 gpio locking m))) = 0.
Proof.
  unfold setup_handle. rewrite bind_eq.
  match goal with
  | |- poll_interval (m_dev (snd (?k ?a ?m1))) = 0 =>
      transitivity (poll_interval (m_dev m1)); [|reflexivity];
      generalize m1; change (keeps (fun m => poll_interval (m_dev m)) (k a))
  end.
  cbv beta.
  repeat lazymatch goal with
         | |- keeps _ (beacon_reset _ _) =>
             apply reset_counters_only_keeps_poll
         | |- _ => keeps_step
         end.
Qed.

(** C8, the code at every successful open.  The handle that beacon_open
    returns has poll interval 0, not 500: the assignment of 500 comes before
    the memset that clears the handle.  (beacon_open also never runs out of
    fuel.) *)
Theorem open_leaves_poll_interval_zero (fuel : nat) (devicename_slave : bool)
    (gpio_number locking : Z) (m : machine) :
  fst (beacon_open fuel devicename_slave gpio_number locking m) = Some true ->
  poll_interval
    (m_dev (snd (beacon_open fuel devicename_slave gpio_number locking m))) = 0.
Proof.
  unfold beacon_open. rewrite bind_eq.
  destruct (fst (open_nodes devicename_slave m)) as [[fd0 fd1]|];
    [|discriminate].
  rewrite !bind_eq. intros _. apply setup_handle_poll.
Qed.

Lemma open_leaves_poll_interval_zero_witness :
  fst (beacon_open 0 false 0 0 (boot (mock (fun _ => frame0)))) = Some true /\
  poll_interval
    (m_dev (snd (beacon_open 0 false 0 0 (boot (mock (fun _ => frame0)))))) = 0.
Proof.
  split.
  - vm_compute; reflexivity.
  - apply (open_leaves_poll_interval_zero 0 false 0 0
             (boot (mock (fun _ => frame0)))).
    vm_compute; reflexivity.
Defined.

(** The environment is never changed; in particular the machine after an
    open runs in the environment it was booted in. *)
Lemma reset_counters_only_keeps_env (fuel : nat) :
  keeps m_env (beacon_reset fuel BN_RESET_COUNTERS).
Proof.
  unfold beacon_reset.
  change (reset_rank BN_RESET_CALIBRATE <=? reset_rank BN_RESET_COUNTERS)
    with false.
  solve_keeps.
Qed.

Lemma beacon_open_keeps_env fuel slave gpio locking :
  keeps m_env (beacon_open fuel slave gpio locking).
Proof.
  unfold beacon_open, setup_handle.
  repeat lazymatch goal with
         | |- keeps _ (beacon_reset _ _) =>
             apply reset_counters_only_keeps_env
         | |- _ => keeps_step
         end.
Qed.

Lemma m_env_opened env : m_env (opened env) = env.
Proof. unfold opened. rewrite beacon_open_keeps_env. reflexivity. Qed.

Lemma m_env_opened_pair env : m_env (opened_pair env) = env.
Proof. unfold opened_pair. rewrite beacon_open_keeps_env. reflexivity. Qed.

(** ** Appending to the list and flushing it *)

Arguments set2 {T} a b v c /.
Arguments push_xfer : simpl never.
Arguments pending : simpl never.

Lemma nused_push_same which x d :
  nused (push_xfer which x d) which = nused d which + 1.
Proof. unfold push_xfer; simpl. destruct which; reflexivity. Qed.

Lemma nused_push_other which which' x d :
  which <> which' -> nused (push_xfer which x d) which' = nused d which'.
Proof.
  intro H. unfold push_xfer; simpl.
  destruct which, which'; try congruence; reflexivity.
Qed.

Lemma fd_push which x d : fd (push_xfer which x d) = fd d.
Proof. reflexivity. Qed.

Lemma map_set_entry_below (a : nat -> spi_ioc_transfer) (n k : nat) x :
  (k <= n)%nat ->
  map (set_entry a n x) (seq 0 k) = map a (seq 0 k).
Proof.
  intro H. apply map_ext_in. intros i Hi. apply in_seq in Hi.
  unfold set_entry. destruct (Nat.eqb_spec i n); [lia | reflexivity].
Qed.

Lemma pending_push_same which x d :
  0 <= nused d which ->
  pending which (push_xfer which x d) = pending which d ++ [x].
Proof.
  intro H. unfold pending. rewrite nused_push_same.
  replace (Z.to_nat (nused d which + 1)) with (S (Z.to_nat (nused d which)))
    by lia.
  assert (E : buf (push_xfer which x d) which =
              set_entry (buf d which) (Z.to_nat (nused d which)) x)
    by (unfold push_xfer; simpl; destruct which; reflexivity).
  rewrite E, seq_S, map_app, map_set_entry_below by lia.
  simpl. unfold set_entry. rewrite Nat.eqb_refl. reflexivity.
Qed.

Lemma pending_push_other which which' x d :
  which <> which' ->
  pending which' (push_xfer which x d) = pending which' d.
Proof.
  intro H. unfold pending. rewrite nused_push_other by assumption.
  unfold push_xfer; simpl.
  destruct which, which'; try congruence; reflexivity.
Qed.

Lemma pending_empty which d : nused d which = 0 -> pending which d = [].
Proof. intro H. unfold pending. rewrite H. reflexivity. Qed.

Lemma length_pending which d :
  0 <= nused d which -> Z.of_nat (length (pending which d)) = nused d which.
Proof.
  intro H. unfold pending. rewrite length_map, length_seq. lia.
Qed.

(** With room in the list, buffer_append just writes the next entry. *)
Lemma buffer_append_room which tx rx m :
  nused (m_dev m) which < MAX_XFERS ->
  buffer_append which tx rx m =
  (0, with_dev (push_xfer which (Xfer tx rx) (m_dev m)) m).
Proof.
  intro H. unfold buffer_append. rewrite bind_eq. simpl.
  destruct (nused (m_dev m) which >=? MAX_XFERS) eqn:E; [lia|].
  rewrite bind_eq. simpl. reflexivity.
Qed.

(** The machine after a flush that sent the message [msg] and got [r]. *)
Lemma buffer_send_sends which m :
  nused (m_dev m) which <> 0 ->
  m_trace (snd (buffer_send which m)) =
  m_trace m ++ [SysSpiMessage (fd (m_dev m) which) (pending which (m_dev m))].
Proof.
  intro H. unfold buffer_send. rewrite bind_eq. simpl.
  apply Z.eqb_neq in H. rewrite H.
  unfold do_xfer. rewrite !bind_eq. simpl.
  repeat match goal with
         | |- context [if ?b then _ else _] => destruct b; simpl
         | |- context [when ?b _] => destruct b; simpl
         end; reflexivity.
Qed.

Lemma buffer_send_nothing which m :
  nused (m_dev m) which = 0 -> buffer_send which m = (0, m).
Proof.
  intro H. unfold buffer_send. rewrite bind_eq. simpl. rewrite H. reflexivity.
Qed.

Lemma flush_ok which m :
  spi_ok (m_env m) -> flush_fails which m = false.
Proof.
  intro H. unfold flush_fails.
  destruct (nonzero (nused (m_dev m) which)) eqn:N; [|reflexivity].
  simpl. apply Z.ltb_ge. unfold flush_result.
  specialize (H (length (m_trace m)) (fd (m_dev m) which)
                (pending which (m_dev m))).
  unfold pending in *. rewrite length_map, length_seq in H.
  unfold BN_SPI_BYTES, BN_WORD_SIZE in *. lia.
Qed.

(** The two outcomes of a flush. *)
Lemma buffer_send_cases which m :
  (flush_fails which m = true /\
   fst (buffer_send which m) = -1 /\
   m_dev (snd (buffer_send which m)) = m_dev m)
  \/
  (flush_fails which m = false /\
   fst (buffer_send which m) = 0 /\
   nused (m_dev (snd (buffer_send which m))) which = 0 /\
   fd (m_dev (snd (buffer_send which m))) = fd (m_dev m)).
Proof.
  unfold flush_fails, buffer_send.
  rewrite bind_eq; cbn [fst snd get_dev].
  destruct (nused (m_dev m) which =? 0) eqn:E0.
  - apply Z.eqb_eq in E0. right. unfold nonzero. rewrite E0. simpl. auto.
  - assert (N : nonzero (nused (m_dev m) which) = true)
      by (unfold nonzero; rewrite E0; reflexivity).
    rewrite N, bind_eq, do_xfer_result. cbn [andb].
    destruct (flush_result which m <? nused (m_dev m) which * BN_SPI_BYTES).
    + left. cbn [fst snd ret]. rewrite do_xfer_dev. auto.
    + right. rewrite bind_eq. cbn [fst snd ret modify_dev].
      split; [reflexivity|]. split; [reflexivity|].
      unfold with_dev; cbn [m_dev]. rewrite do_xfer_dev.
      split; [destruct which; reflexivity | reflexivity].
Qed.

(** In an environment where no SPI message fails, a flush returns 0 and
    empties the list. *)
Lemma buffer_send_ok which m :
  spi_ok (m_env m) ->
  fst (buffer_send which m) = 0 /\
  nused (m_dev (snd (buffer_send which m))) which = 0.
Proof.
  intro H. pose proof (flush_ok which m H) as F.
  destruct (buffer_send_cases which m) as [(A & _) | (_ & A & B & _)];
    [congruence | auto].
Qed.

Lemma buffer_send_keeps_env which : keeps m_env (buffer_send which).
Proof. solve_keeps. Qed.

Lemma buffer_send_keeps_fd which :
  keeps (fun m => fd (m_dev m)) (buffer_send which).
Proof. solve_keeps. Qed.

Lemma buffer_send_keeps_other which which' :
  which <> which' ->
  keeps (fun m => (nused (m_dev m) which', pending which' (m_dev m)))
        (buffer_send which).
Proof.
  intro H. unfold buffer_send.
  repeat lazymatch goal with
         | |- keeps _ (modify_dev _) =>
             intro; unfold pending; simpl;
             destruct which, which'; try congruence; reflexivity
         | |- _ => keeps_step
         end.
Qed.

Lemma trace_since_app m m' l :
  m_trace m' = m_trace m ++ l -> trace_since m m' = l.
Proof.
  intro H. unfold trace_since. rewrite H.
  rewrite skipn_app, skipn_all, Nat.sub_diag. reflexivity.
Qed.

(** *** Machines built by appends and flushes *)

Arguments appended : simpl never.
Arguments flushed : simpl never.

Lemma buffer_append_appends which tx rx m :
  nused (m_dev m) which < MAX_XFERS ->
  buffer_append which tx rx m = (0, appended which (Xfer tx rx) m).
Proof. apply buffer_append_room. Qed.

Lemma do_xfer_ok which m :
  0 <= flush_result which m ->
  do_xfer (fd (m_dev m) which) (nused (m_dev m) which) (buf (m_dev m) which) m
  = (flush_result which m,
     with_mem (store_rx (pending which (m_dev m)) 0
                 (rx_data (m_env m (length (m_trace m))
                             (SysSpiMessage (fd (m_dev m) which)
                                (pending which (m_dev m)))))
                 (m_mem m))
       (with_trace (m_trace m ++ [SysSpiMessage (fd (m_dev m) which)
                                     (pending which (m_dev m))]) m)).
Proof.
  intro P. unfold flush_result in *. unfold do_xfer, pending in *.
  unfold bind, sys. apply Z.leb_le in P. rewrite P. reflexivity.
Qed.

Lemma buffer_send_flushes which m :
  spi_ok (m_env m) ->
  nused (m_dev m) which <> 0 ->
  buffer_send which m = (0, flushed which m).
Proof.
  intros Hok Hn. pose proof (flush_ok which m Hok) as F.
  unfold flush_fails in F. apply nonzero_true in Hn as Hn'. rewrite Hn' in F.
  simpl in F. apply Z.ltb_ge in F.
  assert (P : 0 <= flush_result which m).
  { unfold flush_result. specialize (Hok (length (m_trace m))
      (fd (m_dev m) which) (pending which (m_dev m))).
    unfold BN_SPI_BYTES, BN_WORD_SIZE in Hok. lia. }
  unfold buffer_send. rewrite bind_eq. cbn [fst snd get_dev].
  apply Z.eqb_neq in Hn. rewrite Hn.
  rewrite bind_eq, do_xfer_ok by exact P. cbn [fst snd].
  apply Z.ltb_ge in F. rewrite F. reflexivity.
Qed.

Lemma m_env_appended which x m : m_env (appended which x m) = m_env m.
Proof. reflexivity. Qed.
Lemma m_trace_appended which x m : m_trace (appended which x m) = m_trace m.
Proof. reflexivity. Qed.
Lemma m_mem_appended which x m : m_mem (appended which x m) = m_mem m.
Proof. reflexivity. Qed.
Lemma m_hd_appended which x m : m_hd (appended which x m) = m_hd m.
Proof. reflexivity. Qed.
Lemma fd_appended which x m :
  fd (m_dev (appended which x m)) = fd (m_dev m).
Proof. reflexivity. Qed.
Lemma nused_appended which x m b :
  nused (m_dev (appended which x m)) b =
  nused (m_dev m) b + (if board_eqb b which then 1 else 0).
Proof.
  unfold appended, push_xfer. simpl.
  destruct b, which; simpl; lia.
Qed.
Lemma pending_appended which x m :
  0 <= nused (m_dev m) which ->
  pending which (m_dev (appended which x m)) = pending which (m_dev m) ++ [x].
Proof. apply pending_push_same. Qed.
Lemma pending_appended_other which b x m :
  which <> b ->
  pending b (m_dev (appended which x m)) = pending b (m_dev m).
Proof. apply pending_push_other. Qed.

Lemma m_env_flushed which m : m_env (flushed which m) = m_env m.
Proof. reflexivity. Qed.
Lemma m_trace_flushed which m :
  m_trace (flushed which m) =
  m_trace m ++ [SysSpiMessage (fd (m_dev m) which) (pending which (m_dev m))].
Proof. reflexivity. Qed.
Lemma m_hd_flushed which m : m_hd (flushed which m) = m_hd m.
Proof. reflexivity. Qed.
Lemma m_mem_flushed which m :
  m_mem (flushed which m) =
  store_rx (pending which (m_dev m)) 0
    (rx_data (m_env m (length (m_trace m))
                (SysSpiMessage (fd (m_dev m) which) (pending which (m_dev m)))))
    (m_mem m).
Proof. reflexivity. Qed.
Lemma fd_flushed which m : fd (m_dev (flushed which m)) = fd (m_dev m).
Proof. reflexivity. Qed.
Lemma nused_flushed which m b :
  nused (m_dev (flushed which m)) b =
  if board_eqb b which then 0 else nused (m_dev m) b.
Proof. reflexivity. Qed.
Lemma pending_flushed which m : pending which (m_dev (flushed which m)) = [].
Proof.
  apply pending_empty. rewrite nused_flushed.
  destruct which; reflexivity.
Qed.
Lemma pending_flushed_other which b m :
  which <> b ->
  pending b (m_dev (flushed which m)) = pending b (m_dev m).
Proof.
  intro H. unfold pending. rewrite nused_flushed.
  destruct which, b; try congruence; reflexivity.
Qed.

(** Normalise the used-entry counts and the lists of a machine built by
    appends and flushes. *)
Ltac nused_norm :=
  repeat (rewrite nused_appended || rewrite nused_flushed);
  cbn [board_eqb].

Ltac nused_side H1 H2 :=
  nused_norm; rewrite ?H1, ?H2; unfold MAX_XFERS; lia.

Ltac pending_norm H1 H2 :=
  repeat first
    [ rewrite pending_flushed
    | rewrite pending_flushed_other by discriminate
    | rewrite pending_appended_other by discriminate
    | rewrite pending_appended by (nused_side H1 H2)
    | rewrite pending_empty by (nused_side H1 H2) ].

Ltac bus_norm :=
  repeat first
    [ rewrite m_trace_flushed | rewrite m_trace_appended
    | rewrite fd_flushed | rewrite fd_appended
    | rewrite m_env_flushed | rewrite m_env_appended ].

(** ** Synchronized command *)

Lemma spi_ok_mock rx : spi_ok (mock rx).
Proof. intros n fd_ msg. simpl. lia. Qed.

(** C2, as the code has it.  On a handle that does not lock, from empty
    lists, on a bus that takes every message and with no register to read
    back, a synchronized command of beacondaq.c puts one frame on the bus,
    the command to the master, because the number of boards NBD is fixed at
    1; under the same conditions the bracketed order master:SYNC_ON,
    slave:CMD, master:CMD, master:SYNC_OFF is what the two-board branch of
    the function produces. *)
Theorem synchronized_command_order (cmd : frame) (m : machine) :
  enable_locking (m_dev m) = 0 ->
  nused (m_dev m) MASTER = 0 ->
  nused (m_dev m) SLAVE = 0 ->
  spi_ok (m_env m) ->
  transmitted (trace_since m (snd (synchronized_command cmd 0 None None m)))
  = [(fd (m_dev m) MASTER, cmd)]
  /\
  transmitted
    (trace_since m (snd (synchronized_command_both cmd 0 None None m)))
  = [(fd (m_dev m) MASTER, buf_sync_on);
     (fd (m_dev m) SLAVE, cmd);
     (fd (m_dev m) MASTER, cmd);
     (fd (m_dev m) MASTER, buf_sync_off)].
Proof.
  intros _ HM HS Hok. split.
  - unfold synchronized_command, synchronized_command_master_only.
    rewrite bind_eq. cbn [fst snd get_dev].
    change (NBD (m_dev m) <? 2) with true. cbv iota.
    rewrite bind_eq, buffer_append_appends by (nused_side HM HS).
    cbn [fst snd].
    change (nonzero 0) with false. cbv iota.
    rewrite bind_eq. cbn [fst snd ret].
    rewrite bind_eq, buffer_send_flushes; [ | exact Hok | nused_side HM HS ].
    cbn [fst snd ret].
    erewrite trace_since_app by (bus_norm; reflexivity).
    pending_norm HM HS. reflexivity.
  - unfold synchronized_command_both.
    rewrite bind_eq, buffer_append_appends by (nused_side HM HS).
    cbn [fst snd].
    rewrite bind_eq, buffer_send_flushes; [ | exact Hok | nused_side HM HS ].
    cbn [fst snd].
    rewrite bind_eq, buffer_append_appends by (nused_side HM HS).
    cbn [fst snd].
    rewrite bind_eq, buffer_send_flushes; [ | exact Hok | nused_side HM HS ].
    cbn [fst snd].
    rewrite bind_eq, buffer_append_appends by (nused_side HM HS).
    cbn [fst snd].
    rewrite bind_eq, buffer_append_appends by (nused_side HM HS).
    cbn [fst snd].
    rewrite bind_eq, buffer_send_flushes; [ | exact Hok | nused_side HM HS ].
    cbn [fst snd].
    change (nonzero 0) with false. cbv iota.
    rewrite bind_eq. cbn [fst snd ret].
    erewrite trace_since_app
      by (bus_norm; rewrite <- !app_assoc; reflexivity).
    pending_norm HM HS. reflexivity.
Qed.

Lemma synchronized_command_order_witness :
  let m := opened_pair (mock (fun _ => frame0)) in
  transmitted
    (trace_since m (snd (synchronized_command buf_reset_counter 0 None None m)))
  = [(3, buf_reset_counter)]
  /\
  transmitted
    (trace_since m
       (snd (synchronized_command_both buf_reset_counter 0 None None m)))
  = [(3, buf_sync_on); (4, buf_reset_counter);
     (3, buf_reset_counter); (3, buf_sync_off)].
Proof.
  apply (synchronized_command_order buf_reset_counter
           (opened_pair (mock (fun _ => frame0)))).
  - vm_compute; reflexivity.
  - vm_compute; reflexivity.
  - vm_compute; reflexivity.
  - rewrite m_env_opened_pair. apply spi_ok_mock.
Defined.

(** C2 as the spec states it does not hold: with a slave open, the
    synchronized command still goes to the master only. *)
Lemma synchronized_command_skips_slave :
  ~ (forall cmd m,
       fd (m_dev m) SLAVE <> 0 ->
       nused (m_dev m) MASTER = 0 ->
       nused (m_dev m) SLAVE = 0 ->
       spi_ok (m_env m) ->
       transmitted
         (trace_since m (snd (synchronized_command cmd 0 None None m)))
       = [(fd (m_dev m) MASTER, buf_sync_on);
          (fd (m_dev m) SLAVE, cmd);
          (fd (m_dev m) MASTER, cmd);
          (fd (m_dev m) MASTER, buf_sync_off)]).
Proof.
  intro H.
  specialize (H buf_reset_counter (opened_pair (mock (fun _ => frame0)))).
  assert (A : fd (m_dev (opened_pair (mock (fun _ => frame0)))) SLAVE <> 0)
    by (vm_compute; discriminate).
  assert (B : nused (m_dev (opened_pair (mock (fun _ => frame0)))) MASTER = 0)
    by (vm_compute; reflexivity).
  assert (C : nused (m_dev (opened_pair (mock (fun _ => frame0)))) SLAVE = 0)
    by (vm_compute; reflexivity).
  assert (D : spi_ok (m_env (opened_pair (mock (fun _ => frame0)))))
    by (rewrite m_env_opened_pair; apply spi_ok_mock).
  specialize (H A B C D).
  assert (E : transmitted
                (trace_since (opened_pair (mock (fun _ => frame0)))
                   (snd (synchronized_command buf_reset_counter 0 None None
                           (opened_pair (mock (fun _ => frame0))))))
              = [(3, buf_reset_counter)]) by (vm_compute; reflexivity).
  assert (F : fd (m_dev (opened_pair (mock (fun _ => frame0)))) MASTER = 3)
    by (vm_compute; reflexivity).
  assert (G : fd (m_dev (opened_pair (mock (fun _ => frame0)))) SLAVE = 4)
    by (vm_compute; reflexivity).
  rewrite E, F, G in H. discriminate H.
Qed.

(** ** Attenuation *)

(** reverse_bits itself reverses (two values of the spec, and it is an
    involution on bytes). *)
Lemma reverse_bits_examples :
  reverse_bits 0x80 = 0x01 /\ reverse_bits 0xA5 = 0xA5 /\
  forallb (fun b => reverse_bits (reverse_bits b) =? b) (zrange 256) = true.
Proof. repeat split; vm_compute; reflexivity. Qed.

(** C6, the code at the failing input.  reverse_buf_bits leaves every frame as
    it is, so the attenuator bytes go out, and come back, unreversed: with
    attenuation 1 for channel 0 the frame sent to register 0x32 ends in 0x01
    (its bit reversal is 0x80), and a device that answers 0x01 in the low byte
    gives attenuation 1 back for channel 0. *)
Theorem attenuation_bytes_not_reversed :
  (forall f, reverse_buf_bits f = f) /\
  reverse_bits 0x01 = 0x80 /\
  (let m := opened (mock (fun _ => frame0)) in
   transmitted
     (trace_since m (snd (beacon_set_attenuation (Some att_one) None m)))
   = [(3, Frame REG_ATTEN_012 0 0 0x01);
      (3, Frame REG_ATTEN_345 0 0 0);
      (3, Frame REG_ATTEN_67 0 0 0);
      (3, buf_apply_attenuation)]) /\
  (let m := opened (mock (fun _ => Frame 0 0 0 0x01)) in
   match fst (beacon_get_attenuation (Some (fun _ => 0)) None m) with
   | (r, Some out, _) => r = 0 /\ out 0%nat = 0x01
   | _ => False
   end).
Proof.
  split; [reflexivity|]. split; [vm_compute; reflexivity|].
  split; vm_compute; auto.
Qed.

(** For every attenuation array, what send_attenuation queues and sends is
    the three frames with the bytes as the caller gave them. *)
Lemma send_attenuation_frames which att m :
  nused (m_dev m) which = 0 ->
  spi_ok (m_env m) ->
  transmitted (trace_since m (snd (send_attenuation which att m)))
  = [(fd (m_dev m) which, Frame REG_ATTEN_012 (att 2%nat) (att 1%nat) (att 0%nat));
     (fd (m_dev m) which, Frame REG_ATTEN_345 (att 5%nat) (att 4%nat) (att 3%nat));
     (fd (m_dev m) which, Frame REG_ATTEN_67 0 (att 7%nat) (att 6%nat))].
Proof.
  intros H0 Hok. unfold send_attenuation, attenuation_frames, reverse_buf_bits.
  assert (HS : nused (m_dev m) which = 0) by exact H0.
  rewrite bind_eq, buffer_append_appends
    by (nused_norm; destruct which; simpl; rewrite H0; reflexivity).
  cbn [fst snd].
  rewrite bind_eq, buffer_append_appends
    by (nused_norm; destruct which; simpl; rewrite H0; reflexivity).
  cbn [fst snd].
  rewrite bind_eq, buffer_append_appends
    by (nused_norm; destruct which; simpl; rewrite H0; reflexivity).
  cbn [fst snd].
  rewrite bind_eq, buffer_send_flushes;
    [ | exact Hok | nused_norm; destruct which; simpl; rewrite H0; lia ].
  cbn [fst snd ret].
  erewrite trace_since_app by (bus_norm; reflexivity).
  rewrite !pending_appended
    by (nused_norm; destruct which; simpl; rewrite H0; lia).
  rewrite pending_empty by exact H0. reflexivity.
Qed.

(** ** ADC alignment *)

Lemma trace_since_refl m : trace_since m m = [].
Proof. unfold trace_since. apply skipn_all. Qed.

Lemma trace_since_trans m1 m2 m3 l1 l2 :
  m_trace m2 = m_trace m1 ++ l1 ->
  m_trace m3 = m_trace m2 ++ l2 ->
  m_trace m3 = m_trace m1 ++ (l1 ++ l2).
Proof. intros H1 H2. rewrite H2, H1, app_assoc. reflexivity. Qed.

(** One turn of the loop over the ADCs: a write when the ADC is enabled and
    the delay is not 0, nothing otherwise; the handle is not changed. *)
Lemma write_adc_delay_step p ibd iadc m :
  m_trace (snd (write_adc_delay p ibd iadc m)) =
  m_trace m ++
    (if adc_enabled (m_dev m) ibd iadc && (0 <? adc_delay p ibd iadc)
     then [SysWrite (fd (m_dev m) ibd)
             (adc_delay_frame iadc (adc_delay p ibd iadc))]
     else [])
  /\ m_dev (snd (write_adc_delay p ibd iadc m)) = m_dev m.
Proof.
  unfold write_adc_delay, adc_enabled, nonzero. rewrite bind_eq.
  cbn [fst snd get_dev].
  destruct (Z.land (Z.shiftl 1 (2 * iadc)) (channel_read_mask (m_dev m) ibd)
            =? 0); cbn [negb andb].
  - unfold ret; cbn [fst snd]. rewrite app_nil_r. auto.
  - destruct (0 <? adc_delay p ibd iadc).
    + unfold do_write. rewrite !bind_eq. unfold sys, ret. cbn [fst snd].
      auto.
    + unfold ret; cbn [fst snd]. rewrite app_nil_r. auto.
Qed.

Lemma in_zrange (n x : Z) : 0 <= x < n -> In x (zrange n).
Proof.
  intro H. unfold zrange. apply in_map_iff. exists (Z.to_nat x).
  split; [lia | apply in_seq; lia].
Qed.

(** What the scan of the channels leaves: the peak of every channel read so
    far lies between the two extremes. *)
Lemma scan_channels_bounds crm data l : forall p done,
  (forall c, In c done -> Z.land (Z.shiftl 1 c) (crm MASTER) <> 0 ->
     min_max_i p <= max_i p MASTER c <= max_max_i p) ->
  forall c, In c (done ++ l) -> Z.land (Z.shiftl 1 c) (crm MASTER) <> 0 ->
    let p' := fold_left (fun p ichan => scan_channel crm data p MASTER ichan)
                l p in
    min_max_i p' <= max_i p' MASTER c <= max_max_i p'.
Proof.
  induction l as [|x l IH]; intros p done Inv c Hin Hbit.
  - rewrite app_nil_r in Hin. cbn [fold_left]. apply Inv; assumption.
  - cbn [fold_left].
    apply (IH (scan_channel crm data p MASTER x) (done ++ [x])).
    + clear c Hin Hbit. intros c Hin Hbit.
      unfold scan_channel.
      destruct (Z.land (Z.shiftl 1 x) (crm MASTER) =? 0) eqn:B.
      * apply in_app_or in Hin. destruct Hin as [Hin | [-> | []]].
        -- apply Inv; assumption.
        -- apply Z.eqb_eq in B. contradiction.
      * destruct (find_peak (data MASTER x)) as [mi mv].
        cbn [max_i min_max_i max_max_i board_eqb andb].
        destruct (c =? x) eqn:Ecx.
        -- destruct (mi <? min_max_i p) eqn:E1;
             destruct (max_max_i p <? mi) eqn:E2; lia.
        -- apply in_app_or in Hin. destruct Hin as [Hin | [-> | []]].
           ++ specialize (Inv c Hin Hbit).
              destruct (mi <? min_max_i p) eqn:E1;
                destruct (max_max_i p <? mi) eqn:E2; lia.
           ++ rewrite Z.eqb_refl in Ecx. discriminate.
    + rewrite <- app_assoc. exact Hin.
    + exact Hbit.
Qed.

Lemma find_peaks_bounds d data c :
  0 <= c < BN_NUM_CHAN ->
  channel_read d MASTER c = true ->
  min_max_i (find_peaks d data) <= max_i (find_peaks d data) MASTER c
  <= max_max_i (find_peaks d data).
Proof.
  intros Hc Hr. unfold find_peaks.
  change (boards_below (NBD d)) with [MASTER]. cbn [fold_left].
  apply (scan_channels_bounds (channel_read_mask d) data (zrange BN_NUM_CHAN)
           peaks0 []).
  - intros ? [].
  - cbn [app]. apply in_zrange. exact Hc.
  - unfold channel_read, nonzero in Hr.
    apply negb_true_iff, Z.eqb_neq in Hr. exact Hr.
Qed.

(** The frame of a delay between 0 and 16: the register field has four
    bits, so a delay of 16 is written as 0. *)
Lemma adc_delay_frame_mod k dl :
  0 <= k < 4 -> 0 <= dl <= 16 ->
  adc_delay_frame k dl =
  Frame (REG_ADC_DELAYS + k) 0 (dl mod 16 + 16) (dl mod 16 + 16).
Proof.
  intros Hk Hd.
  assert (K : k = 0 \/ k = 1 \/ k = 2 \/ k = 3) by lia.
  assert (D : dl = 0 \/ dl = 1 \/ dl = 2 \/ dl = 3 \/ dl = 4 \/ dl = 5 \/
              dl = 6 \/ dl = 7 \/ dl = 8 \/ dl = 9 \/ dl = 10 \/ dl = 11 \/
              dl = 12 \/ dl = 13 \/ dl = 14 \/ dl = 15 \/ dl = 16) by lia.
  clear Hk Hd.
  destruct K as [-> | [-> | [-> | ->]]];
    repeat (destruct D as [-> | D]; [reflexivity|]); subst dl; reflexivity.
Qed.

(** On an accepted attempt the delay of an ADC with both channels read is
    the delay of the spec, and lies between 0 and 16. *)
Lemma accepted_delay d data k :
  peaks_accepted (find_peaks d data) = true ->
  0 <= k < 4 ->
  adc_enabled d MASTER k = true ->
  channel_read d MASTER (2 * k + 1) = true ->
  adc_delay (find_peaks d data) MASTER k = spec_delay (find_peaks d data) MASTER k
  /\ 0 <= spec_delay (find_peaks d data) MASTER k <= 16.
Proof.
  intros Acc Hk En Odd.
  assert (Ha := find_peaks_bounds d data (2 * k)
                  ltac:(unfold BN_NUM_CHAN; lia) En).
  assert (Hb := find_peaks_bounds d data (2 * k + 1)
                  ltac:(unfold BN_NUM_CHAN; lia) Odd).
  unfold peaks_accepted in Acc. apply andb_true_iff in Acc.
  destruct Acc as [_ Acc]. apply negb_true_iff, Z.ltb_ge in Acc.
  generalize dependent (find_peaks d data). intros p Ha Hb Acc.
  unfold adc_delay, spec_delay.
  set (a := max_i p MASTER (2 * k)) in *.
  set (b := max_i p MASTER (2 * k + 1)) in *.
  set (mn := min_max_i p) in *. set (mx := max_max_i p) in *.
  assert (Q : cdiv (a + b - 2 * mn) 2 = (a + b) / 2 - mn).
  { unfold cdiv. rewrite Z.quot_div_nonneg by lia.
    replace (a + b - 2 * mn) with (a + b + (- mn) * 2) by lia.
    rewrite Z.div_add by lia. lia. }
  assert (R : 0 <= (a + b) / 2 - mn <= 16).
  { assert (mn <= (a + b) / 2) by (apply Z.div_le_lower_bound; lia).
    assert ((a + b) / 2 <= mx) by (apply Z.div_le_upper_bound; lia).
    lia. }
  rewrite Q. unfold u8. rewrite Z.mod_small by lia. split; [reflexivity | exact R].
Qed.

Lemma pairs_read_odd d k :
  pairs_read d MASTER = true -> 0 <= k < 4 ->
  adc_enabled d MASTER k = true -> channel_read d MASTER (2 * k + 1) = true.
Proof.
  unfold pairs_read. intros H Hk En. rewrite forallb_forall in H.
  specialize (H k ltac:(apply in_zrange; exact Hk)).
  rewrite En in H. exact H.
Qed.

(** C7, as the code has it.  On an accepted attempt, with both channels of
    every aligned ADC read, the delay of ADC k is
    (peak_idx[2k] + peak_idx[2k+1])/2 - min_peak_idx and lies between 0 and
    16.  The loop over the ADCs makes, for every aligned ADC in turn, one
    write to its delay register when the delay is greater than 0, and none
    when it is 0; the frame written carries the low four bits of the delay
    (the delay modulo 16) with the apply bit set: the delay itself up to 15,
    and 0 for a delay of 16. *)
Theorem adc_delays_written (m : machine) :
  peaks_accepted (find_peaks (m_dev m) (calib_data m)) = true ->
  pairs_read (m_dev m) MASTER = true ->
  (forall k, 0 <= k < 4 -> adc_enabled (m_dev m) MASTER k = true ->
     0 <= spec_delay (find_peaks (m_dev m) (calib_data m)) MASTER k <= 16) /\
  trace_since m
    (snd (write_adc_delays (find_peaks (m_dev m) (calib_data m)) m)) =
  flat_map (fun k =>
              if adc_enabled (m_dev m) MASTER k
                 && (0 <? spec_delay (find_peaks (m_dev m) (calib_data m))
                            MASTER k)
              then [delay_write (fd (m_dev m) MASTER) k
                      (spec_delay (find_peaks (m_dev m) (calib_data m))
                         MASTER k mod 16)]
              else [])
           [0; 1; 2; 3].
Proof.
  intros Acc Pairs.
  set (p := find_peaks (m_dev m) (calib_data m)) in *.
  assert (H : forall k, 0 <= k < 4 -> adc_enabled (m_dev m) MASTER k = true ->
                adc_delay p MASTER k = spec_delay p MASTER k /\
                0 <= spec_delay p MASTER k <= 16).
  { intros k Hk En.
    apply (accepted_delay (m_dev m) (calib_data m) k Acc Hk En).
    apply pairs_read_odd; assumption. }
  split; [intros k Hk En; apply (H k Hk En)|].
  clearbody p. clear Acc Pairs.
  apply trace_since_app.
  unfold write_adc_delays. rewrite bind_eq. cbn [fst snd get_dev].
  change (boards_below (NBD (m_dev m))) with [MASTER].
  change (zrange (BN_NUM_CHAN / 2)) with [0; 1; 2; 3].
  cbn [for_each]. rewrite !bind_eq. unfold ret at 1 2. cbn [fst snd].
  destruct (write_adc_delay_step p MASTER 0 m) as [T0 D0].
  set (m0 := snd (write_adc_delay p MASTER 0 m)) in *.
  destruct (write_adc_delay_step p MASTER 1 m0) as [T1 D1].
  set (m1 := snd (write_adc_delay p MASTER 1 m0)) in *.
  destruct (write_adc_delay_step p MASTER 2 m1) as [T2 D2].
  set (m2 := snd (write_adc_delay p MASTER 2 m1)) in *.
  destruct (write_adc_delay_step p MASTER 3 m2) as [T3 D3].
  set (m3 := snd (write_adc_delay p MASTER 3 m2)) in *.
  rewrite D2, D1, D0 in T3. rewrite D1, D0 in T2. rewrite D0 in T1.
  rewrite T3, T2, T1, T0. rewrite <- !app_assoc. f_equal.
  cbn [flat_map]. rewrite app_nil_r.
  assert (S : forall k, 0 <= k < 4 ->
    (if adc_enabled (m_dev m) MASTER k && (0 <? adc_delay p MASTER k)
     then [SysWrite (fd (m_dev m) MASTER)
             (adc_delay_frame k (adc_delay p MASTER k))]
     else []) =
    (if adc_enabled (m_dev m) MASTER k && (0 <? spec_delay p MASTER k)
     then [delay_write (fd (m_dev m) MASTER) k (spec_delay p MASTER k mod 16)]
     else [])).
  { intros k Hk. destruct (adc_enabled (m_dev m) MASTER k) eqn:En;
      [|reflexivity].
    destruct (H k Hk En) as (E1 & R).
    rewrite E1, (adc_delay_frame_mod k _ Hk R). reflexivity. }
  rewrite (S 0), (S 1), (S 2), (S 3) by lia. reflexivity.
Qed.

(** What the scan finds in the event of [spread16]. *)
Lemma spread16_scan :
  let p := find_peaks (m_dev spread16) (calib_data spread16) in
  min_max_i p = 100 /\ max_max_i p = 116 /\ min_max_v p = 80 /\
  max_i p MASTER 0 = 100 /\ max_i p MASTER 1 = 101 /\
  max_i p MASTER 2 = 104 /\ max_i p MASTER 3 = 105 /\
  max_i p MASTER 4 = 100 /\ max_i p MASTER 5 = 102 /\
  max_i p MASTER 6 = 116 /\ max_i p MASTER 7 = 116.
Proof. vm_compute. repeat split. Qed.

(** An accepted attempt with a spread of exactly 16: the peaks of the eight
    channels are at samples 100, 101, 104, 105, 100, 102, 116, 116.  The
    delays are 0, 4, 1 and 16: no write for the first ADC, 4 and 1 for the
    second and the third, and the frame of the fourth carries 0. *)
Lemma adc_delays_written_witness :
  spec_delay (find_peaks (m_dev spread16) (calib_data spread16)) MASTER 3
  = 16 /\
  trace_since spread16
    (snd (write_adc_delays
            (find_peaks (m_dev spread16) (calib_data spread16)) spread16)) =
  [delay_write 3 1 4; delay_write 3 2 1; delay_write 3 3 0].
Proof.
  pose proof spread16_scan as S. cbv zeta in S.
  destruct S as (Mn & Mx & Mv & E0 & E1 & E2 & E3 & E4 & E5 & E6 & E7).
  destruct (adc_delays_written spread16) as [_ T].
  - unfold peaks_accepted. rewrite Mn, Mx, Mv. reflexivity.
  - vm_compute; reflexivity.
  - split.
    + unfold spec_delay. change (2 * 3) with 6. change (6 + 1) with 7.
      rewrite E6, E7, Mn. reflexivity.
    + rewrite T. cbn [flat_map app]. unfold spec_delay.
      change (2 * 0) with 0. change (2 * 1) with 2. change (2 * 2) with 4.
      change (2 * 3) with 6. change (0 + 1) with 1. change (2 + 1) with 3.
      change (4 + 1) with 5. change (6 + 1) with 7.
      rewrite E0, E1, E2, E3, E4, E5, E6, E7, Mn.
      vm_compute; reflexivity.
Defined.

(** C7 as the spec states it does not hold: in scenario S5 the first ADC is
    enabled and its delay is 0, and no write to its delay register is made. *)
Lemma adc_delay_zero_not_written :
  ~ (forall p m k,
       0 <= k < 4 ->
       adc_enabled (m_dev m) MASTER k = true ->
       In (delay_write (fd (m_dev m) MASTER) k (spec_delay p MASTER k))
          (trace_since m (snd (write_adc_delays p m)))).
Proof.
  intro H.
  specialize (H s5_peaks (opened (mock (fun _ => frame0))) 0).
  assert (A : 0 <= 0 < 4) by lia.
  assert (B : adc_enabled (m_dev (opened (mock (fun _ => frame0)))) MASTER 0
              = true) by (vm_compute; reflexivity).
  specialize (H A B).
  assert (E : trace_since (opened (mock (fun _ => frame0)))
                (snd (write_adc_delays s5_peaks
                        (opened (mock (fun _ => frame0)))))
              = [delay_write 3 1 4; delay_write 3 2 1; delay_write 3 3 4])
    by (vm_compute; reflexivity).
  assert (F : delay_write (fd (m_dev (opened (mock (fun _ => frame0)))) MASTER)
                0 (spec_delay s5_peaks MASTER 0)
              = delay_write 3 0 0)
    by (vm_compute; reflexivity).
  rewrite E, F in H.
  repeat (destruct H as [H | H]; [discriminate H|]). exact H.
Qed.

(** ** Wait *)

(** C4, the code at the failing input.  The monotonic clock stands still at
    1000 s, no buffer is ever ready, and the wall clock reads
    1700000000 s + 1000 ns.  A wait with a timeout of 10 s polls once and
    returns timed out (result 0, empty mask): the loop takes
    (now.tv_sec - start.tv_nsec) * 1e-9 * (now.tv_nsec - start.tv_nsec), with
    [now] read from the wall clock, which is 1700 here, where the elapsed time
    of the claim is 0.  (After the open the poll interval is 0, so the poll is
    a sched_yield.) *)
Theorem wait_times_out_after_one_poll :
  let start := Timespec 1000 0 in
  let now := Timespec 1700000000 1000 in
  let m := opened (mock_clocks start now) in
  fst (beacon_wait 2 10 MASTER m) = Some (0, Some 0) /\
  trace_since m (snd (beacon_wait 2 10 MASTER m)) =
    [SysClockGettime CLOCK_MONOTONIC;
     SysSpiMessage 3 (read_xfers REG_STATUS (L_result 3));
     SysSchedYield;
     SysClockGettime CLOCK_REALTIME] /\
  (waited_expr start now == 1700)%Q /\
  (elapsed_spec start start == 0)%Q.
Proof.
  repeat split; vm_compute; reflexivity.
Qed.

(** The expression of the loop is a product, that of the spec a sum: they
    differ whenever the clock moved by a whole number of seconds. *)
Lemma waited_is_not_elapsed (s n : Z) :
  n <> 0 ->
  (waited_expr (Timespec s 0) (Timespec (s + n) 0) == 0)%Q /\
  (elapsed_spec (Timespec s 0) (Timespec (s + n) 0) == inject_Z n)%Q.
Proof.
  intro H. unfold waited_expr, elapsed_spec. simpl.
  replace (s + n - s) with n by lia. split.
  - unfold Qeq. simpl. lia.
  - unfold Qeq. simpl. lia.
Qed.

(** ** Event readout: the cursor *)

Ltac solve_keeps_readout :=
  repeat lazymatch goal with
         | |- keeps _ (fill_header _ _ _ _ _ _) =>
             unfold fill_header; cbv zeta
         | |- keeps _ (let _ := _ in _) => cbv zeta
         | |- _ => keeps_step
         end.

Lemma mark_buffers_done_keeps_cursor b : keeps cursor (mark_buffers_done b).
Proof. unfold cursor. solve_keeps. Qed.

Lemma read_channel_keeps_cursor ibd e ibuf ichan :
  keeps cursor (read_channel ibd e ibuf ichan).
Proof. unfold cursor. solve_keeps. Qed.

Lemma queue_metadata_keeps_cursor ibd h :
  keeps cursor (queue_metadata ibd h).
Proof. unfold cursor. solve_keeps. Qed.

Lemma fill_header_keeps_cursor mask ibd h e ibuf now :
  keeps cursor (fill_header mask ibd h e ibuf now).
Proof. unfold cursor. solve_keeps_readout. Qed.

(** Once the turn for a buffer of the mask has begun on the master, the
    cursor is one further, whatever happens to the transfers. *)
Lemma read_board_cursor mask h e ibuf m :
  Z.land mask (Z.shiftl 1 ibuf) <> 0 ->
  cursor (snd (read_board mask h e ibuf MASTER m)) =
  (cursor m + 1) mod BN_NUM_BUFFER.
Proof.
  intro H. unfold read_board. apply Z.eqb_neq in H. rewrite H.
  rewrite bind_eq.
  set (m1 := snd (clock_gettime CLOCK_REALTIME m)).
  assert (C1 : cursor m1 = cursor m) by reflexivity.
  rewrite bind_eq. cbn [board_eqb when].
  match goal with
  | |- cursor (snd (?k ?a (snd (modify_dev ?f m1)))) = _ =>
      transitivity (cursor (snd (modify_dev f m1)));
      [ generalize (snd (modify_dev f m1));
        change (keeps cursor (k a)) | rewrite <- C1; reflexivity ]
  end.
  cbv beta.
  repeat lazymatch goal with
         | |- keeps _ (fill_header _ _ _ _ _ _) =>
             apply fill_header_keeps_cursor
         | |- keeps _ (ebind _ _) => apply keeps_ebind; [ | intro ]
         | |- keeps cursor _ => unfold cursor; solve_keeps
         end.
Qed.

Lemma read_buffer_cursor mask hd ev iout m :
  Z.land mask (Z.shiftl 1 (cursor m)) <> 0 ->
  cursor (snd (read_buffer mask hd ev iout m)) =
  (cursor m + 1) mod BN_NUM_BUFFER.
Proof.
  intro H. unfold read_buffer. rewrite bind_eq. cbn [fst snd get_dev].
  rewrite bind_eq.
  set (m0 := snd (modify_hd (hd iout) (with_sync_problem 0) m)).
  assert (C0 : cursor m0 = cursor m) by reflexivity.
  change (boards_below (NBD (m_dev m))) with [MASTER].
  cbn [board_loop]. rewrite ebind_eq, ebind_eq.
  fold (cursor m). rewrite <- C0 in H |- *.
  pose proof (read_board_cursor mask (hd iout) (ev iout) (cursor m0) m0 H) as R.
  destruct (fst (read_board mask (hd iout) (ev iout) (cursor m0) MASTER m0))
    as [[ibuf'|]|]; cbn [fst snd ret]; try exact R.
  - rewrite bind_eq. cbn [fst snd ret].
    rewrite mark_buffers_done_keeps_cursor. exact R.
  - rewrite bind_eq. cbn [fst snd ret].
    rewrite mark_buffers_done_keeps_cursor. exact R.
Qed.

Lemma land_self_bit n : 0 <= n -> Z.land (Z.shiftl 1 n) (Z.shiftl 1 n) <> 0.
Proof.
  intro H. rewrite Z.land_diag, Z.shiftl_1_l.
  apply Z.pow_nonzero; lia.
Qed.

(** The readout does not touch the locking flag of the handle. *)
Lemma read_board_keeps_locking mask h e ibuf ibd :
  keeps (fun m => enable_locking (m_dev m)) (read_board mask h e ibuf ibd).
Proof. unfold read_board. solve_keeps_readout. Qed.

Lemma read_buffer_keeps_locking mask hd ev iout :
  keeps (fun m => enable_locking (m_dev m)) (read_buffer mask hd ev iout).
Proof.
  unfold read_buffer.
  apply keeps_bind; [solve_keeps | intro d].
  change (boards_below (NBD d)) with [MASTER]. cbn [board_loop].
  repeat lazymatch goal with
         | |- keeps _ (read_board _ _ _ _ _) => apply read_board_keeps_locking
         | |- _ => keeps_step
         end.
Qed.

(** One turn of the loop over the buffers moves the cursor as [cursor_turn]
    says, whatever the result of the turn. *)
Lemma read_buffer_turn mask hd ev iout m :
  cursor (snd (read_buffer mask hd ev iout m)) = cursor_turn mask (cursor m).
Proof.
  unfold cursor_turn.
  destruct (Z.land mask (Z.shiftl 1 (cursor m)) =? 0) eqn:H.
  - unfold read_buffer. rewrite bind_eq. cbn [fst snd get_dev].
    rewrite bind_eq.
    set (m0 := snd (modify_hd (hd iout) (with_sync_problem 0) m)).
    assert (C0 : cursor m0 = cursor m) by reflexivity.
    change (boards_below (NBD (m_dev m))) with [MASTER].
    cbn [board_loop]. rewrite ebind_eq, ebind_eq.
    fold (cursor m). unfold read_board. rewrite H.
    rewrite bind_eq. cbn [fst snd ret modify_dev].
    rewrite bind_eq. cbn [fst snd ret].
    rewrite mark_buffers_done_keeps_cursor. reflexivity.
  - apply read_buffer_cursor. apply Z.eqb_neq. exact H.
Qed.

(** The cursor after [n] turns at most: as many moves as turns begun. *)
Lemma buffer_loop_cursor mask hd ev n : forall iout m,
  exists k,
    (k <= n)%nat /\
    cursor (snd (buffer_loop n mask hd ev iout m)) =
    Nat.iter k (cursor_turn mask) (cursor m) /\
    (fst (buffer_loop n mask hd ev iout m) = Go tt -> k = n) /\
    (fst (buffer_loop n mask hd ev iout m) = TheEnd -> (1 <= k)%nat).
Proof.
  induction n as [|n IH]; intros iout m.
  - exists 0%nat. cbn [buffer_loop ret fst snd Nat.iter].
    repeat split; auto; discriminate.
  - cbn [buffer_loop]. rewrite ebind_eq.
    pose proof (read_buffer_turn mask hd ev iout m) as T.
    destruct (fst (read_buffer mask hd ev iout m)) as [[]|].
    + destruct (IH (S iout) (snd (read_buffer mask hd ev iout m)))
        as (k & Hk & Hc & Hg & He).
      exists (S k). rewrite Hc, T, Nat.iter_succ_r.
      split; [lia|]. split; [reflexivity|].
      split; [intro G; rewrite (Hg G); reflexivity | intros; lia].
    + exists 1%nat. cbn [ret fst snd Nat.iter]. rewrite T.
      split; [lia|]. split; [reflexivity|].
      split; [discriminate | intros; lia].
Qed.

(** C1, as the code has it.  On a handle that does not lock, in each turn of
    the loop over the buffers the cursor moves once, and the move does not
    depend on how the transfers of the turn go: one further modulo 4 when
    the buffer it names is in the mask (also when the read of that buffer
    then fails: nothing puts the cursor back), to the lowest buffer of the
    mask when it is not; the handle still does not lock after the turn.
    After a call the cursor is the result of n such moves, where n is the
    number of buffers of the mask when the call returns 0 and the number of
    turns begun, at least one, when it fails. *)
Theorem cursor_advances_when_read_starts (mask : Z) (hd ev : nat -> nat)
    (m : machine) :
  enable_locking (m_dev m) = 0 ->
  (forall iout s,
     enable_locking (m_dev s) = 0 ->
     enable_locking (m_dev (snd (read_buffer mask hd ev iout s))) = 0 /\
     cursor (snd (read_buffer mask hd ev iout s)) =
     if Z.land mask (Z.shiftl 1 (cursor s)) =? 0 then ctz mask
     else (cursor s + 1) mod BN_NUM_BUFFER) /\
  exists n,
    (n <= popcount mask)%nat /\
    cursor (snd (beacon_read_multiple_ptr mask hd ev m)) =
    Nat.iter n (cursor_turn mask) (cursor m) /\
    (fst (beacon_read_multiple_ptr mask hd ev m) = 0 -> n = popcount mask) /\
    (fst (beacon_read_multiple_ptr mask hd ev m) <> 0 -> (1 <= n)%nat).
Proof.
  intros _. split.
  { intros iout s L. split.
    - rewrite (read_buffer_keeps_locking mask hd ev iout s). exact L.
    - apply read_buffer_turn. }
  unfold beacon_read_multiple_ptr. rewrite bind_eq. cbn [ret fst snd].
  destruct (buffer_loop_cursor mask hd ev (popcount mask) 0%nat m)
    as (k & Hk & Hc & Hg & He).
  exists k. split; [exact Hk|]. split; [exact Hc|].
  destruct (fst (buffer_loop (popcount mask) mask hd ev 0 m)) as [[]|].
  - split; [intros _; apply Hg; reflexivity
           | intro X; contradiction X; reflexivity].
  - split; [discriminate | intros _; apply He; reflexivity].
Qed.

(** A read of buffers 0 and 2 (mask 5) on a working bus from cursor 0: the
    call returns 0 after two turns, the first reads buffer 0 and moves the
    cursor to 1, the second finds buffer 1 outside the mask and puts the
    cursor back to 0.  On the device whose SPI messages fail, the read of
    buffer 0 fails after one turn and the cursor has moved from 0 to 1. *)
Lemma cursor_advances_when_read_starts_witness :
  cursor (snd (beacon_read_multiple_ptr 5 (fun i => i) (fun i => i)
                 (small (opened (mock (fun _ => frame0)))))) = 0 /\
  cursor (snd (beacon_read_multiple_ptr 1 (fun i => i) (fun i => i)
                 (small (opened mock_spi_dead)))) = 1.
Proof.
  split.
  - destruct (cursor_advances_when_read_starts 5 (fun i => i) (fun i => i)
                (small (opened (mock (fun _ => frame0))))
                ltac:(vm_compute; reflexivity))
      as (_ & n & _ & Hc & H0 & _).
    rewrite Hc. rewrite H0 by (vm_compute; reflexivity).
    vm_compute; reflexivity.
  - destruct (cursor_advances_when_read_starts 1 (fun i => i) (fun i => i)
                (small (opened mock_spi_dead))
                ltac:(vm_compute; reflexivity))
      as (_ & n & Hn & Hc & _ & H1).
    rewrite Hc.
    assert (N : n = 1%nat).
    { assert (P : (n <= 1)%nat) by exact Hn.
      assert (Q : (1 <= n)%nat) by (apply H1; vm_compute; discriminate).
      lia. }
    rewrite N. vm_compute; reflexivity.
Defined.

(** C1 as the spec states it does not hold: a read of one buffer that fails
    partway leaves the cursor advanced. *)
Lemma failed_read_moves_cursor :
  ~ (forall mask hd ev m,
       popcount mask = 1%nat ->
       fst (beacon_read_multiple_ptr mask hd ev m) <> 0 ->
       cursor (snd (beacon_read_multiple_ptr mask hd ev m)) = cursor m).
Proof.
  intro H.
  pose proof (H 1 (fun i => i) (fun i => i) (small (opened mock_spi_dead)))
    as H'. clear H.
  assert (A : popcount 1 = 1%nat) by (vm_compute; reflexivity).
  assert (B : fst (beacon_read_multiple_ptr 1 (fun i => i) (fun i => i)
                     (small (opened mock_spi_dead))) = 1)
    by (vm_compute; reflexivity).
  assert (C : cursor (snd (beacon_read_multiple_ptr 1 (fun i => i)
                             (fun i => i) (small (opened mock_spi_dead)))) = 1)
    by (vm_compute; reflexivity).
  assert (D : cursor (small (opened mock_spi_dead)) = 0)
    by (vm_compute; reflexivity).
  rewrite B, C, D in H'.
  specialize (H' A ltac:(discriminate)). discriminate H'.
Qed.

(** ** Event readout on a bus that works *)

Lemma succeeds_buffer_send which : succeeds (buffer_send which).
Proof. intros m Hok. apply buffer_send_ok. exact Hok. Qed.

Lemma succeeds_buffer_append which tx rx :
  succeeds (buffer_append which tx rx).
Proof.
  intros m Hok. unfold buffer_append. rewrite bind_eq. cbn [fst snd get_dev].
  destruct (nused (m_dev m) which >=? MAX_XFERS).
  - rewrite !bind_eq. rewrite (succeeds_buffer_send which m Hok).
    reflexivity.
  - reflexivity.
Qed.

Lemma buffer_append_keeps_env which tx rx :
  keeps m_env (buffer_append which tx rx).
Proof. solve_keeps. Qed.

Lemma succeeds_until_fail {A} (l : list A) (body : A -> M Z) :
  (forall x, succeeds (body x)) ->
  (forall x, keeps m_env (body x)) ->
  succeeds (until_fail l body).
Proof.
  intros Hs Hk. induction l as [|x l IH]; intros m Hok; simpl.
  - reflexivity.
  - rewrite bind_eq, (Hs x m Hok). change (nonzero 0) with false. cbv iota.
    apply IH. rewrite Hk. exact Hok.
Qed.

Lemma succeeds_loop_over_chunks which naddr start result :
  succeeds (loop_over_chunks_half_duplex which naddr start result).
Proof.
  unfold loop_over_chunks_half_duplex.
  apply succeeds_until_fail; [ | intro; solve_keeps ].
  intros iaddr m Hok. rewrite bind_eq.
  rewrite (succeeds_buffer_append _ _ _ m Hok).
  change (nonzero 0) with false. cbv iota.
  apply succeeds_until_fail;
    [ | intro; solve_keeps | rewrite buffer_append_keeps_env; exact Hok ].
  intros ichunk m' Hok'. rewrite bind_eq.
  rewrite (succeeds_buffer_append _ _ _ m' Hok').
  change (nonzero 0) with false. cbv iota.
  apply succeeds_buffer_append. rewrite buffer_append_keeps_env. exact Hok'.
Qed.

Lemma succeeds_append_read_register which a r :
  succeeds (append_read_register which a r).
Proof.
  intros m Hok. unfold append_read_register. rewrite !bind_eq.
  rewrite (succeeds_buffer_append _ _ _ m Hok).
  rewrite succeeds_buffer_append
    by (rewrite buffer_append_keeps_env; exact Hok).
  reflexivity.
Qed.

Lemma goes_ret {A} (a : A) : goes (ret (Go a)).
Proof. intros m _. exists a. reflexivity. Qed.

Lemma goes_CHK (c : M Z) : succeeds c -> goes (CHK c).
Proof.
  intros H m Hok. exists tt. unfold CHK. rewrite bind_eq, (H m Hok).
  reflexivity.
Qed.

Lemma goes_lift {A} (c : M A) : goes (lift c).
Proof.
  intros m _. exists (fst (c m)). unfold lift. rewrite bind_eq. reflexivity.
Qed.

Lemma goes_ebind {A B} (c : E A) (k : A -> E B) :
  goes c -> keeps m_env c -> (forall a, goes (k a)) -> goes (ebind c k).
Proof.
  intros Hc Hk Hg m Hok. rewrite ebind_eq.
  destruct (Hc m Hok) as [a Ea]. rewrite Ea.
  apply Hg. rewrite Hk. exact Hok.
Qed.

Lemma goes_bind {A B} (c : M A) (k : A -> E B) :
  keeps m_env c -> (forall a, goes (k a)) -> goes (bind c k).
Proof.
  intros Hk Hg m Hok. rewrite bind_eq. apply Hg. rewrite Hk. exact Hok.
Qed.

Lemma goes_efor_each {A} (l : list A) (body : A -> E unit) :
  (forall x, goes (body x)) ->
  (forall x, keeps m_env (body x)) ->
  goes (efor_each l body).
Proof.
  intros Hg Hk. induction l as [|x l IH]; simpl.
  - apply goes_ret.
  - apply goes_ebind; [apply Hg | apply Hk | intro; exact IH].
Qed.

Lemma read_channel_keeps_env ibd e ibuf ichan :
  keeps m_env (read_channel ibd e ibuf ichan).
Proof. solve_keeps. Qed.

Lemma goes_read_channel ibd e ibuf ichan :
  goes (read_channel ibd e ibuf ichan).
Proof.
  unfold read_channel. apply goes_bind; [solve_keeps|]. intro d.
  destruct (nonzero (Z.land (channel_read_mask d ibd) (Z.shiftl 1 ichan)));
    [ | apply goes_lift ].
  apply goes_ebind; [ | solve_keeps | intro ].
  { destruct (negb (current_mode d ibd =? MODE_WAVEFORMS));
      [ | apply goes_ret ].
    apply goes_ebind; [ | solve_keeps | intro; apply goes_lift ].
    apply goes_CHK, succeeds_buffer_append. }
  apply goes_ebind; [ | solve_keeps | intro ].
  { destruct (negb (current_buf d ibd =? ibuf)); [ | apply goes_ret ].
    apply goes_CHK, succeeds_buffer_append. }
  apply goes_ebind; [ | solve_keeps | intro ].
  { apply goes_CHK, succeeds_buffer_append. }
  apply goes_CHK, succeeds_loop_over_chunks.
Qed.

(** The sync-problem field of header [h]. *)
Lemma read_channel_keeps_sync h ibd e ibuf ichan :
  keeps (fun m => sync_problem (m_hd m h)) (read_channel ibd e ibuf ichan).
Proof. solve_keeps. Qed.

Lemma zero_slave_keeps_sync h h' e :
  keeps (fun m => sync_problem (m_hd m h)) (zero_slave h' e).
Proof. solve_keeps. Qed.

Lemma mark_buffers_done_keeps_sync h b :
  keeps (fun m => sync_problem (m_hd m h)) (mark_buffers_done b).
Proof. solve_keeps. Qed.

Lemma buffer_send_keeps_sync h which :
  keeps (fun m => sync_problem (m_hd m h)) (buffer_send which).
Proof. solve_keeps. Qed.

(** *** A run of appends *)

Lemma append_all_cons which x l m :
  append_all which (x :: l) m = append_all which l (appended which x m).
Proof. reflexivity. Qed.

Lemma m_env_append_all which l m : m_env (append_all which l m) = m_env m.
Proof.
  revert m. induction l as [|x l IH]; intro m; [reflexivity|].
  rewrite append_all_cons, IH. reflexivity.
Qed.

Lemma m_trace_append_all which l m :
  m_trace (append_all which l m) = m_trace m.
Proof.
  revert m. induction l as [|x l IH]; intro m; [reflexivity|].
  rewrite append_all_cons, IH. reflexivity.
Qed.

Lemma m_mem_append_all which l m : m_mem (append_all which l m) = m_mem m.
Proof.
  revert m. induction l as [|x l IH]; intro m; [reflexivity|].
  rewrite append_all_cons, IH. reflexivity.
Qed.

Lemma fd_append_all which l m :
  fd (m_dev (append_all which l m)) = fd (m_dev m).
Proof.
  revert m. induction l as [|x l IH]; intro m; [reflexivity|].
  rewrite append_all_cons, IH. reflexivity.
Qed.

Lemma nused_append_all which l m :
  nused (m_dev (append_all which l m)) which =
  nused (m_dev m) which + Z.of_nat (length l).
Proof.
  revert m. induction l as [|x l IH]; intro m.
  - simpl. lia.
  - rewrite append_all_cons, IH, nused_appended.
    destruct which; simpl length; cbn [board_eqb]; lia.
Qed.

Lemma pending_append_all which l m :
  0 <= nused (m_dev m) which ->
  pending which (m_dev (append_all which l m)) = pending which (m_dev m) ++ l.
Proof.
  revert m. induction l as [|x l IH]; intros m H.
  - simpl. rewrite app_nil_r. reflexivity.
  - rewrite append_all_cons, IH.
    + rewrite pending_appended by exact H. rewrite <- app_assoc. reflexivity.
    + rewrite nused_appended. destruct which; cbn [board_eqb]; lia.
Qed.

(** A register read queued when the list has room for its two entries. *)
Lemma CHK_append_read_register which a r m :
  nused (m_dev m) which + 1 < MAX_XFERS ->
  CHK (append_read_register which a (Some (r, 0))) m =
  (Go tt, append_all which (read_xfers a r) m).
Proof.
  intro H. unfold CHK, append_read_register. rewrite !bind_eq.
  rewrite buffer_append_appends by lia. cbn [fst snd].
  rewrite buffer_append_appends
    by (rewrite nused_appended; destruct which; cbn [board_eqb]; lia).
  reflexivity.
Qed.

Lemma append_all_app which l1 l2 m :
  append_all which (l1 ++ l2) m = append_all which l2 (append_all which l1 m).
Proof. unfold append_all. apply fold_left_app. Qed.

(** The fifteen register reads of the master's metadata, queued in a list
    that has room for them. *)
Lemma queue_metadata_master h m :
  0 <= nused (m_dev m) MASTER ->
  nused (m_dev m) MASTER + 30 < MAX_XFERS ->
  queue_metadata MASTER h m = (Go tt, append_all MASTER (metadata_reads h) m).
Proof.
  intros H0 H. unfold queue_metadata. cbn [board_eqb].
  unfold metadata_reads, metadata_message. cbn [tl].
  repeat (rewrite ebind_eq, CHK_append_read_register
            by (rewrite ?nused_append_all; simpl length; lia);
          cbn [fst snd]; rewrite append_all_app).
  rewrite CHK_append_read_register
    by (rewrite ?nused_append_all; simpl length; lia).
  reflexivity.
Qed.
Lemma CHK_buffer_append which tx rx m :
  nused (m_dev m) which < MAX_XFERS ->
  CHK (buffer_append which tx rx) m = (Go tt, appended which (Xfer tx rx) m).
Proof.
  intro H. unfold CHK. rewrite bind_eq, buffer_append_appends by exact H.
  reflexivity.
Qed.

Lemma CHK_buffer_send which m :
  spi_ok (m_env m) ->
  nused (m_dev m) which <> 0 ->
  CHK (buffer_send which) m = (Go tt, flushed which m).
Proof.
  intros Hok H. unfold CHK. rewrite bind_eq, buffer_send_flushes by assumption.
  reflexivity.
Qed.

(** The metadata phase on the master, from an empty list and on a bus that
    works: it goes through, one message is sent, which is
    [metadata_message], and the frames received are in memory. *)
Lemma read_metadata_master h ibuf m :
  spi_ok (m_env m) ->
  nused (m_dev m) MASTER = 0 ->
  exists m',
    read_metadata MASTER h ibuf m = (Go tt, m') /\
    m_env m' = m_env m /\
    m_mem m' =
      store_rx (metadata_message h ibuf) 0
        (rx_data (m_env m (length (m_trace m))
                    (SysSpiMessage (fd (m_dev m) MASTER)
                       (metadata_message h ibuf))))
        (m_mem m).
Proof.
  intros Hok H0. unfold read_metadata.
  rewrite ebind_eq, CHK_buffer_append by (rewrite H0; reflexivity).
  cbn [fst snd].
  set (m3 := appended MASTER _ m).
  rewrite ebind_eq.
  set (m4 := snd (lift (modify_dev _) m3)).
  change (fst (lift (modify_dev
                 (fun d => with_current_buf (set2 (current_buf d) MASTER ibuf) d))
                 m3)) with (Go tt).
  cbv iota.
  assert (N4 : nused (m_dev m4) MASTER = 1).
  { change (nused (m_dev m4) MASTER) with (nused (m_dev m3) MASTER).
    unfold m3. rewrite nused_appended, H0. reflexivity. }
  assert (P4 : pending MASTER (m_dev m4) = [Xfer (Some (buf_buffer ibuf)) None]).
  { change (pending MASTER (m_dev m4)) with (pending MASTER (m_dev m3)).
    unfold m3. rewrite pending_appended, pending_empty by lia. reflexivity. }
  assert (E4 : m_env m4 = m_env m) by reflexivity.
  assert (T4 : m_trace m4 = m_trace m) by reflexivity.
  assert (M4 : m_mem m4 = m_mem m) by reflexivity.
  assert (F4 : fd (m_dev m4) = fd (m_dev m)) by reflexivity.
  clearbody m4. clear m3.
  rewrite ebind_eq, queue_metadata_master
    by (rewrite N4; unfold MAX_XFERS; lia).
  cbn [fst snd].
  rewrite CHK_buffer_send;
    [ | rewrite m_env_append_all, E4; exact Hok
      | rewrite nused_append_all, N4; lia ].
  eexists. split; [reflexivity|].
  split.
  - rewrite m_env_flushed, m_env_append_all. exact E4.
  - rewrite m_mem_flushed.
    rewrite pending_append_all, P4 by lia.
    rewrite m_env_append_all, m_trace_append_all, fd_append_all,
      m_mem_append_all.
    rewrite E4, T4, M4, F4. reflexivity.
Qed.

(** *** Memory after a message *)

Lemma region_eqb_refl r : region_eqb r r = true.
Proof.
  destruct r; simpl; rewrite ?Nat.eqb_refl; try reflexivity.
  destruct ibd; reflexivity.
Qed.

Lemma load_store_frame r off f mem :
  load_frame (store_frame (r, off) f mem) (r, off) = f.
Proof.
  unfold load_frame, store_frame, store_byte, ptr_add, ptr_eqb.
  cbn [fst snd]. rewrite !region_eqb_refl. cbn [andb].
  repeat match goal with
         | |- context [?a =? ?b] =>
             first [ replace (a =? b) with true by (symmetry; apply Z.eqb_eq; lia)
                   | replace (a =? b) with false by (symmetry; apply Z.eqb_neq; lia) ];
             cbv iota
         end.
  destruct f; reflexivity.
Qed.

(** A message none of whose rx buffers is in region [r] leaves the bytes of
    [r] as they were. *)
Lemma store_rx_skips r msg :
  forallb (fun x => match rx_buf x with
                    | Some p => negb (region_eqb r (fst p))
                    | None => true
                    end) msg = true ->
  forall i rx mem off, store_rx msg i rx mem (r, off) = mem (r, off).
Proof.
  induction msg as [|x msg IH]; intros H i rx mem off; [reflexivity|].
  cbn [forallb] in H. apply andb_true_iff in H. destruct H as [Hx Hm].
  cbn [store_rx]. rewrite (IH Hm).
  destruct (rx_buf x) as [p|]; [|reflexivity].
  apply negb_true_iff in Hx.
  unfold store_frame, store_byte, ptr_eqb, ptr_add. cbn [fst snd].
  rewrite Hx. reflexivity.
Qed.

Lemma store_rx_app l1 l2 i rx mem :
  store_rx (l1 ++ l2) i rx mem =
  store_rx l2 (i + length l1) rx (store_rx l1 i rx mem).
Proof.
  revert i mem. induction l1 as [|x l1 IH]; intros i mem.
  - simpl. rewrite Nat.add_0_r. reflexivity.
  - cbn [app store_rx length]. rewrite IH. f_equal. lia.
Qed.

Lemma load_frame_ext mem mem' r off :
  (forall o, mem' (r, o) = mem (r, o)) ->
  load_frame mem' (r, off) = load_frame mem (r, off).
Proof.
  intro H. unfold load_frame, ptr_add. cbn [fst snd]. rewrite !H. reflexivity.
Qed.

(** The trig_info word is the frame received by transfer 16 of the
    metadata message. *)
Lemma tinfo_received h ibuf rx mem :
  load_frame (store_rx (metadata_message h ibuf) 0 rx mem) (L_tinfo, 0) =
  rx 16%nat.
Proof.
  change (metadata_message h ibuf) with
    (firstn 16 (metadata_message h ibuf)
     ++ [Xfer None (Some (L_tinfo, 0))]
     ++ skipn 17 (metadata_message h ibuf)).
  rewrite !store_rx_app.
  rewrite (load_frame_ext _ _ L_tinfo 0
             (store_rx_skips L_tinfo (skipn 17 (metadata_message h ibuf))
                eq_refl _ rx _)).
  cbn [store_rx rx_buf length firstn Nat.add].
  apply load_store_frame.
Qed.
(** [solve_keeps] for the operations that write headers: a header update is
    looked at through the one field of interest. *)
Ltac keeps_hd_step :=
  lazymatch goal with
  | |- keeps _ (modify_hd _ _) =>
      intro; unfold modify_hd, modify; cbn [fst snd m_hd with_hd];
      try match goal with
          | |- context [Nat.eqb ?a ?b] => destruct (Nat.eqb a b)
          end;
      reflexivity
  | |- keeps _ (let _ := _ in _) => cbv zeta
  | |- _ => keeps_step
  end.

Ltac solve_keeps_hd := repeat keeps_hd_step.

(** The buffer-number check of fill_header: a hardware index that is not the
    buffer asked for sets bit 0 of the header's sync-problem field. *)
Lemma fill_header_flags mask h e ibuf now m :
  hwbuf_of (load_frame (m_mem m) (L_tinfo, 0)) <> ibuf ->
  Z.testbit
    (sync_problem (m_hd (snd (fill_header mask MASTER h e ibuf now m)) h)) 0
  = true.
Proof.
  intro H. unfold fill_header. rewrite bind_eq. cbn [fst snd get]. cbv zeta.
  apply Z.eqb_neq in H. rewrite H. cbn [negb when board_eqb].
  rewrite bind_eq.
  match goal with
  | |- Z.testbit (sync_problem (m_hd (snd (?k ?a ?m1)) h)) 0 = true =>
      transitivity (Z.testbit (sync_problem (m_hd m1 h)) 0);
      [ f_equal; generalize m1;
        change (keeps (fun m => sync_problem (m_hd m h)) (k a)) | ]
  end.
  - cbv beta. solve_keeps_hd.
  - unfold modify_hd, modify. cbn [fst snd with_hd m_hd].
    rewrite Nat.eqb_refl. cbn [with_sync_problem sync_problem].
    rewrite Z.lor_spec. apply orb_true_r.
Qed.

Lemma fill_header_keeps_env mask ibd h e ibuf now :
  keeps m_env (fill_header mask ibd h e ibuf now).
Proof. solve_keeps_readout. Qed.

(** The waveform phase on the master, on a bus that works: it goes through
    and leaves the sync-problem field alone. *)
Lemma read_waveforms_master h e ibuf m :
  spi_ok (m_env m) ->
  fst (read_waveforms MASTER h e ibuf m) = Go None /\
  sync_problem (m_hd (snd (read_waveforms MASTER h e ibuf m)) h) =
  sync_problem (m_hd m h).
Proof.
  intro Hok. split.
  - unfold read_waveforms. rewrite ebind_eq.
    destruct (goes_efor_each (zrange BN_NUM_CHAN) (read_channel MASTER e ibuf)
                (goes_read_channel MASTER e ibuf)
                (read_channel_keeps_env MASTER e ibuf) m Hok) as [[] E1].
    rewrite E1.
    set (m1 := snd (efor_each _ _ m)).
    assert (Hok1 : spi_ok (m_env m1)).
    { unfold m1. rewrite (keeps_efor_each m_env); [exact Hok|].
      intro; apply read_channel_keeps_env. }
    clearbody m1.
    rewrite bind_eq. cbn [fst snd get_dev]. rewrite bind_eq.
    set (m2 := snd (when _ _ m1)).
    assert (Hok2 : spi_ok (m_env m2)).
    { assert (K : keeps m_env (zero_slave h e)) by solve_keeps.
      unfold m2. rewrite (keeps_when m_env _ _ K). exact Hok1. }
    clearbody m2.
    rewrite ebind_eq. unfold CHK. rewrite bind_eq.
    rewrite (succeeds_buffer_send MASTER m2 Hok2). reflexivity.
  - generalize m.
    change (keeps (fun m => sync_problem (m_hd m h))
              (read_waveforms MASTER h e ibuf)).
    solve_keeps_hd.
Qed.
Lemma lift_eq {A} (c : M A) (m : machine) :
  lift c m = (Go (fst (c m)), snd (c m)).
Proof. unfold lift. rewrite bind_eq. reflexivity. Qed.

(** The turn of the master for a buffer of the mask, from an empty list and
    on a bus that works, when the trig_info word received names another
    buffer: the turn goes through and bit 0 of the sync-problem field is
    set. *)
Lemma read_board_desync mask h e ibuf m :
  spi_ok (m_env m) ->
  nused (m_dev m) MASTER = 0 ->
  Z.land mask (Z.shiftl 1 ibuf) <> 0 ->
  (forall fd_ msg,
     hwbuf_of (rx_data (m_env m (S (length (m_trace m)))
                          (SysSpiMessage fd_ msg)) 16%nat) <> ibuf) ->
  fst (read_board mask h e ibuf MASTER m) = Go None /\
  Z.testbit (sync_problem (m_hd (snd (read_board mask h e ibuf MASTER m)) h)) 0
  = true.
Proof.
  intros Hok H0 Hbit Htinfo. unfold read_board.
  apply Z.eqb_neq in Hbit. rewrite Hbit.
  rewrite bind_eq.
  set (now := fst (clock_gettime CLOCK_REALTIME m)).
  set (m1 := snd (clock_gettime CLOCK_REALTIME m)).
  rewrite bind_eq. cbn [board_eqb when].
  set (m2 := snd (modify_dev _ m1)).
  assert (E2 : m_env m2 = m_env m) by reflexivity.
  assert (T2 : length (m_trace m2) = S (length (m_trace m))).
  { change (m_trace m2) with (m_trace m ++ [SysClockGettime CLOCK_REALTIME]).
    rewrite length_app. simpl. lia. }
  assert (N2 : nused (m_dev m2) MASTER = 0) by exact H0.
  clearbody m2 now. clear m1.
  assert (Hok2 : spi_ok (m_env m2)) by (rewrite E2; exact Hok).
  destruct (read_metadata_master h ibuf m2 Hok2 N2) as (m3 & R3 & E3 & M3).
  rewrite ebind_eq, R3. cbn [fst snd].
  rewrite ebind_eq, lift_eq. cbn [fst snd].
  set (m4 := snd (fill_header mask MASTER h e ibuf now m3)).
  assert (S4 : Z.testbit (sync_problem (m_hd m4 h)) 0 = true).
  { apply fill_header_flags. rewrite M3, tinfo_received, E2, T2.
    apply Htinfo. }
  assert (Hok4 : spi_ok (m_env m4)).
  { unfold m4. rewrite fill_header_keeps_env, E3. exact Hok2. }
  clearbody m4.
  destruct (read_waveforms_master h e ibuf m4 Hok4) as [G K].
  split; [exact G | rewrite K; exact S4].
Qed.

Lemma popcount_bit n : 0 <= n < 4 -> popcount (Z.shiftl 1 n) = 1%nat.
Proof.
  intro H. assert (K : n = 0 \/ n = 1 \/ n = 2 \/ n = 3) by lia.
  destruct K as [-> | [-> | [-> | ->]]]; reflexivity.
Qed.

(** X1.  Desync detection is not fatal.  A read of the one buffer the cursor names,
    from an empty list and on a bus that works: when the hardware buffer index
    in the trig_info word received (bits 22-23) is not that buffer, the read
    still returns 0 and the header has bit 0 of its sync-problem field set. *)
Theorem desync_flagged_not_fatal (hd ev : nat -> nat) (m : machine) :
  spi_ok (m_env m) ->
  nused (m_dev m) MASTER = 0 ->
  0 <= cursor m < 4 ->
  (forall fd_ msg,
     hwbuf_of (rx_data (m_env m (S (length (m_trace m)))
                          (SysSpiMessage fd_ msg)) 16%nat) <> cursor m) ->
  fst (beacon_read_multiple_ptr (Z.shiftl 1 (cursor m)) hd ev m) = 0 /\
  Z.testbit
    (sync_problem
       (m_hd (snd (beacon_read_multiple_ptr (Z.shiftl 1 (cursor m)) hd ev m))
          (hd 0%nat))) 0 = true.
Proof.
  intros Hok H0 Hc Htinfo.
  unfold beacon_read_multiple_ptr. rewrite (popcount_bit _ Hc).
  cbn [buffer_loop]. rewrite bind_eq, ebind_eq.
  assert (R : fst (read_buffer (Z.shiftl 1 (cursor m)) hd ev 0 m) = Go tt /\
              Z.testbit
                (sync_problem
                   (m_hd (snd (read_buffer (Z.shiftl 1 (cursor m)) hd ev 0 m))
                      (hd 0%nat))) 0 = true).
  { unfold read_buffer. rewrite bind_eq. cbn [fst snd get_dev].
    rewrite bind_eq.
    set (m0 := snd (modify_hd (hd 0%nat) (with_sync_problem 0) m)).
    change (boards_below (NBD (m_dev m))) with [MASTER].
    cbn [board_loop]. rewrite ebind_eq, ebind_eq.
    fold (cursor m).
    destruct (read_board_desync (Z.shiftl 1 (cursor m)) (hd 0%nat) (ev 0%nat)
                (cursor m) m0 Hok H0 (land_self_bit _ (proj1 Hc)) Htinfo)
      as [G S].
    rewrite G. cbn [fst snd ret]. rewrite bind_eq. cbn [fst snd ret].
    split; [reflexivity|].
    rewrite (mark_buffers_done_keeps_sync (hd 0%nat)). exact S. }
  destruct R as [G S]. rewrite G. cbn [fst snd ret].
  split; [reflexivity | exact S].
Qed.

Lemma m_env_small m : m_env (small m) = m_env m.
Proof. reflexivity. Qed.

(** On the mock that reports hardware buffer 1 in every trig_info word, the
    read of buffer 0 returns 0 with sync-problem bit 0 set. *)
Lemma desync_flagged_not_fatal_witness :
  let m := small (opened mock_hwbuf1) in
  fst (beacon_read_multiple_ptr (Z.shiftl 1 (cursor m)) (fun i => i)
         (fun i => i) m) = 0 /\
  Z.testbit
    (sync_problem
       (m_hd (snd (beacon_read_multiple_ptr (Z.shiftl 1 (cursor m))
                     (fun i => i) (fun i => i) m)) 0%nat)) 0 = true.
Proof.
  intro m.
  assert (E : m_env m = mock_hwbuf1)
    by (unfold m; rewrite m_env_small; apply m_env_opened).
  assert (C : cursor m = 0) by (vm_compute; reflexivity).
  apply (desync_flagged_not_fatal (fun i => i) (fun i => i) m).
  - rewrite E. apply spi_ok_mock.
  - vm_compute; reflexivity.
  - rewrite C. lia.
  - intros fd_ msg. rewrite E, C. vm_compute; discriminate.
Defined.

(** ** More on the event readout *)

Ltac goes_step :=
  lazymatch goal with
  | |- goes (ret (Go _)) => apply goes_ret
  | |- goes (lift _) => apply goes_lift
  | |- goes (CHK (buffer_append _ _ _)) =>
      apply goes_CHK, succeeds_buffer_append
  | |- goes (CHK (buffer_send _)) => apply goes_CHK, succeeds_buffer_send
  | |- goes (CHK (append_read_register _ _ _)) =>
      apply goes_CHK, succeeds_append_read_register
  | |- goes (CHK (loop_over_chunks_half_duplex _ _ _ _)) =>
      apply goes_CHK, succeeds_loop_over_chunks
  | |- goes (read_channel _ _ _ _) => apply goes_read_channel
  | |- goes (efor_each _ _) =>
      apply goes_efor_each; [ intro | intro; solve_keeps ]
  | |- goes (ebind _ _) => apply goes_ebind; [ | solve_keeps_hd | intro ]
  | |- goes (bind _ _) => apply goes_bind; [ solve_keeps_hd | intro ]
  | |- goes (if ?b then _ else _) => destruct b
  end.

Lemma goes_read_metadata ibd h ibuf : goes (read_metadata ibd h ibuf).
Proof. unfold read_metadata, queue_metadata. repeat goes_step. Qed.

Lemma goes_read_waveforms ibd h e ibuf : goes (read_waveforms ibd h e ibuf).
Proof. unfold read_waveforms. repeat goes_step. Qed.

Lemma read_metadata_keeps_env ibd h ibuf :
  keeps m_env (read_metadata ibd h ibuf).
Proof. solve_keeps. Qed.

Lemma read_waveforms_keeps_env ibd h e ibuf :
  keeps m_env (read_waveforms ibd h e ibuf).
Proof. solve_keeps_hd. Qed.

Lemma read_board_keeps_env mask h e ibuf ibd :
  keeps m_env (read_board mask h e ibuf ibd).
Proof.
  unfold read_board.
  repeat lazymatch goal with
         | |- keeps _ (read_metadata _ _ _) => apply read_metadata_keeps_env
         | |- keeps _ (read_waveforms _ _ _ _) =>
             apply read_waveforms_keeps_env
         | |- keeps _ (lift (fill_header _ _ _ _ _ _)) =>
             apply keeps_lift, fill_header_keeps_env
         | |- _ => keeps_step
         end.
Qed.

Lemma goes_read_board mask h e ibuf ibd : goes (read_board mask h e ibuf ibd).
Proof.
  unfold read_board.
  destruct (Z.land mask (Z.shiftl 1 ibuf) =? 0).
  - intros m _. eexists. rewrite bind_eq. reflexivity.
  - apply goes_bind; [solve_keeps | intro now].
    apply goes_bind; [solve_keeps | intro].
    apply goes_ebind;
      [ apply goes_read_metadata | apply read_metadata_keeps_env | intro ].
    apply goes_ebind;
      [ apply goes_lift | apply keeps_lift, fill_header_keeps_env | intro ].
    apply goes_read_waveforms.
Qed.

Lemma goes_board_loop bds mask h e ibuf : goes (board_loop bds mask h e ibuf).
Proof.
  induction bds as [|ibd bds IH]; cbn [board_loop].
  - apply goes_ret.
  - apply goes_ebind;
      [ apply goes_read_board | apply read_board_keeps_env | intros [x|] ].
    + apply goes_ret.
    + exact IH.
Qed.

Lemma board_loop_keeps_env bds mask h e ibuf :
  keeps m_env (board_loop bds mask h e ibuf).
Proof.
  induction bds as [|ibd bds IH]; cbn [board_loop].
  - apply keeps_ret.
  - apply keeps_ebind; [apply read_board_keeps_env | intros [x|]].
    + apply keeps_ret.
    + exact IH.
Qed.

Lemma mark_buffers_done_keeps_env b : keeps m_env (mark_buffers_done b).
Proof. solve_keeps. Qed.

Lemma read_buffer_keeps_env mask hd ev iout :
  keeps m_env (read_buffer mask hd ev iout).
Proof.
  unfold read_buffer.
  repeat lazymatch goal with
         | |- keeps _ (board_loop _ _ _ _ _) => apply board_loop_keeps_env
         | |- keeps _ (mark_buffers_done _) => apply mark_buffers_done_keeps_env
         | |- _ => keeps_hd_step
         end.
Qed.

Lemma goes_read_buffer mask hd ev iout : goes (read_buffer mask hd ev iout).
Proof.
  unfold read_buffer.
  apply goes_bind; [solve_keeps | intro d].
  apply goes_bind; [solve_keeps_hd | intro].
  apply goes_ebind;
    [ apply goes_board_loop | apply board_loop_keeps_env | intro ].
  apply goes_bind; [apply mark_buffers_done_keeps_env | intro].
  apply goes_ret.
Qed.

Lemma goes_buffer_loop n mask hd ev iout : goes (buffer_loop n mask hd ev iout).
Proof.
  revert iout. induction n as [|n IH]; intro iout; cbn [buffer_loop].
  - apply goes_ret.
  - apply goes_ebind;
      [ apply goes_read_buffer | apply read_buffer_keeps_env | intro; apply IH ].
Qed.

(** X2.  Only a failed transfer makes the readout fail.  On a bus where no SPI
    message fails, beacon_read_multiple_ptr returns 0 for every mask, every
    state of the handle and whatever the boards answer: a cursor that is not
    in the mask, a mismatch of the event counter or of the buffer number are
    never turned into an error. *)
Theorem readout_fails_only_on_io (mask : Z) (hd ev : nat -> nat) (m : machine) :
  spi_ok (m_env m) ->
  fst (beacon_read_multiple_ptr mask hd ev m) = 0.
Proof.
  intro Hok. unfold beacon_read_multiple_ptr. rewrite bind_eq.
  destruct (goes_buffer_loop (popcount mask) mask hd ev 0 m Hok) as [a E].
  rewrite E. reflexivity.
Qed.

Lemma readout_fails_only_on_io_witness :
  fst (beacon_read_multiple_ptr 5 (fun i => i) (fun i => i)
         (small (opened mock_hwbuf1))) = 0.
Proof.
  apply readout_fails_only_on_io.
  rewrite m_env_small, m_env_opened. apply spi_ok_mock.
Defined.

(** ** More on the transfer batcher *)

(** X3.  The transfer list never outgrows its MAX_XFERS entries.  An append to a
    list that is not full adds the entry and returns 0.  An append to a full
    list flushes first: if the flush fails the append returns -1 and the list
    is left as it was, the new entry not added; otherwise the entries were
    sent and the new entry is the only one of the list. *)
Theorem buffer_append_never_overflows (which : beacon_which_board_t)
    (tx : option frame) (rx : option ptr) (m : machine) :
  0 <= nused (m_dev m) which <= MAX_XFERS ->
  let r := buffer_append which tx rx m in
  0 < nused (m_dev (snd r)) which <= MAX_XFERS /\
  (fst r = 0 \/ fst r = -1) /\
  (fst r = -1 <->
   nused (m_dev m) which = MAX_XFERS /\ flush_fails which m = true) /\
  (fst r = -1 -> m_dev (snd r) = m_dev m) /\
  (fst r = 0 ->
   pending which (m_dev (snd r)) =
   (if nused (m_dev m) which =? MAX_XFERS then []
    else pending which (m_dev m)) ++ [Xfer tx rx]).
Proof.
  intros B r. subst r. unfold buffer_append.
  rewrite bind_eq; cbn [fst snd get_dev].
  destruct (nused (m_dev m) which >=? MAX_XFERS) eqn:G.
  - assert (F : nused (m_dev m) which = MAX_XFERS) by lia.
    rewrite !bind_eq. cbn [fst snd ret].
    destruct (buffer_send_cases which m) as [(A & R & D) | (A & R & N & _)];
      rewrite R.
    + cbn [nonzero Z.eqb negb fst snd ret]. rewrite D.
      repeat split; try (unfold MAX_XFERS in *; lia); auto; discriminate.
    + cbn [nonzero Z.eqb negb]. rewrite bind_eq.
      cbn [fst snd ret modify_dev with_dev m_dev].
      rewrite nused_push_same, N.
      rewrite pending_push_same by lia.
      rewrite (pending_empty _ _ N).
      apply Z.eqb_eq in F. rewrite F.
      repeat split; try (unfold MAX_XFERS; lia); auto; try discriminate.
      intros [_ X]. congruence.
  - assert (F : nused (m_dev m) which < MAX_XFERS) by lia.
    rewrite bind_eq. cbn [fst snd ret]. rewrite bind_eq.
    cbn [fst snd ret modify_dev with_dev m_dev].
    rewrite nused_push_same, pending_push_same by lia.
    assert (F' : (nused (m_dev m) which =? MAX_XFERS) = false) by lia.
    rewrite F'.
    repeat split; try lia; auto; try discriminate.
Qed.

(** A full list on the device whose SPI messages fail: the append returns
    -1 and the handle is as it was.  A full list on a working device: the
    append returns 0 and the new entry is the only one of the list. *)
Lemma buffer_append_never_overflows_witness :
  let dead := fill_list 509 MASTER (opened mock_spi_dead) in
  let live := fill_list 511 MASTER (opened (mock (fun _ => frame0))) in
  let x := Xfer (Some buf_reset_counter) None in
  (nused (m_dev dead) MASTER = MAX_XFERS /\
   fst (buffer_append MASTER (Some buf_reset_counter) None dead) = -1 /\
   m_dev (snd (buffer_append MASTER (Some buf_reset_counter) None dead)) =
   m_dev dead) /\
  (nused (m_dev live) MASTER = MAX_XFERS /\
   fst (buffer_append MASTER (Some buf_reset_counter) None live) = 0 /\
   pending MASTER
     (m_dev (snd (buffer_append MASTER (Some buf_reset_counter) None live))) =
   [x]).
Proof.
  intros dead live x.
  assert (Nd : nused (m_dev dead) MASTER = MAX_XFERS)
    by (vm_compute; reflexivity).
  assert (Nl : nused (m_dev live) MASTER = MAX_XFERS)
    by (vm_compute; reflexivity).
  assert (Fd : flush_fails MASTER dead = true) by (vm_compute; reflexivity).
  assert (Fl : flush_fails MASTER live = false) by (vm_compute; reflexivity).
  split.
  - destruct (buffer_append_never_overflows MASTER (Some buf_reset_counter)
                None dead) as (_ & _ & H3 & H4 & _).
    { rewrite Nd. unfold MAX_XFERS. lia. }
    assert (R : fst (buffer_append MASTER (Some buf_reset_counter) None dead)
                = -1) by (apply H3; split; assumption).
    split; [exact Nd|]. split; [exact R|]. apply H4. exact R.
  - destruct (buffer_append_never_overflows MASTER (Some buf_reset_counter)
                None live) as (_ & H2 & H3 & _ & H5).
    { rewrite Nl. unfold MAX_XFERS. lia. }
    assert (R : fst (buffer_append MASTER (Some buf_reset_counter) None live)
                = 0).
    { destruct H2 as [R | R]; [exact R|].
      apply H3 in R. destruct R as [_ R]. rewrite Fl in R. discriminate R. }
    split; [exact Nl|]. split; [exact R|].
    rewrite (H5 R), Nl. reflexivity.
Defined.

(** ** The bit reversal and the average of two times *)

(** X4.  reverse_bits does what its name says on a byte: bit i of the result is
    bit 7-i of the argument, the result is a byte, and reversing twice gives
    the byte back. *)
Theorem reverse_bits_reverses (b : Z) :
  0 <= b < 256 ->
  (forall i, 0 <= i < 8 ->
     Z.testbit (reverse_bits b) i = Z.testbit b (7 - i)) /\
  0 <= reverse_bits b < 256 /\
  reverse_bits (reverse_bits b) = b.
Proof.
  intro Hb.
  assert (A : forallb (fun b =>
                forallb (fun i => Bool.eqb (Z.testbit (reverse_bits b) i)
                                          (Z.testbit b (7 - i))) (zrange 8)
                && (0 <=? reverse_bits b) && (reverse_bits b <? 256)
                && (reverse_bits (reverse_bits b) =? b)) (zrange 256) = true)
    by (vm_compute; reflexivity).
  rewrite forallb_forall in A. specialize (A b (in_zrange 256 b Hb)).
  apply andb_prop in A as [A A4]. apply andb_prop in A as [A A3].
  apply andb_prop in A as [A1 A2].
  rewrite forallb_forall in A1.
  repeat split; try lia.
  intros i Hi. apply eqb_prop, A1, in_zrange, Hi.
Qed.

Lemma reverse_bits_reverses_witness :
  Z.testbit (reverse_bits 1) 7 = Z.testbit 1 (7 - 7) /\
  reverse_bits (reverse_bits 1) = 1.
Proof.
  assert (H : 0 <= 1 < 256) by lia.
  destruct (reverse_bits_reverses 1 H) as (A & _ & B).
  split; [apply A; lia | exact B].
Defined.

(** X5.  avg_time gives the midpoint of two normalised times, rounded down to the
    nanosecond, as long as the two second counts add up to less than 2^32
    (the sum is taken in a uint32_t).  The result is normalised except that
    its nanosecond field can be exactly 1000000000: the carry is taken for
    values greater than 1e9 only. *)
Theorem avg_time_midpoint (A B : timespec) :
  0 <= tv_sec A -> 0 <= tv_sec B -> tv_sec A + tv_sec B < 2 ^ 32 ->
  0 <= tv_nsec A < 1000000000 -> 0 <= tv_nsec B < 1000000000 ->
  tv_sec (avg_time A B) * 1000000000 + tv_nsec (avg_time A B) =
  (tv_sec A * 1000000000 + tv_nsec A + (tv_sec B * 1000000000 + tv_nsec B)) / 2
  /\ 0 <= tv_nsec (avg_time A B) <= 1000000000.
Proof.
  intros HA HB HS HnA HnB. unfold avg_time, u32, cdiv.
  set (s := tv_sec A + tv_sec B) in *.
  set (n := tv_nsec A + tv_nsec B) in *.
  assert (Es : s mod 2 ^ 32 = s) by (apply Z.mod_small; lia).
  assert (Hn : 0 <= n < 2000000000) by lia.
  replace (tv_sec A * 1000000000 + tv_nsec A +
           (tv_sec B * 1000000000 + tv_nsec B))
    with (s * 1000000000 + n) by lia.
  clearbody s n. clear HA HB HnA HnB.
  repeat match goal with
         | |- context [Z.quot ?a 2] =>
             rewrite (Z.quot_div_nonneg a 2) by lia
         end.
  rewrite ?Es.
  pose proof (Z.div_mod s 2 ltac:(lia)) as Ds.
  pose proof (Z.mod_pos_bound s 2 ltac:(lia)) as Bs.
  pose proof (Z.div_mod n 2 ltac:(lia)) as Dn.
  pose proof (Z.mod_pos_bound n 2 ltac:(lia)) as Bn.
  assert (Mid : (s * 1000000000 + n) / 2 =
                (s / 2) * 1000000000 + (s mod 2) * 500000000 + n / 2).
  { symmetry. apply Z.div_unique with (r := n mod 2); lia. }
  rewrite Mid.
  destruct (s mod 2 =? 1) eqn:O.
  - apply Z.eqb_eq in O. rewrite O.
    destruct (1000000000 <? n / 2 + 500000000) eqn:C; cbn [tv_sec tv_nsec]; lia.
  - apply Z.eqb_neq in O.
    destruct (1000000000 <? n / 2) eqn:C; cbn [tv_sec tv_nsec]; lia.
Qed.

Lemma avg_time_midpoint_witness :
  tv_sec (avg_time (Timespec 1 999999999) (Timespec 2 1)) * 1000000000
  + tv_nsec (avg_time (Timespec 1 999999999) (Timespec 2 1)) =
  (1 * 1000000000 + 999999999 + (2 * 1000000000 + 1)) / 2 /\
  tv_nsec (avg_time (Timespec 1 999999999) (Timespec 2 1)) = 1000000000.
Proof.
  destruct (avg_time_midpoint (Timespec 1 999999999) (Timespec 2 1))
    as [H _]; cbn [tv_sec tv_nsec]; try lia.
  split; [exact H | reflexivity].
Defined.

(** ** Register reads on a working bus *)

Lemma append_read_register_appends which a r m :
  nused (m_dev m) which + 1 < MAX_XFERS ->
  append_read_register which a (Some (r, 0)) m =
  (0, append_all which (read_xfers a r) m).
Proof.
  intro H. unfold append_read_register. rewrite !bind_eq.
  rewrite buffer_append_appends by lia. cbn [fst snd].
  rewrite buffer_append_appends
    by (rewrite nused_appended; destruct which; cbn [board_eqb]; lia).
  reflexivity.
Qed.

(** A register read queued in an empty list and flushed on a working bus: one
    message of two transfers goes out, and the frame received by the second
    one is in the result buffer. *)
Lemma read_and_flush which a r m :
  spi_ok (m_env m) ->
  nused (m_dev m) which = 0 ->
  buffer_send which (append_all which (read_xfers a r) m) =
  (0, flushed which (append_all which (read_xfers a r) m)) /\
  m_trace (flushed which (append_all which (read_xfers a r) m)) =
  m_trace m ++ [SysSpiMessage (fd (m_dev m) which) (read_xfers a r)] /\
  load_frame (m_mem (flushed which (append_all which (read_xfers a r) m)))
    (r, 0) =
  rx_data (m_env m (length (m_trace m))
             (SysSpiMessage (fd (m_dev m) which) (read_xfers a r))) 1%nat.
Proof.
  intros Hok Hn.
  assert (P : pending which (m_dev (append_all which (read_xfers a r) m)) =
              read_xfers a r).
  { rewrite pending_append_all by lia. rewrite pending_empty by exact Hn.
    reflexivity. }
  split; [|split].
  - apply buffer_send_flushes.
    + rewrite m_env_append_all. exact Hok.
    + rewrite nused_append_all, Hn. simpl. discriminate.
  - rewrite m_trace_flushed, m_trace_append_all, fd_append_all, P.
    reflexivity.
  - rewrite m_mem_flushed, P, m_env_append_all, m_trace_append_all,
      fd_append_all, m_mem_append_all.
    unfold read_xfers. cbn [store_rx rx_buf].
    apply load_store_frame.
Qed.

Lemma check_buffers_ok which m :
  spi_ok (m_env m) ->
  nused (m_dev m) which = 0 ->
  let mf := flushed which (append_all which (read_xfers REG_STATUS (L_result 3)) m) in
  let st := rx_data (m_env m (length (m_trace m))
                       (SysSpiMessage (fd (m_dev m) which)
                          (read_xfers REG_STATUS (L_result 3)))) 1%nat in
  beacon_check_buffers (Some with_hardware_next) which m =
  (Z.land (byte3 st) BUF_MASK,
   with_dev (with_hardware_next (Z.land (Z.shiftr (byte2 st) 4) 3) (m_dev mf))
     mf).
Proof.
  intros Hok Hn mf st.
  destruct (read_and_flush which REG_STATUS (L_result 3) m Hok Hn)
    as (S1 & _ & S3).
  unfold beacon_check_buffers. rewrite bind_eq.
  change status_result with (L_result 3, 0).
  rewrite append_read_register_appends by (rewrite Hn; unfold MAX_XFERS; lia).
  cbn [fst snd]. rewrite bind_eq, S1. cbn [fst snd].
  rewrite bind_eq. cbn [fst snd get]. rewrite S3.
  reflexivity.
Qed.
Lemma wait_loop_done fuel timeout start which something waited m :
  something <> 0 ->
  wait_loop fuel timeout start which something waited m = (Some something, m).
Proof.
  intro H. apply nonzero_true in H.
  destruct fuel; cbn [wait_loop]; rewrite H; reflexivity.
Qed.

Lemma Qltb_or timeout : Qle_bool timeout 0 || Qltb 0 timeout = true.
Proof. unfold Qltb. destruct (Qle_bool timeout 0); reflexivity. Qed.

Lemma wait_loop_S fuel timeout start which m :
  wait_loop (S fuel) timeout start which 0 0%Q m =
  bind (beacon_check_buffers (Some with_hardware_next) which) (fun something =>
        d <- get_dev ;;
        if nonzero (cancel_wait d) then ret (Some something)
        else if nonzero something
        then wait_loop fuel timeout start which something 0%Q
        else
          (if nonzero (poll_interval d)
           then sys (SysUsleep (poll_interval d)) ;; ret tt
           else sys SysSchedYield ;; ret tt) ;;
          waited <- (if Qltb 0 timeout
                     then now <- clock_gettime CLOCK_REALTIME ;;
                          ret (waited_expr start now)
                     else ret 0%Q) ;;
          wait_loop fuel timeout start which something waited) m.
Proof.
  cbn [wait_loop]. 
  replace (negb (nonzero 0) && (Qle_bool timeout 0 || Qltb 0 timeout)) with true
    by (rewrite Qltb_or; reflexivity).
  reflexivity.
Qed.

Lemma cancel_wait_appended which x m :
  cancel_wait (m_dev (appended which x m)) = cancel_wait (m_dev m).
Proof. reflexivity. Qed.
Lemma poll_interval_appended which x m :
  poll_interval (m_dev (appended which x m)) = poll_interval (m_dev m).
Proof. reflexivity. Qed.
Lemma cancel_wait_flushed which m :
  cancel_wait (m_dev (flushed which m)) = cancel_wait (m_dev m).
Proof. reflexivity. Qed.
Lemma poll_interval_flushed which m :
  poll_interval (m_dev (flushed which m)) = poll_interval (m_dev m).
Proof. reflexivity. Qed.
Lemma cancel_wait_append_all which l m :
  cancel_wait (m_dev (append_all which l m)) = cancel_wait (m_dev m).
Proof.
  revert m. induction l as [|x l IH]; intro m; [reflexivity|].
  rewrite append_all_cons, IH. apply cancel_wait_appended.
Qed.
Lemma poll_interval_append_all which l m :
  poll_interval (m_dev (append_all which l m)) = poll_interval (m_dev m).
Proof.
  revert m. induction l as [|x l IH]; intro m; [reflexivity|].
  rewrite append_all_cons, IH. apply poll_interval_appended.
Qed.

Lemma hardware_next_stored v mf :
  let m' := with_dev (with_hardware_next v (m_dev mf)) mf in
  m_env m' = m_env mf /\ m_trace m' = m_trace mf /\
  (forall which, nused (m_dev m') which = nused (m_dev mf) which) /\
  hardware_next (m_dev m') = v /\
  cancel_wait (m_dev m') = cancel_wait (m_dev mf) /\
  poll_interval (m_dev m') = poll_interval (m_dev mf) /\
  fd (m_dev m') = fd (m_dev mf).
Proof. repeat split. Qed.

(** One poll on a working bus, from an empty list: what it returns and what
    it leaves. *)
Lemma check_buffers_polled which m :
  spi_ok (m_env m) ->
  nused (m_dev m) which = 0 ->
  let st := rx_data (m_env m (length (m_trace m))
                       (SysSpiMessage (fd (m_dev m) which)
                          (read_xfers REG_STATUS (L_result 3)))) 1%nat in
  exists m',
    beacon_check_buffers (Some with_hardware_next) which m =
    (Z.land (byte3 st) BUF_MASK, m') /\
    m_env m' = m_env m /\
    m_trace m' = m_trace m ++ [SysSpiMessage (fd (m_dev m) which)
                                 (read_xfers REG_STATUS (L_result 3))] /\
    nused (m_dev m') which = 0 /\
    hardware_next (m_dev m') = Z.land (Z.shiftr (byte2 st) 4) 3 /\
    cancel_wait (m_dev m') = cancel_wait (m_dev m) /\
    poll_interval (m_dev m') = poll_interval (m_dev m) /\
    fd (m_dev m') = fd (m_dev m).
Proof.
  intros Hok Hn st.
  destruct (read_and_flush which REG_STATUS (L_result 3) m Hok Hn)
    as (_ & S2 & _).
  pose proof (check_buffers_ok which m Hok Hn) as C. cbv zeta in C.
  fold st in C.
  destruct (hardware_next_stored (Z.land (Z.shiftr (byte2 st) 4) 3)
              (flushed which
                 (append_all which (read_xfers REG_STATUS (L_result 3)) m)))
    as (E1 & E2 & E3 & E4 & E5 & E6 & E7).
  eexists. split; [exact C|].
  rewrite E1, E2, E3, E4, E5, E6, E7.
  rewrite m_env_flushed, m_env_append_all, S2, nused_flushed,
    cancel_wait_flushed, cancel_wait_append_all, poll_interval_flushed,
    poll_interval_append_all, fd_flushed, fd_append_all.
  repeat split. destruct which; reflexivity.
Qed.

Lemma wait_loop_ready fuel timeout start which m :
  spi_ok (m_env m) ->
  nused (m_dev m) which = 0 ->
  cancel_wait (m_dev m) = 0 ->
  let st := rx_data (m_env m (length (m_trace m))
                       (SysSpiMessage (fd (m_dev m) which)
                          (read_xfers REG_STATUS (L_result 3)))) 1%nat in
  Z.land (byte3 st) BUF_MASK <> 0 ->
  exists m',
    wait_loop (S fuel) timeout start which 0 0%Q m =
    (Some (Z.land (byte3 st) BUF_MASK), m') /\
    m_trace m' = m_trace m ++ [SysSpiMessage (fd (m_dev m) which)
                                 (read_xfers REG_STATUS (L_result 3))] /\
    hardware_next (m_dev m') = Z.land (Z.shiftr (byte2 st) 4) 3 /\
    cancel_wait (m_dev m') = 0.
Proof.
  intros Hok Hn Hc st Hs.
  destruct (check_buffers_polled which m Hok Hn)
    as (m' & C & _ & T & _ & H & K & _).
  fold st in C, H.
  exists m'. rewrite wait_loop_S, bind_eq, C. cbn [fst snd].
  rewrite bind_eq. cbn [fst snd get_dev]. rewrite K, Hc.
  cbn [nonzero Z.eqb negb].
  apply nonzero_true in Hs as Hs'. rewrite Hs'.
  rewrite wait_loop_done by exact Hs.
  repeat split; try assumption.
Qed.

(** With a non-positive timeout the loop goes on for as long as the status
    register shows no full buffer. *)
Lemma wait_loop_blocks fuel timeout start which :
  Qle_bool timeout 0 = true ->
  forall m,
    spi_ok (m_env m) ->
    nused (m_dev m) which = 0 ->
    cancel_wait (m_dev m) = 0 ->
    (forall n fd_ msg,
       Z.land (byte3 (rx_data (m_env m n (SysSpiMessage fd_ msg)) 1%nat))
         BUF_MASK = 0) ->
    fst (wait_loop fuel timeout start which 0 0%Q m) = None.
Proof.
  intro Ht.
  assert (Q0 : Qltb 0 timeout = false) by (unfold Qltb; rewrite Ht; reflexivity).
  induction fuel as [|fuel IH]; intros m Hok Hn Hc Hs.
  - cbn [wait_loop]. rewrite Ht. reflexivity.
  - destruct (check_buffers_polled which m Hok Hn)
      as (m' & C & E & T & N & _ & K & _).
    rewrite Hs in C.
    rewrite wait_loop_S, bind_eq, C. cbn [fst snd].
    rewrite bind_eq. cbn [fst snd get_dev]. rewrite K, Hc.
    cbn [nonzero Z.eqb negb]. rewrite Q0.
    rewrite bind_eq.
    destruct (nonzero (poll_interval (m_dev m')));
      rewrite bind_eq; cbn [fst snd ret]; rewrite bind_eq; cbn [fst snd ret];
      (apply IH; unfold sys; cbn [snd m_env m_dev with_trace];
       [ rewrite E; exact Hok | exact N | rewrite K; exact Hc
       | rewrite E; exact Hs ]).
Qed.

(** X6.  A wait on a handle whose mutex is free (or not used) and with no
    cancellation pending returns at once when the first poll finds a full
    buffer: exactly one status read goes out (after the clock read of a wait
    with a timeout), the result is 0, the mask stored is the low four bits of
    the last status byte, and the handle's hardware_next is bits 4-5 of the
    byte before it. *)
Theorem wait_returns_ready_buffers (fuel : nat) (timeout : Q)
    (which : beacon_which_board_t) (m : machine) (st : frame) :
  spi_ok (m_env m) ->
  nused (m_dev m) which = 0 ->
  cancel_wait (m_dev m) = 0 ->
  nonzero (enable_locking (m_dev m)) && wait_mut (m_dev m) = false ->
  (forall n fd_ msg, rx_data (m_env m n (SysSpiMessage fd_ msg)) 1%nat = st) ->
  Z.land (byte3 st) BUF_MASK <> 0 ->
  let r := beacon_wait (S fuel) timeout which m in
  fst r = Some (0, Some (Z.land (byte3 st) BUF_MASK)) /\
  hardware_next (m_dev (snd r)) = Z.land (Z.shiftr (byte2 st) 4) 3 /\
  trace_since m (snd r) =
  (if Qltb 0 timeout then [SysClockGettime CLOCK_MONOTONIC] else [])
  ++ [SysSpiMessage (fd (m_dev m) which) (read_xfers REG_STATUS (L_result 3))].
Proof.
  intros Hok Hn Hc HL Hst Hs r. subst r.
  unfold beacon_wait. rewrite bind_eq. cbn [fst snd get_dev]. rewrite HL.
  rewrite bind_eq.
  set (L := nonzero (enable_locking (m_dev m))).
  set (m1 := snd (when L (modify_dev (with_wait_mut true)) m)).
  assert (F1 : m_env m1 = m_env m /\ m_trace m1 = m_trace m /\
               nused (m_dev m1) which = nused (m_dev m) which /\
               cancel_wait (m_dev m1) = cancel_wait (m_dev m) /\
               fd (m_dev m1) = fd (m_dev m))
    by (unfold m1; destruct L; repeat split).
  clearbody m1. destruct F1 as (A1 & A2 & A3 & A4 & A5).
  rewrite Hc. cbn [nonzero Z.eqb negb]. rewrite bind_eq.
  set (c := if Qltb 0 timeout then clock_gettime CLOCK_MONOTONIC
            else ret (Timespec 0 0)).
  assert (F2 : m_env (snd (c m1)) = m_env m1 /\
               m_trace (snd (c m1)) =
               m_trace m1 ++ (if Qltb 0 timeout
                              then [SysClockGettime CLOCK_MONOTONIC] else []) /\
               m_dev (snd (c m1)) = m_dev m1).
  { unfold c. destruct (Qltb 0 timeout).
    - unfold clock_gettime. rewrite bind_eq. repeat split.
    - cbn [ret snd]. rewrite app_nil_r. repeat split. }
  generalize dependent (fst (c m1)). intro start.
  generalize dependent (snd (c m1)). intros m2 (B1 & B2 & B3).
  rewrite bind_eq.
  destruct (wait_loop_ready fuel timeout start which m2)
    as (m3 & W & T & H & K).
  { rewrite B1, A1. exact Hok. }
  { rewrite B3, A3. exact Hn. }
  { rewrite B3, A4. exact Hc. }
  { rewrite B1, A1, Hst. exact Hs. }
  rewrite B1, A1, Hst in *. rewrite W. cbn [fst snd].
  rewrite !bind_eq. cbn [fst snd get_dev modify_dev ret]. rewrite K.
  cbn [nonzero Z.eqb negb].
  split; [reflexivity|].
  split.
  - destruct L; cbn [when modify_dev ret snd m_dev with_dev]; exact H.
  - apply trace_since_app.
    transitivity (m_trace m3); [destruct L; reflexivity|].
    rewrite T, B2, A2, B3, A5, <- app_assoc. reflexivity.
Qed.

Lemma wait_returns_ready_buffers_witness :
  fst (beacon_wait 1 1 MASTER (opened (mock (fun _ => Frame 0 0 16 2)))) =
  Some (0, Some 2).
Proof.
  destruct (wait_returns_ready_buffers 0 1 MASTER
              (opened (mock (fun _ => Frame 0 0 16 2))) (Frame 0 0 16 2))
    as [H _].
  - rewrite m_env_opened. apply spi_ok_mock.
  - vm_compute; reflexivity.
  - vm_compute; reflexivity.
  - vm_compute; reflexivity.
  - intros n fd_ msg. rewrite m_env_opened. reflexivity.
  - vm_compute; discriminate.
  - exact H.
Defined.

(** X7.  A wait without timeout (a timeout that is a number and not positive),
    entered with the waiter mutex free or on a handle that does not lock,
    with no cancellation pending, from an empty transfer list and on a bus
    that takes every message, does not return while the status register
    shows no full buffer: whatever the number of polls allowed, the loop has
    not ended. *)
Theorem wait_without_timeout_blocks (fuel : nat) (timeout : Q)
    (which : beacon_which_board_t) (m : machine) :
  Qle_bool timeout 0 = true ->
  spi_ok (m_env m) ->
  nused (m_dev m) which = 0 ->
  cancel_wait (m_dev m) = 0 ->
  nonzero (enable_locking (m_dev m)) && wait_mut (m_dev m) = false ->
  (forall n fd_ msg,
     Z.land (byte3 (rx_data (m_env m n (SysSpiMessage fd_ msg)) 1%nat))
       BUF_MASK = 0) ->
  fst (beacon_wait fuel timeout which m) = None.
Proof.
  intros Ht Hok Hn Hc HL Hs.
  assert (Q0 : Qltb 0 timeout = false) by (unfold Qltb; rewrite Ht; reflexivity).
  unfold beacon_wait. rewrite bind_eq. cbn [fst snd get_dev]. rewrite HL.
  rewrite bind_eq.
  set (L := nonzero (enable_locking (m_dev m))).
  set (m1 := snd (when L (modify_dev (with_wait_mut true)) m)).
  assert (F1 : m_env m1 = m_env m /\
               nused (m_dev m1) which = nused (m_dev m) which /\
               cancel_wait (m_dev m1) = cancel_wait (m_dev m))
    by (unfold m1; destruct L; repeat split).
  clearbody m1. destruct F1 as (A1 & A3 & A4).
  rewrite Hc, Q0. cbn [nonzero Z.eqb negb]. rewrite !bind_eq.
  cbn [fst snd ret].
  rewrite (wait_loop_blocks fuel timeout (Timespec 0 0) which Ht m1).
  - reflexivity.
  - rewrite A1. exact Hok.
  - rewrite A3. exact Hn.
  - rewrite A4. exact Hc.
  - rewrite A1. exact Hs.
Qed.

Lemma wait_without_timeout_blocks_witness :
  fst (beacon_wait 7 (-1) MASTER (opened (mock (fun _ => frame0)))) = None.
Proof.
  apply wait_without_timeout_blocks.
  - reflexivity.
  - rewrite m_env_opened. apply spi_ok_mock.
  - vm_compute; reflexivity.
  - vm_compute; reflexivity.
  - vm_compute; reflexivity.
  - intros n fd_ msg. rewrite m_env_opened. reflexivity.
Defined.

(** X8.  A cancellation issued while nobody waits is consumed by the next wait:
    that wait returns EAGAIN without a single call to the system (no poll, no
    clock read), stores no mask, clears the flag and leaves the mutex as it
    found it. *)
Theorem cancel_before_wait_is_consumed (fuel : nat) (timeout : Q)
    (which : beacon_which_board_t) (m : machine) :
  nonzero (enable_locking (m_dev m)) && wait_mut (m_dev m) = false ->
  let r := (beacon_cancel_wait ;; beacon_wait fuel timeout which) m in
  fst r = Some (EAGAIN, None) /\
  m_trace (snd r) = m_trace m /\
  cancel_wait (m_dev (snd r)) = 0 /\
  wait_mut (m_dev (snd r)) = wait_mut (m_dev m).
Proof.
  intros HL r. subst r. rewrite bind_eq.
  unfold beacon_cancel_wait. cbn [modify_dev fst snd].
  unfold beacon_wait. rewrite bind_eq.
  cbn [fst snd get_dev m_dev with_dev enable_locking wait_mut cancel_wait
       with_cancel_wait].
  rewrite HL. cbn [nonzero Z.eqb negb].
  destruct (nonzero (enable_locking (m_dev m))) eqn:L.
  - cbn [andb] in HL. rewrite !bind_eq.
    cbn [when modify_dev ret fst snd m_dev with_dev wait_mut cancel_wait
         with_wait_mut with_cancel_wait m_trace].
    rewrite HL. repeat split.
  - rewrite !bind_eq.
    cbn [when modify_dev ret fst snd m_dev with_dev wait_mut cancel_wait
         with_wait_mut with_cancel_wait m_trace].
    repeat split.
Qed.

Lemma cancel_before_wait_is_consumed_witness :
  fst ((beacon_cancel_wait ;; beacon_wait 3 1 MASTER)
         (opened (mock (fun _ => frame0)))) = Some (EAGAIN, None).
Proof.
  apply (cancel_before_wait_is_consumed 3 1 MASTER
           (opened (mock (fun _ => frame0)))).
  vm_compute; reflexivity.
Defined.

(** ** Reset of the counters *)

Lemma do_write_step fd_ p m :
  exists m',
    do_write fd_ p m =
    (ret_val (m_env m (length (m_trace m)) (SysWrite fd_ p)), m') /\
    m_env m' = m_env m /\
    m_trace m' = m_trace m ++ [SysWrite fd_ p] /\
    m_dev m' = m_dev m.
Proof.
  eexists. unfold do_write. rewrite bind_eq. cbn [sys fst snd ret].
  repeat split.
Qed.

Lemma clock_gettime_step c m :
  exists m',
    clock_gettime c m =
    (ret_time (m_env m (length (m_trace m)) (SysClockGettime c)), m') /\
    m_env m' = m_env m /\
    m_trace m' = m_trace m ++ [SysClockGettime c] /\
    m_dev m' = m_dev m.
Proof.
  eexists. unfold clock_gettime. rewrite bind_eq. cbn [sys fst snd ret].
  repeat split.
Qed.

Lemma boards_below_NBD d : boards_below (NBD d) = [MASTER].
Proof. reflexivity. Qed.

Lemma bind_run {A B} (c : M A) (k : A -> M B) m a m' :
  c m = (a, m') -> bind c k m = k a m'.
Proof. intro H. unfold bind. rewrite H. reflexivity. Qed.

Lemma bind_assoc {A B C} (c : M A) (k1 : A -> M B) (k2 : B -> M C) m :
  bind (bind c k1) k2 m = bind c (fun a => bind (k1 a) k2) m.
Proof. unfold bind. destruct (c m) as [a m']. reflexivity. Qed.

Lemma bind_ret {A B} (a : A) (k : A -> M B) m : bind (ret a) k m = k a m.
Proof. reflexivity. Qed.

(** Run the write (or the clock read) at the head of the goal: the state
    after it is a new variable, known by its environment, trace and handle. *)
Ltac run_write :=
  rewrite ?bind_assoc;
  match goal with
  | |- context [bind (do_write ?f ?p) ?k ?m] =>
      let m' := fresh "s" in
      let E := fresh "E" in
      let Ee := fresh "Ee" in
      let Et := fresh "Et" in
      let Ed := fresh "Ed" in
      destruct (do_write_step f p m) as (m' & E & Ee & Et & Ed);
      rewrite (bind_run (do_write f p) k m _ m' E); clear E; cbv beta; rewrite ?bind_ret
  end.

Ltac run_clock :=
  rewrite ?bind_assoc;
  match goal with
  | |- context [bind (clock_gettime ?c) ?k ?m] =>
      let m' := fresh "s" in
      let E := fresh "E" in
      let Ee := fresh "Ee" in
      let Et := fresh "Et" in
      let Ed := fresh "Ed" in
      destruct (clock_gettime_step c m) as (m' & E & Ee & Et & Ed);
      rewrite (bind_run (clock_gettime c) k m _ m' E); clear E; cbv beta; rewrite ?bind_ret
  end.

(** Switching the phased trigger readout: the slave's descriptor is written
    first when one is open, then the master's; the results of the writes are
    not looked at. *)
Lemma phased_trigger_readout_run phased m :
  exists m',
    beacon_phased_trigger_readout phased m = (0, m') /\
    m_env m' = m_env m /\
    m_trace m' =
    m_trace m
    ++ (if nonzero (fd (m_dev m) SLAVE)
        then [SysWrite (fd (m_dev m) SLAVE)
                (Frame REG_PHASED_TRIGGER 0 0 (Z.land phased 1))]
        else [])
    ++ [SysWrite (fd (m_dev m) MASTER)
          (Frame REG_PHASED_TRIGGER 0 0 (Z.land phased 1))] /\
    m_dev m' = m_dev m.
Proof.
  unfold beacon_phased_trigger_readout.
  rewrite (bind_run get_dev _ m (m_dev m) m eq_refl).
  destruct (nonzero (fd (m_dev m) SLAVE)).
  - run_write. run_write. cbn [ret].
    eexists. split; [reflexivity|].
    rewrite Ee0, Ee, Et0, Et, Ed0, Ed, <- app_assoc. repeat split.
  - rewrite (bind_run (ret tt) _ m tt m eq_refl).
    run_write. cbn [ret].
    eexists. split; [reflexivity|].
    rewrite Ee, Et, Ed. repeat split.
Qed.

(** The first part of a reset of the counters, when no write is short: the
    phased trigger is switched off, all four buffers are cleared and the
    buffer pointers reset, on the master only; the cursor is back at 0. *)
Lemma reset_prologue_counters m :
  (forall n fd_ p, ret_val (m_env m n (SysWrite fd_ p)) = BN_SPI_BYTES) ->
  exists m',
    reset_prologue BN_RESET_COUNTERS m = (0, m') /\
    m_env m' = m_env m /\
    m_trace m' =
    m_trace m
    ++ (if nonzero (fd (m_dev m) SLAVE)
        then [SysWrite (fd (m_dev m) SLAVE) (Frame REG_PHASED_TRIGGER 0 0 0)]
        else [])
    ++ [SysWrite (fd (m_dev m) MASTER) (Frame REG_PHASED_TRIGGER 0 0 0);
        SysWrite (fd (m_dev m) MASTER) (buf_clear 15);
        SysWrite (fd (m_dev m) MASTER) buf_reset_buf] /\
    m_dev m' = with_next_read_buffer 0 (m_dev m).
Proof.
  intro W. unfold reset_prologue.
  rewrite (bind_run get_dev _ m (m_dev m) m eq_refl).
  rewrite (bind_run (ret 0) _ m 0 m eq_refl).
  cbn [nonzero Z.eqb negb].
  destruct (phased_trigger_readout_run 0 m) as (s0 & P & Pe & Pt & Pd).
  rewrite (bind_run _ _ m 0 s0 P). cbn [nonzero Z.eqb negb].
  rewrite boards_below_NBD. cbn [until_fail].
  run_write. run_write.
  rewrite ?Ee, ?Pe, ?W.
  cbn [ret nonzero Z.eqb negb Z.add BN_SPI_BYTES BN_WORD_SIZE Z.mul
       Pos.add Pos.mul Pos.succ Pos.eqb].
  rewrite bind_ret. cbn [nonzero Z.eqb negb].
  rewrite (bind_run (modify_dev (with_next_read_buffer 0)) _ s1 tt _ eq_refl).
  eexists. split; [reflexivity|].
  cbn [m_env m_trace m_dev with_dev].
  rewrite Ee0, Ee, Pe, Et0, Et, Pt, Ed0, Ed, Pd.
  change (Z.land 0 1) with 0.
  rewrite <- !app_assoc. repeat split.
Qed.

Lemma reset_counters_run m :
  (forall n fd_ p, ret_val (m_env m n (SysWrite fd_ p)) = BN_SPI_BYTES) ->
  exists m',
    reset_counters m = (0, m') /\
    m_env m' = m_env m /\
    m_trace m' =
    m_trace m
    ++ [SysWrite (fd (m_dev m) MASTER) (Frame REG_TIMESTAMP_SELECT 0 0 1);
        SysClockGettime CLOCK_REALTIME;
        SysWrite (fd (m_dev m) MASTER) buf_reset_counter;
        SysClockGettime CLOCK_REALTIME] /\
    m_dev m' =
    with_start_time
      (avg_time
         (ret_time (m_env m (length (m_trace m) + 1)
                      (SysClockGettime CLOCK_REALTIME)))
         (ret_time (m_env m (length (m_trace m) + 3)
                      (SysClockGettime CLOCK_REALTIME))))
      (m_dev m).
Proof.
  intro W. unfold reset_counters.
  rewrite (bind_run get_dev _ m (m_dev m) m eq_refl).
  rewrite boards_below_NBD. cbn [for_each].
  change (1 <? NBD (m_dev m)) with false. cbv iota.
  run_write. run_clock. run_write. run_clock.
  rewrite Ee1, Ee0, Ee, W. cbn [Z.eqb BN_SPI_BYTES BN_WORD_SIZE Pos.eqb].
  rewrite (bind_run (modify_dev _) _ s2 tt _ eq_refl).
  eexists. split; [reflexivity|].
  cbn [m_env m_trace m_dev with_dev].
  rewrite Ee2, Ee1, Ee0, Ee, Et2, Et1, Et0, Et, Ed2, Ed1, Ed0, Ed.
  rewrite !length_app. cbn [length].
  rewrite <- !app_assoc, <- !Nat.add_assoc. repeat split.
Qed.

(** X9.  A reset of the counters on a device that takes every write.  The writes
    go out in this order: phased trigger off (first on the slave's
    descriptor, if one is open), all buffers cleared, buffer pointers reset,
    free-running timestamps selected, counters reset; the last one is
    bracketed by two readings of the wall clock whose midpoint becomes the
    handle's start time.  Only the master is cleared and reset.  The result
    is 0 and the cursor is back at 0.  (For a handle that does not lock.) *)
Theorem reset_counters_sequence (fuel : nat) (m : machine) :
  enable_locking (m_dev m) = 0 ->
  (forall n fd_ p, ret_val (m_env m n (SysWrite fd_ p)) = BN_SPI_BYTES) ->
  let r := beacon_reset fuel BN_RESET_COUNTERS m in
  let pre := if nonzero (fd (m_dev m) SLAVE)
             then [SysWrite (fd (m_dev m) SLAVE) (Frame REG_PHASED_TRIGGER 0 0 0)]
             else [] in
  let k := (length (m_trace m) + length pre)%nat in
  fst r = Some 0 /\
  trace_since m (snd r) =
  pre ++ [SysWrite (fd (m_dev m) MASTER) (Frame REG_PHASED_TRIGGER 0 0 0);
          SysWrite (fd (m_dev m) MASTER) (buf_clear 15);
          SysWrite (fd (m_dev m) MASTER) buf_reset_buf;
          SysWrite (fd (m_dev m) MASTER) (Frame REG_TIMESTAMP_SELECT 0 0 1);
          SysClockGettime CLOCK_REALTIME;
          SysWrite (fd (m_dev m) MASTER) buf_reset_counter;
          SysClockGettime CLOCK_REALTIME] /\
  next_read_buffer (m_dev (snd r)) = 0 /\
  start_time (m_dev (snd r)) =
  avg_time (ret_time (m_env m (k + 4) (SysClockGettime CLOCK_REALTIME)))
           (ret_time (m_env m (k + 6) (SysClockGettime CLOCK_REALTIME))).
Proof.
  intros _ W r pre k. subst r. unfold beacon_reset.
  destruct (reset_prologue_counters m W) as (s0 & P & Pe & Pt & Pd).
  fold pre in Pt.
  rewrite (bind_run _ _ m 0 s0 P). cbn [nonzero Z.eqb negb].
  change (reset_rank BN_RESET_CALIBRATE <=? reset_rank BN_RESET_COUNTERS)
    with false. cbv iota. rewrite bind_ret.
  destruct (reset_counters_run s0) as (s1 & R & Re & Rt & Rd).
  { intros n fd_ p. rewrite Pe. apply W. }
  rewrite (bind_run _ _ s0 0 s1 R). cbn [ret fst snd].
  split; [reflexivity|].
  rewrite Rd, Pd, Pe, Pt.
  cbn [fd with_next_read_buffer next_read_buffer start_time with_start_time].
  split; [|split; [reflexivity|]].
  - apply trace_since_app. rewrite Rt, Pt, Pd, <- !app_assoc. reflexivity.
  - rewrite !length_app. cbn [length]. subst k.
    rewrite <- !Nat.add_assoc. reflexivity.
Qed.

Lemma reset_counters_sequence_witness :
  let env := mock_clocks (Timespec 0 0) (Timespec 1700000000 5) in
  fst (beacon_reset 0 BN_RESET_COUNTERS (opened env)) = Some 0 /\
  start_time (m_dev (snd (beacon_reset 0 BN_RESET_COUNTERS (opened env)))) =
  Timespec 1700000000 5.
Proof.
  intro env.
  destruct (reset_counters_sequence 0 (opened env)) as (A & _ & _ & B).
  - vm_compute; reflexivity.
  - intros n fd_ p. unfold env. rewrite m_env_opened. reflexivity.
  - split; [exact A|]. rewrite B. unfold env. rewrite m_env_opened.
    reflexivity.
Defined.

(** ** The calls an operation makes *)

Section Calls.
Context (inv : machine -> Prop) (P : syscall -> Prop).

Lemma calls_ret {A} (a : A) : calls_only inv P (ret a).
Proof.
  intros m H. split; [exact H|]. exists []. rewrite app_nil_r. auto.
Qed.

(** The continuation may use that its argument is the result of [c] in a
    machine where [inv] holds. *)
Lemma calls_bind_val {A B} (c : M A) (k : A -> M B) :
  calls_only inv P c ->
  (forall m, inv m -> calls_only inv P (k (fst (c m)))) ->
  calls_only inv P (bind c k).
Proof.
  intros Hc Hk m H. rewrite bind_eq.
  destruct (Hc m H) as (I1 & l1 & T1 & F1).
  destruct (Hk m H (snd (c m)) I1) as (I2 & l2 & T2 & F2).
  split; [exact I2|]. exists (l1 ++ l2).
  rewrite T2, T1, app_assoc. split; [reflexivity | apply Forall_app; auto].
Qed.

Lemma calls_bind {A B} (c : M A) (k : A -> M B) :
  calls_only inv P c -> (forall a, calls_only inv P (k a)) ->
  calls_only inv P (bind c k).
Proof. intros Hc Hk. apply calls_bind_val; auto. Qed.

Lemma calls_ebind {A B} (c : E A) (k : A -> E B) :
  calls_only inv P c -> (forall a, calls_only inv P (k a)) ->
  calls_only inv P (ebind c k).
Proof.
  intros Hc Hk. unfold ebind. apply calls_bind; [assumption|].
  intros [a|]; [apply Hk | apply calls_ret].
Qed.

Lemma calls_when (b : bool) (c : M unit) :
  calls_only inv P c -> calls_only inv P (when b c).
Proof. intro H. destruct b; [exact H | apply calls_ret]. Qed.

Lemma calls_lift {A} (c : M A) : calls_only inv P c -> calls_only inv P (lift c).
Proof.
  intro H. unfold lift. apply calls_bind; [exact H|]. intro; apply calls_ret.
Qed.

Lemma calls_CHK (c : M Z) : calls_only inv P c -> calls_only inv P (CHK c).
Proof.
  intro H. unfold CHK. apply calls_bind; [exact H|]. intro; apply calls_ret.
Qed.

Lemma calls_for_each {A} (l : list A) (body : A -> M unit) :
  (forall x, calls_only inv P (body x)) -> calls_only inv P (for_each l body).
Proof.
  intro H. induction l as [|x l IH]; simpl.
  - apply calls_ret.
  - apply calls_bind; [apply H | intro; exact IH].
Qed.

Lemma calls_efor_each {A} (l : list A) (body : A -> E unit) :
  (forall x, calls_only inv P (body x)) -> calls_only inv P (efor_each l body).
Proof.
  intro H. induction l as [|x l IH]; simpl.
  - apply calls_ret.
  - apply calls_ebind; [apply H | intro; exact IH].
Qed.

Lemma calls_until_fail {A} (l : list A) (body : A -> M Z) :
  (forall x, calls_only inv P (body x)) -> calls_only inv P (until_fail l body).
Proof.
  intro H. induction l as [|x l IH]; simpl.
  - apply calls_ret.
  - apply calls_bind; [apply H|].
    intro r. destruct (nonzero r); [apply calls_ret | exact IH].
Qed.

Lemma calls_sum_each {A} (l : list A) (body : A -> M Z) :
  (forall x, calls_only inv P (body x)) -> calls_only inv P (sum_each l body).
Proof.
  intro H. induction l as [|x l IH]; simpl.
  - apply calls_ret.
  - apply calls_bind; [apply H|]. intro.
    apply calls_bind; [exact IH|]. intro; apply calls_ret.
Qed.

(** An operation that makes no call. *)
Lemma calls_quiet {A} (c : M A) :
  (forall m, inv m -> inv (snd (c m))) -> keeps m_trace c ->
  calls_only inv P c.
Proof.
  intros Hi Ht m H. split; [apply Hi, H|]. exists [].
  rewrite app_nil_r. split; [apply Ht | constructor].
Qed.

Lemma calls_sys (c : syscall) :
  P c -> (forall m t, inv m -> inv (with_trace t m)) ->
  calls_only inv P (sys c).
Proof.
  intros Hp Hi m H. split; [apply Hi, H|]. exists [c].
  split; [reflexivity | auto].
Qed.
End Calls.

Lemma calls_trace_since {A} inv P (c : M A) m :
  calls_only inv P c -> inv m -> Forall P (trace_since m (snd (c m))).
Proof.
  intros H Hi. destruct (H m Hi) as (_ & l & T & F).
  rewrite (trace_since_app _ _ _ T). exact F.
Qed.

(** *** Polling *)

Ltac poll_step :=
  lazymatch goal with
  | |- calls_only _ _ (ret _) => apply calls_ret
  | |- calls_only _ _ (bind _ _) => apply calls_bind; [ | intro ]
  | |- calls_only _ _ (when _ _) => apply calls_when
  | |- calls_only _ _ (if ?b then _ else _) => destruct b
  | |- calls_only _ _ (match ?x with _ => _ end) => destruct x
  | |- calls_only _ _ (sys _) =>
      apply calls_sys; [ exact I | intros; exact I ]
  | |- calls_only _ _ get_dev =>
      apply calls_quiet; [ intros; exact I | intro; reflexivity ]
  | |- calls_only _ _ get =>
      apply calls_quiet; [ intros; exact I | intro; reflexivity ]
  | |- calls_only _ _ (modify_dev _) =>
      apply calls_quiet; [ intros; exact I | intro; reflexivity ]
  | |- calls_only _ _ (modify _) =>
      apply calls_quiet; [ intros; exact I | intro; reflexivity ]
  | |- calls_only _ _ ?c => keeps_head c
  end.

Lemma check_buffers_polls next which :
  calls_only (fun _ => True) poll_call (beacon_check_buffers next which).
Proof. repeat poll_step. Qed.

Lemma wait_loop_polls fuel timeout start which :
  Qle_bool timeout 0 = true ->
  forall something waited,
    calls_only (fun _ => True) poll_call
      (wait_loop fuel timeout start which something waited).
Proof.
  intro Ht.
  assert (Q0 : Qltb 0 timeout = false) by (unfold Qltb; rewrite Ht; reflexivity).
  induction fuel as [|fuel IH]; intros something waited; cbn [wait_loop].
  - destruct (negb (nonzero something) && _); apply calls_ret.
  - rewrite Q0.
    destruct (negb (nonzero something) && _); [|apply calls_ret].
    repeat lazymatch goal with
           | |- calls_only _ _ (wait_loop _ _ _ _ _ _) => apply IH
           | |- calls_only _ _ (beacon_check_buffers _ _) =>
               apply check_buffers_polls
           | |- _ => poll_step
           end.
Qed.

(** X10.  A wait without timeout (a timeout that is not positive) never reads a
    clock: whatever the device answers and however the wait ends, the calls
    it makes are status reads, sleeps of the poll interval and yields. *)
Theorem wait_without_timeout_never_reads_clock (fuel : nat) (timeout : Q)
    (which : beacon_which_board_t) (m : machine) :
  Qle_bool timeout 0 = true ->
  Forall poll_call (trace_since m (snd (beacon_wait fuel timeout which m))).
Proof.
  intro Ht.
  assert (Q0 : Qltb 0 timeout = false) by (unfold Qltb; rewrite Ht; reflexivity).
  apply (calls_trace_since (fun _ => True)); [|exact I].
  unfold beacon_wait. rewrite Q0.
  repeat lazymatch goal with
         | |- calls_only _ _ (wait_loop _ _ _ _ _ _) =>
             apply wait_loop_polls; exact Ht
         | |- _ => poll_step
         end.
Qed.

Lemma wait_without_timeout_never_reads_clock_witness :
  Forall poll_call
    (trace_since (opened (mock (fun _ => frame0)))
       (snd (beacon_wait 3 0 MASTER (opened (mock (fun _ => frame0)))))).
Proof.
  apply wait_without_timeout_never_reads_clock. reflexivity.
Defined.

(** *** The readout *)

Section ReadoutCalls.
Variable fds : arr2 Z.
Variable P : syscall -> Prop.
Hypothesis P_spi : forall msg, P (SysSpiMessage (fds MASTER) msg).
Hypothesis P_clock : P (SysClockGettime CLOCK_REALTIME).

Lemma on_master_quiet {A} (c : M A) :
  keeps (fun m => fd (m_dev m)) c -> keeps m_trace c -> calls_only (fds_are fds) P c.
Proof.
  intros Hf Ht. apply calls_quiet; [|exact Ht].
  intros m H. unfold fds_are in *. rewrite Hf. exact H.
Qed.

Ltac on_master_step :=
  lazymatch goal with
  | |- calls_only _ _ (ret _) => apply calls_ret
  | |- calls_only _ _ (bind get_dev _) =>
      apply calls_bind_val;
      [ apply on_master_quiet; intro; reflexivity
      | let m := fresh "m" in
        let H := fresh "H" in
        intros m H; cbn [fst get_dev]; unfold fds_are in H; rewrite ?H ]
  | |- calls_only _ _ (bind _ _) => apply calls_bind; [ | intro ]
  | |- calls_only _ _ (ebind _ _) => apply calls_ebind; [ | intro ]
  | |- calls_only _ _ (when _ _) => apply calls_when
  | |- calls_only _ _ (lift _) => apply calls_lift
  | |- calls_only _ _ (CHK _) => apply calls_CHK
  | |- calls_only _ _ (efor_each _ _) => apply calls_efor_each; intro
  | |- calls_only _ _ (until_fail _ _) => apply calls_until_fail; intro
  | |- calls_only _ _ (if ?b then _ else _) => destruct b
  | |- calls_only _ _ (sys (SysSpiMessage _ _)) =>
      apply calls_sys; [ apply P_spi | let X := fresh in intros ? ? X; exact X ]
  | |- calls_only _ _ (sys (SysClockGettime CLOCK_REALTIME)) =>
      apply calls_sys; [ apply P_clock | let X := fresh in intros ? ? X; exact X ]
  | |- calls_only _ _ (modify_dev _) =>
      apply on_master_quiet; intro; reflexivity
  | |- calls_only _ _ (modify _) =>
      apply on_master_quiet; intro; reflexivity
  | |- calls_only _ _ (modify_hd _ _) =>
      apply on_master_quiet; solve_keeps_hd
  | |- calls_only _ _ (modify_ev _ _) =>
      apply on_master_quiet; intro; reflexivity
  end.

Lemma on_master_buffer_send : calls_only (fds_are fds) P (buffer_send MASTER).
Proof. unfold buffer_send, do_xfer. repeat on_master_step. Qed.

Lemma on_master_buffer_append tx rx : calls_only (fds_are fds) P (buffer_append MASTER tx rx).
Proof.
  unfold buffer_append.
  repeat lazymatch goal with
         | |- calls_only _ _ (buffer_send MASTER) => apply on_master_buffer_send
         | |- _ => on_master_step
         end.
Qed.

Ltac on_master_more :=
  lazymatch goal with
  | |- calls_only _ _ (buffer_send MASTER) => apply on_master_buffer_send
  | |- calls_only _ _ (buffer_append MASTER _ _) =>
      apply on_master_buffer_append
  | |- _ => on_master_step
  end.

Lemma on_master_append_read_register a r :
  calls_only (fds_are fds) P (append_read_register MASTER a r).
Proof. unfold append_read_register. repeat on_master_more. Qed.

Lemma on_master_loop_over_chunks naddr start result :
  calls_only (fds_are fds) P (loop_over_chunks_half_duplex MASTER naddr start result).
Proof. unfold loop_over_chunks_half_duplex. repeat on_master_more. Qed.

Lemma on_master_mark_buffers_done b : calls_only (fds_are fds) P (mark_buffers_done b).
Proof.
  unfold mark_buffers_done.
  apply calls_bind; [apply on_master_quiet; intro; reflexivity | intro d].
  change (NBD d <? 2) with true. cbv iota.
  repeat lazymatch goal with
         | |- calls_only _ _ (append_read_register MASTER _ _) =>
             apply on_master_append_read_register
         | |- _ => on_master_more
         end.
Qed.

Lemma on_master_read_channel e ibuf ichan :
  calls_only (fds_are fds) P (read_channel MASTER e ibuf ichan).
Proof.
  unfold read_channel.
  apply calls_bind; [apply on_master_quiet; intro; reflexivity | intro d].
  repeat lazymatch goal with
         | |- calls_only _ _ (loop_over_chunks_half_duplex MASTER _ _ _) =>
             apply on_master_loop_over_chunks
         | |- _ => on_master_more
         end.
Qed.

Lemma on_master_read_metadata h ibuf : calls_only (fds_are fds) P (read_metadata MASTER h ibuf).
Proof.
  unfold read_metadata, queue_metadata. cbn [board_eqb].
  repeat lazymatch goal with
         | |- calls_only _ _ (append_read_register MASTER _ _) =>
             apply on_master_append_read_register
         | |- _ => on_master_more
         end.
Qed.

Lemma fill_header_keeps_fd mask ibd h e ibuf now :
  keeps (fun m => fd (m_dev m)) (fill_header mask ibd h e ibuf now).
Proof.
  unfold fill_header. apply keeps_bind; [intro; reflexivity | intro m0].
  cbv zeta. solve_keeps_hd.
Qed.

Lemma fill_header_keeps_trace mask ibd h e ibuf now :
  keeps m_trace (fill_header mask ibd h e ibuf now).
Proof.
  unfold fill_header. apply keeps_bind; [intro; reflexivity | intro m0].
  cbv zeta. solve_keeps_hd.
Qed.

Lemma on_master_read_waveforms h e ibuf :
  calls_only (fds_are fds) P (read_waveforms MASTER h e ibuf).
Proof.
  unfold read_waveforms.
  repeat lazymatch goal with
         | |- calls_only _ _ (read_channel MASTER _ _ _) =>
             apply on_master_read_channel
         | |- calls_only _ _ (zero_slave _ _) =>
             apply on_master_quiet; solve_keeps_hd
         | |- calls_only _ _ (bind get_dev _) =>
             apply calls_bind; [apply on_master_quiet; intro; reflexivity | intro]
         | |- _ => on_master_more
         end.
Qed.

Lemma on_master_read_board mask h e ibuf :
  calls_only (fds_are fds) P (read_board mask h e ibuf MASTER).
Proof.
  unfold read_board, clock_gettime.
  repeat lazymatch goal with
         | |- calls_only _ _ (read_metadata MASTER _ _) =>
             apply on_master_read_metadata
         | |- calls_only _ _ (read_waveforms MASTER _ _ _) =>
             apply on_master_read_waveforms
         | |- calls_only _ _ (lift (fill_header _ _ _ _ _ _)) =>
             apply calls_lift, on_master_quiet;
             [apply fill_header_keeps_fd | apply fill_header_keeps_trace]
         | |- _ => on_master_more
         end.
Qed.

Lemma on_master_read_buffer mask hd ev iout :
  calls_only (fds_are fds) P (read_buffer mask hd ev iout).
Proof.
  unfold read_buffer.
  apply calls_bind; [apply on_master_quiet; intro; reflexivity | intro d].
  rewrite boards_below_NBD. cbn [board_loop].
  repeat lazymatch goal with
         | |- calls_only _ _ (read_board _ _ _ _ MASTER) =>
             apply on_master_read_board
         | |- calls_only _ _ (mark_buffers_done _) =>
             apply on_master_mark_buffers_done
         | |- calls_only _ _ (match ?x with _ => _ end) => destruct x
         | |- _ => on_master_more
         end.
Qed.

Lemma on_master_buffer_loop n mask hd ev iout :
  calls_only (fds_are fds) P (buffer_loop n mask hd ev iout).
Proof.
  revert iout. induction n as [|n IH]; intro iout; cbn [buffer_loop].
  - apply calls_ret.
  - apply calls_ebind; [apply on_master_read_buffer | intro; apply IH].
Qed.
Lemma on_master_get_attenuation am asl :
  calls_only (fds_are fds) P (beacon_get_attenuation am asl).
Proof.
  unfold beacon_get_attenuation.
  apply calls_bind; [apply on_master_quiet; intro; reflexivity | intro d].
  assert (R : calls_only (fds_are fds) P read_attenuation_registers).
  { unfold read_attenuation_registers.
    repeat lazymatch goal with
           | |- calls_only _ _ (append_read_register MASTER _ _) =>
               apply on_master_append_read_register
           | |- _ => on_master_more
           end. }
  assert (C : forall old, calls_only (fds_are fds) P (copy_attenuation_out old)).
  { intro old. apply on_master_quiet; intro; reflexivity. }
  apply calls_bind.
  - destruct am;
      repeat lazymatch goal with
             | |- calls_only _ _ read_attenuation_registers => exact R
             | |- calls_only _ _ (copy_attenuation_out _) => apply C
             | |- _ => on_master_step
             end.
  - intros [ret1 a]. destruct asl;
      repeat lazymatch goal with
             | |- calls_only _ _ read_attenuation_registers => exact R
             | |- calls_only _ _ (copy_attenuation_out _) => apply C
             | |- _ => on_master_step
             end.
Qed.
End ReadoutCalls.

(** X11.  The event readout talks to the master only: whatever the mask, the state
    of the handle and the answers of the device, every call it makes is an
    SPI message on the master's descriptor or a reading of the wall clock.
    The slave, even when one is open, is neither read nor cleared (the number
    of boards is fixed at 1). *)
Theorem readout_talks_to_master_only (mask : Z) (hd ev : nat -> nat)
    (m : machine) :
  Forall (readout_call (fd (m_dev m) MASTER))
    (trace_since m (snd (beacon_read_multiple_ptr mask hd ev m))).
Proof.
  apply (calls_trace_since (fds_are (fd (m_dev m)))); [|reflexivity].
  unfold beacon_read_multiple_ptr.
  apply calls_bind; [|intro; apply calls_ret].
  apply on_master_buffer_loop;
    [intro; right; eexists; reflexivity | left; reflexivity].
Qed.

(** X12.  beacon_get_attenuation never addresses the slave: the two blocks of the
    function, the one that fills the master's array and the one that fills
    the slave's, both read the attenuator registers on the master's
    descriptor.  Whatever the arrays asked for and the answers of the
    device, every call is an SPI message to the master. *)
Theorem get_attenuation_reads_master_only
    (attenuation_master attenuation_slave : option (nat -> Z)) (m : machine) :
  Forall (fun c => exists msg, c = SysSpiMessage (fd (m_dev m) MASTER) msg)
    (trace_since m
       (snd (beacon_get_attenuation attenuation_master attenuation_slave m))).
Proof.
  apply (calls_trace_since (fds_are (fd (m_dev m)))); [|reflexivity].
  apply on_master_get_attenuation. intro msg. eexists. reflexivity.
Qed.

(** ** Open *)

Lemma sys_step c m :
  exists m',
    sys c m = (m_env m (length (m_trace m)) c, m') /\
    m_env m' = m_env m /\
    m_trace m' = m_trace m ++ [c] /\
    m_dev m' = m_dev m.
Proof. eexists. unfold sys. repeat split. Qed.

Ltac run_sys :=
  rewrite ?bind_assoc;
  match goal with
  | |- context [bind (sys ?c) ?k ?m] =>
      let m' := fresh "s" in
      let E := fresh "E" in
      let Ee := fresh "Ee" in
      let Et := fresh "Et" in
      let Ed := fresh "Ed" in
      destruct (sys_step c m) as (m' & E & Ee & Et & Ed);
      rewrite (bind_run (sys c) k m _ m' E); clear E; cbv beta;
      rewrite ?bind_ret
  end.

(** The first part of an open: what is opened, locked and, when the function
    gives up, closed again. *)
Lemma open_nodes_cases devicename_slave m :
  let n := length (m_trace m) in
  let fd0 := ret_val (m_env m n (SysOpen false)) in
  let lock0 := ret_val (m_env m (n + 1) (SysFlock fd0 true)) in
  let fd1 := ret_val (m_env m (n + 2) (SysOpen true)) in
  let lock1 := ret_val (m_env m (n + 3) (SysFlock fd1 true)) in
  exists m',
    open_nodes devicename_slave m =
    ((if fd0 <? 0 then None
      else if lock0 <? 0 then None
      else if devicename_slave
      then if fd1 <? 0 then None
           else if lock1 <? 0 then None else Some (fd0, fd1)
      else Some (fd0, 0)), m') /\
    m_env m' = m_env m /\
    m_dev m' = m_dev m /\
    m_trace m' =
    m_trace m ++
    (if fd0 <? 0 then [SysOpen false]
     else if lock0 <? 0
     then [SysOpen false; SysFlock fd0 true; SysClose fd0]
     else if devicename_slave
     then if fd1 <? 0
          then [SysOpen false; SysFlock fd0 true; SysOpen true; SysClose fd0]
          else if lock1 <? 0
          then [SysOpen false; SysFlock fd0 true; SysOpen true;
                SysFlock fd1 true; SysClose fd0; SysClose fd1]
          else [SysOpen false; SysFlock fd0 true; SysOpen true;
                SysFlock fd1 true]
     else [SysOpen false; SysFlock fd0 true]).
Proof.
  intros n fd0 lock0 fd1 lock1. unfold open_nodes.
  run_sys. fold n fd0. destruct (fd0 <? 0).
  { eexists. split; [reflexivity|]. auto. }
  run_sys. rewrite Ee, Et, length_app. cbn [length]. fold n lock0.
  destruct (lock0 <? 0).
  { run_sys. eexists. split; [reflexivity|].
    rewrite Ee1, Ee0, Ee, Ed1, Ed0, Ed, Et1, Et0, Et, <- !app_assoc. auto. }
  destruct devicename_slave.
  2: { eexists. split; [reflexivity|].
       rewrite Ee0, Ee, Ed0, Ed, Et0, Et, <- !app_assoc. auto. }
  run_sys. rewrite Ee0, Ee, Et0, Et, !length_app. cbn [length].
  rewrite <- Nat.add_assoc. cbn [Nat.add]. fold n fd1.
  destruct (fd1 <? 0).
  { run_sys. eexists. split; [reflexivity|].
    rewrite Ee2, Ee1, Ee0, Ee, Ed2, Ed1, Ed0, Ed, Et2, Et1, Et0, Et,
      <- !app_assoc. auto. }
  run_sys. rewrite Ee1, Ee0, Ee, Et1, Et0, Et, !length_app. cbn [length].
  rewrite <- !Nat.add_assoc. cbn [Nat.add]. fold n lock1.
  destruct (lock1 <? 0).
  { run_sys. run_sys. eexists. split; [reflexivity|].
    rewrite Ee4, Ee3, Ee2, Ee1, Ee0, Ee, Ed4, Ed3, Ed2, Ed1, Ed0, Ed,
      Et4, Et3, Et2, Et1, Et0, Et, <- !app_assoc. auto. }
  eexists. split; [reflexivity|].
  rewrite Ee2, Ee1, Ee0, Ee, Ed2, Ed1, Ed0, Ed, Et2, Et1, Et0, Et,
    <- !app_assoc. auto.
Qed.

Section Closing.
Variable fds : arr2 Z.

Lemma extends_quiet {A} (c : M A) :
  keeps (fun m => fd (m_dev m)) c -> keeps m_trace c ->
  calls_only (fds_are fds) (fun _ => True) c.
Proof.
  intros Hf Ht. apply calls_quiet; [|exact Ht].
  intros m H. unfold fds_are in *. rewrite Hf. exact H.
Qed.

(** Operations that keep the descriptors of the handle: they only add calls
    to the trace. *)
Ltac extends_step :=
  lazymatch goal with
  | |- calls_only _ _ (ret _) => apply calls_ret
  | |- calls_only _ _ (bind _ _) => apply calls_bind; [ | intro ]
  | |- calls_only _ _ (when _ _) => apply calls_when
  | |- calls_only _ _ (for_each _ _) => apply calls_for_each; intro
  | |- calls_only _ _ (until_fail _ _) => apply calls_until_fail; intro
  | |- calls_only _ _ (sum_each _ _) => apply calls_sum_each; intro
  | |- calls_only _ _ (if ?b then _ else _) => destruct b
  | |- calls_only _ _ (sys _) =>
      apply calls_sys; [ exact I | let X := fresh in intros ? ? X; exact X ]
  | |- calls_only _ _ get_dev => apply extends_quiet; intro; reflexivity
  | |- calls_only _ _ get => apply extends_quiet; intro; reflexivity
  | |- calls_only _ _ (modify_dev _) => apply extends_quiet; intro; reflexivity
  | |- calls_only _ _ (modify _) => apply extends_quiet; intro; reflexivity
  end.

Lemma extends_buffer_send which :
  calls_only (fds_are fds) (fun _ => True) (buffer_send which).
Proof. unfold buffer_send, do_xfer. repeat extends_step. Qed.

Lemma extends_read_register a r which :
  calls_only (fds_are fds) (fun _ => True) (beacon_read_register a r which).
Proof.
  unfold beacon_read_register, append_read_register, buffer_append.
  repeat lazymatch goal with
         | |- calls_only _ _ (buffer_send _) => apply extends_buffer_send
         | |- _ => extends_step
         end.
Qed.

Lemma extends_reset_counters_only fuel :
  calls_only (fds_are fds) (fun _ => True) (beacon_reset fuel BN_RESET_COUNTERS).
Proof.
  unfold beacon_reset.
  change (reset_rank BN_RESET_CALIBRATE <=? reset_rank BN_RESET_COUNTERS)
    with false. cbv iota.
  unfold reset_prologue, reset_counters, beacon_phased_trigger_readout,
    do_write, clock_gettime.
  repeat lazymatch goal with
         | |- calls_only _ _ (bind get_dev _) =>
             apply calls_bind;
             [ apply extends_quiet; intro; reflexivity
             | let d := fresh "d" in
               intro d; try change (1 <? NBD d) with false; cbv iota ]
         | |- calls_only _ _ (match ?x with _ => _ end) => destruct x
         | |- _ => extends_step
         end.
Qed.

Lemma closes_bind_val {A B} ok (c : M A) (k : A -> M B) :
  calls_only (fds_are fds) (fun _ => True) c ->
  (forall m, fds_are fds m -> closes_descriptors fds ok (k (fst (c m)))) ->
  closes_descriptors fds ok (bind c k).
Proof.
  intros Hc Hk m H. rewrite bind_eq. intro Hok.
  destruct (Hc m H) as (I1 & l1 & T1 & _).
  destruct (Hk m H (snd (c m)) I1 Hok) as (l2 & T2 & C1 & C2).
  exists (l1 ++ l2). rewrite T2, T1, app_assoc. split; [reflexivity|].
  split; [|intro N]; apply in_or_app; right; auto.
Qed.

Lemma closes_bind {A B} ok (c : M A) (k : A -> M B) :
  calls_only (fds_are fds) (fun _ => True) c ->
  (forall a, closes_descriptors fds ok (k a)) ->
  closes_descriptors fds ok (bind c k).
Proof. intros Hc Hk. apply closes_bind_val; auto. Qed.

(** The end of beacon_close: the slave's descriptor, when there is one, then
    the master's, are unlocked and closed. *)
Lemma close_tail_closes r1 r2 :
  closes_descriptors fds (fun _ : Z => True)
    (r3 <- (if nonzero (fds SLAVE)
            then a <- sys (SysFlock (fds SLAVE) false) ;;
                 b <- sys (SysClose (fds SLAVE)) ;;
                 ret (ret_val a + 4 * ret_val b)
            else ret 0) ;;
     a <- sys (SysFlock (fds MASTER) false) ;;
     b <- sys (SysClose (fds MASTER)) ;;
     ret (r1 + r2 + r3 + 8 * ret_val a + 16 * ret_val b)).
Proof.
  intros m _ _. destruct (nonzero (fds SLAVE)) eqn:N.
  - run_sys. run_sys. run_sys. run_sys. cbn [ret snd].
    eexists. rewrite Et2, Et1, Et0, Et, <- !app_assoc.
    split; [reflexivity|]. split; [|intros _]; cbn [app In]; auto.
  - rewrite bind_ret. run_sys. run_sys. cbn [ret snd].
    eexists. rewrite Et0, Et, <- !app_assoc.
    split; [reflexivity|]. split; [cbn [app In]; auto|].
    intro X. apply nonzero_false in N. contradiction.
Qed.

Lemma close_closes : closes_descriptors fds (fun _ : Z => True) beacon_close.
Proof.
  unfold beacon_close, beacon_cancel_wait.
  apply closes_bind; [apply extends_quiet; intro; reflexivity | intros _].
  apply closes_bind_val; [apply extends_quiet; intro; reflexivity|].
  intros m H. cbn [fst get_dev]. unfold fds_are in H. rewrite H.
  apply closes_bind;
    [apply calls_sum_each; intro; apply extends_buffer_send | intro r1].
  apply closes_bind; [repeat extends_step | intros _].
  apply closes_bind; [repeat extends_step | intro r2].
  apply close_tail_closes.
Qed.

Lemma setup_handle_closes fuel fd0 fd1 gpio locking :
  fds = (fun b => match b with MASTER => fd0 | SLAVE => fd1 end) ->
  forall m,
    fst (setup_handle fuel fd0 fd1 gpio locking m) = Some false ->
    exists l,
      m_trace (snd (setup_handle fuel fd0 fd1 gpio locking m)) =
      m_trace m ++ l /\ closed_in (fds MASTER) (fds SLAVE) l.
Proof.
  intros Hf m. unfold setup_handle. rewrite bind_eq.
  set (s0 := snd (init_handle fd0 fd1 gpio m)).
  assert (I0 : fds_are fds s0) by (rewrite Hf; reflexivity).
  assert (T0 : m_trace s0 = m_trace m) by reflexivity.
  clearbody s0. rewrite <- T0.
  revert s0 I0 T0.
  match goal with
  | |- forall s0, _ -> _ -> fst (?c s0) = _ -> _ =>
      intros s0 I0 _; revert s0 I0;
      change (closes_descriptors fds (fun r => r = Some false) c)
  end.
  apply closes_bind; [apply extends_quiet; intro; reflexivity | intro d].
  rewrite boards_below_NBD.
  repeat lazymatch goal with
         | |- closes_descriptors _ _ (bind (beacon_reset _ _) _) =>
             apply closes_bind; [apply extends_reset_counters_only | intro]
         | |- closes_descriptors _ _ (bind _ _) =>
             apply closes_bind;
             [ repeat lazymatch goal with
                      | |- calls_only _ _ (beacon_read_register _ _ _) =>
                          apply extends_read_register
                      | |- _ => extends_step
                      end
             | intro ]
         end.
  match goal with
  | |- closes_descriptors _ _ (match ?r with _ => _ end) =>
      destruct r as [r|]; [destruct (nonzero r)|]
  end.
  - intros s I _. rewrite bind_eq.
    destruct (close_closes s I Logic.I) as (l & T & C).
    exists l. split; [exact T | exact C].
  - intros s _ X. discriminate X.
  - intros s _ X. discriminate X.
Qed.
End Closing.

Lemma open_middle_extends gpio_number fd0 fd1 :
  calls_only (fun _ => True) (fun _ => True)
    (gpio <- (if nonzero gpio_number
              then g <- sys (SysGpioOpen gpio_number) ;;
                   sys (SysGpioSet (ret_val g) 0) ;;
                   ret (ret_val g)
              else ret 0) ;;
     when (nonzero fd1) (do_write fd0 buf_sync_off ;; ret tt) ;;
     ret gpio).
Proof. unfold do_write. repeat poll_step. Qed.

(** X13.  When beacon_open gives up (returns null), no descriptor is left open:
    the master's device node, if it was opened, has been closed, and so has
    the slave's, if it was opened with a descriptor other than 0.  This holds
    on every path: a failed lock, a failed open of the slave, and a failed
    reset of the counters after the handle was set up. *)
Theorem open_null_closes_descriptors (fuel : nat) (devicename_slave : bool)
    (gpio_number locking : Z) (m : machine) :
  let r := beacon_open fuel devicename_slave gpio_number locking m in
  let n := length (m_trace m) in
  let fd0 := ret_val (m_env m n (SysOpen false)) in
  let lock0 := ret_val (m_env m (n + 1) (SysFlock fd0 true)) in
  let fd1 := ret_val (m_env m (n + 2) (SysOpen true)) in
  fst r = Some false ->
  (0 <= fd0 -> In (SysClose fd0) (trace_since m (snd r))) /\
  (devicename_slave = true -> 0 <= fd0 -> 0 <= lock0 -> 0 < fd1 ->
   In (SysClose fd1) (trace_since m (snd r))).
Proof.
  intros r n fd0 lock0 fd1. subst r. unfold beacon_open.
  destruct (open_nodes_cases devicename_slave m) as (s & O & _ & _ & Ot).
  fold n fd0 lock0 fd1 in O, Ot.
  rewrite (bind_run _ _ _ _ _ O). clear O.
  assert (Rest : forall f1 lo,
            m_trace s = m_trace m ++ lo ->
            (devicename_slave = true -> f1 = fd1) ->
            let c := (gpio <- (if nonzero gpio_number
                      then g <- sys (SysGpioOpen gpio_number) ;;
                           sys (SysGpioSet (ret_val g) 0) ;;
                           ret (ret_val g)
                      else ret 0) ;;
                      when (nonzero f1) (do_write fd0 buf_sync_off ;; ret tt) ;;
                      setup_handle fuel fd0 f1 gpio locking) in
            fst (c s) = Some false ->
            In (SysClose fd0) (trace_since m (snd (c s))) /\
            (devicename_slave = true -> 0 < fd1 ->
             In (SysClose fd1) (trace_since m (snd (c s))))).
  { intros f1 lo Hs Hf1 c. subst c.
    destruct (open_middle_extends gpio_number fd0 f1 s Logic.I)
      as (_ & l0 & T0 & _).
    revert T0. rewrite !bind_eq. cbn [ret fst snd]. intros T0 H.
    destruct (setup_handle_closes
                (fun b => match b with MASTER => fd0 | SLAVE => f1 end)
                fuel fd0 f1 _ locking eq_refl _ H) as (l & T & C1 & C2).
    rewrite (trace_since_app _ _ (lo ++ l0 ++ l))
      by (rewrite T, T0, Hs, <- !app_assoc; reflexivity).
    split; [|intros Sl P1].
    - apply in_or_app; right. apply in_or_app; right. exact C1.
    - apply in_or_app; right. apply in_or_app; right.
      rewrite <- (Hf1 Sl). apply C2. rewrite (Hf1 Sl). lia. }
  destruct (fd0 <? 0) eqn:F0.
  { intros _. split; intros; lia. }
  destruct (lock0 <? 0) eqn:L0.
  { intros _. cbn [ret snd]. rewrite (trace_since_app _ _ _ Ot).
    split; [intros; cbn [In]; auto | intros; lia]. }
  destruct devicename_slave.
  - destruct (fd1 <? 0) eqn:F1.
    { intros _. cbn [ret snd]. rewrite (trace_since_app _ _ _ Ot).
      split; [intros; cbn [In]; auto 6 | intros; lia]. }
    destruct (ret_val (m_env m (n + 3) (SysFlock fd1 true)) <? 0).
    { intros _. cbn [ret snd]. rewrite (trace_since_app _ _ _ Ot).
      split; intros; cbn [In]; auto 8. }
    intro H. destruct (Rest fd1 _ Ot (fun _ => eq_refl) H) as [A B].
    split; [intros _; exact A | intros _ _ _ P1; apply B; auto].
  - intro H. destruct (Rest 0 _ Ot ltac:(discriminate) H) as [A B].
    split; [intros _; exact A | discriminate].
Qed.

Lemma open_null_closes_descriptors_witness :
  let env := fun n c =>
    match c with
    | SysFlock 4 true => reply (-1) (fun _ => frame0)
    | _ => mock (fun _ => frame0) n c
    end in
  In (SysClose 3) (trace_since (boot env) (snd (beacon_open 0 true 0 0 (boot env))))
  /\ In (SysClose 4)
       (trace_since (boot env) (snd (beacon_open 0 true 0 0 (boot env)))).
Proof.
  intro env.
  destruct (open_null_closes_descriptors 0 true 0 0 (boot env)) as [A B].
  - vm_compute; reflexivity.
  - split; [apply A | apply B]; vm_compute; congruence.
Defined.

(** ** A read that does not start at the cursor *)

Lemma mark_buffers_done_sends b m :
  spi_ok (m_env m) ->
  nused (m_dev m) MASTER = 0 ->
  exists m',
    mark_buffers_done b m = (0, m') /\
    m_env m' = m_env m /\
    m_trace m' =
    m_trace m
    ++ [SysSpiMessage (fd (m_dev m) MASTER)
          (Xfer (Some (buf_clear b)) None
           :: read_xfers REG_CLEAR_STATUS (L_result 0))] /\
    nused (m_dev m') MASTER = 0 /\
    cursor m' = cursor m /\
    m_hd m' = m_hd m.
Proof.
  intros Hok Hn. unfold mark_buffers_done.
  rewrite (bind_run get_dev _ m (m_dev m) m eq_refl).
  change (NBD (m_dev m) <? 2) with true. cbv iota.
  rewrite (bind_run _ _ m 0 _
             (buffer_append_appends MASTER (Some (buf_clear b)) None m
                ltac:(rewrite Hn; reflexivity))).
  change data_status with (L_result 0, 0).
  set (m1 := appended MASTER (Xfer (Some (buf_clear b)) None) m).
  assert (N1 : nused (m_dev m1) MASTER = 1)
    by (unfold m1; rewrite nused_appended, Hn; reflexivity).
  rewrite (bind_run _ _ m1 0 _
             (append_read_register_appends MASTER REG_CLEAR_STATUS (L_result 0)
                m1 ltac:(rewrite N1; reflexivity))).
  set (m2 := append_all MASTER (read_xfers REG_CLEAR_STATUS (L_result 0)) m1).
  assert (N2 : nused (m_dev m2) MASTER = 3)
    by (unfold m2; rewrite nused_append_all, N1; reflexivity).
  assert (E2 : m_env m2 = m_env m)
    by (unfold m2, m1; rewrite m_env_append_all; reflexivity).
  assert (P2 : pending MASTER (m_dev m2) =
               Xfer (Some (buf_clear b)) None
               :: read_xfers REG_CLEAR_STATUS (L_result 0)).
  { unfold m2. rewrite pending_append_all by lia.
    unfold m1. rewrite pending_appended by lia.
    rewrite pending_empty by exact Hn. reflexivity. }
  assert (T2 : m_trace m2 = m_trace m)
    by (unfold m2, m1; rewrite m_trace_append_all; reflexivity).
  assert (F2 : fd (m_dev m2) = fd (m_dev m))
    by (unfold m2, m1; rewrite fd_append_all; reflexivity).
  assert (C2 : cursor (flushed MASTER m2) = cursor m) by reflexivity.
  assert (H2 : m_hd (flushed MASTER m2) = m_hd m).
  { rewrite m_hd_flushed. unfold m2. clear.
    unfold read_xfers, append_all. cbn [fold_left].
    rewrite !m_hd_appended. reflexivity. }
  clearbody m2. clear m1 N1.
  rewrite (bind_run _ _ m2 0 _
             (buffer_send_flushes MASTER m2
                ltac:(rewrite E2; exact Hok) ltac:(rewrite N2; discriminate))).
  cbn [ret]. eexists. split; [reflexivity|].
  rewrite m_env_flushed, m_trace_flushed, nused_flushed, P2, T2, F2, E2.
  repeat split; assumption.
Qed.

Lemma testbit_one k : Z.testbit 1 k = (k =? 0).
Proof.
  destruct (Z.eqb_spec k 0) as [->|N]; [reflexivity|].
  destruct (Z.lt_trichotomy k 0) as [L | [E | G]]; [|contradiction|].
  - apply Z.testbit_neg_r. exact L.
  - apply Z.bits_above_log2; simpl; lia.
Qed.

Lemma land_bits_distinct b c :
  c <> b -> Z.land (Z.shiftl 1 b) (Z.shiftl 1 c) = 0.
Proof.
  intro N. apply Z.bits_inj'. intros n Hn.
  rewrite Z.land_spec, !Z.shiftl_spec, !testbit_one, Z.bits_0 by exact Hn.
  destruct (Z.eqb_spec (n - b) 0); destruct (Z.eqb_spec (n - c) 0);
    try reflexivity. lia.
Qed.

(** X14.  beacon_read_single on a buffer that is not the one the cursor names, on a
    working bus and from an empty list: nothing is read (no buffer is
    selected, no register and no waveform is fetched, the clock is not read)
    and the header only has its sync-problem field zeroed; yet the buffer
    asked for is cleared on the board, the cursor is moved onto it, and the
    result is 0. *)
Theorem read_single_off_cursor_clears_unread (buffer : Z) (header event : nat)
    (m : machine) :
  spi_ok (m_env m) ->
  nused (m_dev m) MASTER = 0 ->
  0 <= buffer < 4 ->
  buffer <> cursor m ->
  let r := beacon_read_single buffer header event m in
  fst r = 0 /\
  trace_since m (snd r) =
  [SysSpiMessage (fd (m_dev m) MASTER)
     (Xfer (Some (buf_clear (Z.shiftl 1 buffer))) None
      :: read_xfers REG_CLEAR_STATUS (L_result 0))] /\
  cursor (snd r) = buffer /\
  m_hd (snd r) header = with_sync_problem 0 (m_hd m header).
Proof.
  intros Hok Hn Hb Hc r. subst r.
  unfold beacon_read_single, beacon_read_multiple_ptr.
  assert (U : u8 (Z.shiftl 1 buffer) = Z.shiftl 1 buffer).
  { assert (K : buffer = 0 \/ buffer = 1 \/ buffer = 2 \/ buffer = 3) by lia.
    destruct K as [-> | [-> | [-> | ->]]]; reflexivity. }
  assert (Cz : ctz (Z.shiftl 1 buffer) = buffer).
  { assert (K : buffer = 0 \/ buffer = 1 \/ buffer = 2 \/ buffer = 3) by lia.
    destruct K as [-> | [-> | [-> | ->]]]; reflexivity. }
  rewrite U, (popcount_bit _ Hb). cbn [buffer_loop].
  unfold read_buffer.
  rewrite bind_eq, ebind_eq.
  rewrite (bind_run get_dev _ m (m_dev m) m eq_refl).
  rewrite bind_eq.
  set (m0 := snd (modify_hd header (with_sync_problem 0) m)).
  assert (H0 : m_hd m0 header = with_sync_problem 0 (m_hd m header)).
  { unfold m0, modify_hd, modify. cbn [snd m_hd with_hd].
    rewrite Nat.eqb_refl. reflexivity. }
  assert (F0 : m_env m0 = m_env m /\ m_trace m0 = m_trace m /\
               m_dev m0 = m_dev m) by (repeat split).
  clearbody m0. destruct F0 as (E0 & T0 & D0).
  rewrite boards_below_NBD. cbn [board_loop].
  rewrite ebind_eq, ebind_eq. unfold read_board. fold (cursor m).
  rewrite (land_bits_distinct buffer (cursor m)) by congruence.
  cbn [Z.eqb]. rewrite bind_eq. cbn [fst snd ret modify_dev]. rewrite Cz.
  rewrite bind_eq.
  set (m1 := with_dev (with_next_read_buffer buffer (m_dev m0)) m0).
  assert (F1 : m_env m1 = m_env m /\ m_trace m1 = m_trace m /\
               nused (m_dev m1) MASTER = 0 /\ fd (m_dev m1) = fd (m_dev m) /\
               cursor m1 = buffer /\ m_hd m1 = m_hd m0).
  { unfold m1, cursor. cbn [m_env m_trace m_dev with_dev m_hd].
    rewrite E0, T0, D0. repeat split. exact Hn. }
  clearbody m1. destruct F1 as (E1 & T1 & N1 & D1 & C1 & H1).
  destruct (mark_buffers_done_sends (u8 (Z.shiftl 1 buffer)) m1)
    as (m2 & M & E2 & T2 & N2 & C2 & H2).
  { rewrite E1. exact Hok. }
  { exact N1. }
  rewrite M. cbn [fst snd ret]. rewrite U in T2.
  split; [reflexivity|]. split; [|split].
  - apply trace_since_app. rewrite T2, T1, D1. reflexivity.
  - rewrite C2. exact C1.
  - rewrite H2, H1. exact H0.
Qed.

Lemma read_single_off_cursor_clears_unread_witness :
  let m := opened (mock (fun _ => frame0)) in
  fst (beacon_read_single 2 0 0 m) = 0 /\ cursor (snd (beacon_read_single 2 0 0 m)) = 2.
Proof.
  intro m.
  destruct (read_single_off_cursor_clears_unread 2 0 0 m) as (A & _ & B & _).
  - unfold m. rewrite m_env_opened. apply spi_ok_mock.
  - vm_compute; reflexivity.
  - lia.
  - vm_compute; discriminate.
  - split; assumption.
Defined.

(** ** Register reads *)

(** A register read on a working bus, from an empty list. *)
Lemma read_register_run (address : Z) (r : region)
    (which : beacon_which_board_t) (m : machine) :
  spi_ok (m_env m) ->
  nused (m_dev m) which = 0 ->
  let rx := rx_data (m_env m (length (m_trace m))
                       (SysSpiMessage (fd (m_dev m) which)
                          (read_xfers address r))) 1%nat in
  let res := beacon_read_register address (r, 0) which m in
  fst res = (if byte0 rx =? address then 0 else 1) /\
  load_frame (m_mem (snd res)) (r, 0) = rx /\
  trace_since m (snd res) =
  [SysSpiMessage (fd (m_dev m) which) (read_xfers address r)] /\
  nused (m_dev (snd res)) which = 0 /\
  m_env (snd res) = m_env m.
Proof.
  intros Hok Hn rx res. subst res.
  destruct (read_and_flush which address r m Hok Hn) as (S1 & S2 & S3).
  fold rx in S3.
  unfold beacon_read_register.
  rewrite (bind_run _ _ m 0 _
             (append_read_register_appends which address r m
                ltac:(rewrite Hn; reflexivity))).
  rewrite (bind_run _ _ _ 0 _ S1).
  set (mf := flushed which (append_all which (read_xfers address r) m)) in *.
  assert (N : nused (m_dev mf) which = 0)
    by (unfold mf; rewrite nused_flushed; destruct which; reflexivity).
  assert (Ee : m_env mf = m_env m)
    by (unfold mf; rewrite m_env_flushed, m_env_append_all; reflexivity).
  clearbody mf.
  rewrite (bind_run get _ mf mf mf eq_refl).
  assert (B : m_mem mf (r, 0) = byte0 rx).
  { rewrite <- S3. reflexivity. }
  rewrite B. cbn [Z.add].
  destruct (byte0 rx =? address); cbn [ret fst snd];
    (split; [reflexivity|]; split; [exact S3|]; split;
     [apply trace_since_app; exact S2 | split; assumption]).
Qed.

(** X15.  beacon_read_register on a working bus, from an empty list: one message
    of two transfers goes out (the address is set, four bytes are clocked
    in), the frame received is in the caller's buffer, and the result tells
    whether its first byte echoes the address: 0 if it does, 1 if not. *)
Theorem read_register_checks_echo (address : Z) (r : region)
    (which : beacon_which_board_t) (m : machine) :
  spi_ok (m_env m) ->
  nused (m_dev m) which = 0 ->
  let rx := rx_data (m_env m (length (m_trace m))
                       (SysSpiMessage (fd (m_dev m) which)
                          (read_xfers address r))) 1%nat in
  let res := beacon_read_register address (r, 0) which m in
  fst res = (if byte0 rx =? address then 0 else 1) /\
  load_frame (m_mem (snd res)) (r, 0) = rx /\
  trace_since m (snd res) =
  [SysSpiMessage (fd (m_dev m) which) (read_xfers address r)].
Proof.
  intros Hok Hn rx res.
  destruct (read_register_run address r which m Hok Hn) as (A & B & C & _).
  repeat split; assumption.
Qed.

Lemma read_register_checks_echo_witness :
  fst (beacon_read_register REG_STATUS (L_result 3, 0) MASTER
         (opened (mock (fun _ => Frame 7 0 0 1)))) = 0 /\
  fst (beacon_read_register REG_STATUS (L_result 3, 0) MASTER
         (opened (mock (fun _ => frame0)))) = 1.
Proof.
  split.
  - destruct (read_register_checks_echo REG_STATUS (L_result 3) MASTER
                (opened (mock (fun _ => Frame 7 0 0 1)))) as (A & _).
    + rewrite m_env_opened. apply spi_ok_mock.
    + vm_compute; reflexivity.
    + rewrite A, m_env_opened. reflexivity.
  - destruct (read_register_checks_echo REG_STATUS (L_result 3) MASTER
                (opened (mock (fun _ => frame0)))) as (A & _).
    + rewrite m_env_opened. apply spi_ok_mock.
    + vm_compute; reflexivity.
    + rewrite A, m_env_opened. reflexivity.
Defined.

(** ** What the configuration frames carry *)

(** Equalities between bit fields, bit by bit: the index is placed among the
    field boundaries, then every shift and mask is read at that index. *)
Ltac tb_norm :=
  repeat first
    [ rewrite Z.lor_spec
    | rewrite Z.land_spec
    | rewrite Z.shiftr_spec by lia
    | rewrite Z.shiftl_spec by lia
    | rewrite Z.testbit_ones_nonneg by lia
    | match goal with
      | |- context [Z.testbit ?a (?n - ?k)] =>
          rewrite (Z.testbit_neg_r a (n - k)) by lia
      end
    | match goal with
      | |- context [Z.testbit ?a (?n - ?k + ?k)] =>
          replace (n - k + k) with n by lia
      end
    | match goal with
      | |- context [?a <? ?b] =>
          first [ replace (a <? b) with true by (symmetry; apply Z.ltb_lt; lia)
                | replace (a <? b) with false by (symmetry; apply Z.ltb_ge; lia) ]
      end ];
  cbn [andb orb];
  rewrite ?andb_true_r, ?andb_false_r, ?orb_false_r, ?orb_true_r.

Ltac tb_cases n :=
  destruct (Z.lt_ge_cases n 8);
  [ | destruct (Z.lt_ge_cases n 12);
      [ | destruct (Z.lt_ge_cases n 16);
          [ | destruct (Z.lt_ge_cases n 20);
              [ | destruct (Z.lt_ge_cases n 24) ] ] ] ];
  tb_norm; try reflexivity.

Ltac as_ones :=
  unfold u8, u16, u32;
  rewrite <- ?Z.land_ones by lia;
  change 255 with (Z.ones 8); change 15 with (Z.ones 4).

Lemma holdoff_bits h :
  u16 (Z.lor (Z.land h 255) (Z.shiftl (Z.land (Z.shiftr h 8) 15) 8)) =
  h mod 2 ^ 12.
Proof.
  as_ones. apply Z.bits_inj'. intros n Hn. tb_cases n.
Qed.

Lemma dyn_holdoff_bits h :
  u16 (Z.lor (Z.land h 255) (Z.shiftl (u8 (Z.shiftr h 8)) 8)) = h mod 2 ^ 16.
Proof.
  as_ones. apply Z.bits_inj'. intros n Hn. tb_cases n.
Qed.

Lemma trigger_mask_bits x :
  u32 (Z.lor (Z.lor (Z.land x 255) (Z.shiftl (Z.land (Z.shiftr x 8) 255) 8))
         (Z.shiftl (Z.land (Z.shiftr x 16) 255) 16)) = x mod 2 ^ 24.
Proof.
  as_ones. apply Z.bits_inj'. intros n Hn. tb_cases n.
Qed.

Lemma threshold_bits v :
  Z.lor (Z.lor (Z.land (Z.land v 255) 255)
               (Z.shiftl (Z.land (Z.land (Z.shiftr v 8) 255) 255) 8))
        (Z.shiftl (Z.land (Z.land (Z.shiftr v 16) 15) 15) 16) = v mod 2 ^ 20.
Proof.
  as_ones. apply Z.bits_inj'. intros n Hn. tb_cases n.
Qed.

(** *** Frames sent in one message *)

Lemma flush_appended which l m :
  spi_ok (m_env m) ->
  nused (m_dev m) which = 0 ->
  l <> [] ->
  exists m',
    buffer_send which (append_all which l m) = (0, m') /\
    m_env m' = m_env m /\
    m_trace m' = m_trace m ++ [SysSpiMessage (fd (m_dev m) which) l] /\
    nused (m_dev m') which = 0 /\
    m_mem m' =
    store_rx l 0
      (rx_data (m_env m (length (m_trace m))
                  (SysSpiMessage (fd (m_dev m) which) l))) (m_mem m).
Proof.
  intros Hok Hn Hl.
  assert (P : pending which (m_dev (append_all which l m)) = l).
  { rewrite pending_append_all by lia. rewrite pending_empty by exact Hn.
    reflexivity. }
  exists (flushed which (append_all which l m)). split.
  - apply buffer_send_flushes.
    + rewrite m_env_append_all. exact Hok.
    + rewrite nused_append_all, Hn. destruct l; [contradiction|].
      cbn [length]. lia.
  - rewrite m_env_flushed, m_trace_flushed, nused_flushed, m_mem_flushed, P,
      m_env_append_all, m_trace_append_all, fd_append_all, m_mem_append_all.
    repeat split. destruct which; reflexivity.
Qed.

Lemma write_frame_sends (f : frame) (m : machine) :
  let c := (d <- get_dev ;;
            written <- do_write (fd d MASTER) f ;;
            ret (if written =? BN_SPI_BYTES then 0 else 1)) in
  trace_since m (snd (c m)) = [SysWrite (fd (m_dev m) MASTER) f].
Proof.
  cbv zeta. rewrite (bind_run get_dev _ m (m_dev m) m eq_refl).
  run_write. cbn [ret snd]. apply trace_since_app. exact Et.
Qed.

(** X16.  set_trigger_holdoff and beacon_get_trigger_holdoff agree on twelve bits.
    On a handle that does not lock the set function writes one frame to the
    master; when the device answers the register read with that frame, the
    get function returns the holdoff cut to its low twelve bits (the
    argument is a uint16_t: the top four bits are dropped). *)
Theorem trigger_holdoff_round_trip (h : Z) (m : machine) :
  enable_locking (m_dev m) = 0 ->
  exists f,
    transmitted (trace_since m (snd (set_trigger_holdoff h m))) =
    [(fd (m_dev m) MASTER, f)] /\
    forall m',
      spi_ok (m_env m') ->
      nused (m_dev m') MASTER = 0 ->
      rx_data (m_env m' (length (m_trace m'))
                 (SysSpiMessage (fd (m_dev m') MASTER)
                    (read_xfers REG_TRIG_HOLDOFF (L_result 9)))) 1%nat = f ->
      fst (beacon_get_trigger_holdoff m') = h mod 2 ^ 12.
Proof.
  intros _. eexists. split.
  - unfold set_trigger_holdoff. rewrite write_frame_sends. reflexivity.
  - intros m' Hok Hn Hrx. unfold beacon_get_trigger_holdoff.
    change trigger_holdoff_buf with (L_result 9, 0).
    destruct (read_register_run REG_TRIG_HOLDOFF (L_result 9) MASTER m' Hok Hn)
      as (_ & B & _).
    rewrite Hrx in B.
    rewrite bind_eq, (bind_run get _ _ _ _ eq_refl). cbn [ret fst].
    rewrite B. cbn [byte2 byte3]. apply holdoff_bits.
Qed.

Lemma trigger_holdoff_round_trip_witness :
  fst (beacon_get_trigger_holdoff
         (opened (mock (fun _ => Frame REG_TRIG_HOLDOFF 0 2 52)))) = 564.
Proof.
  destruct (trigger_holdoff_round_trip 4660 (opened (mock (fun _ => frame0)))
              ltac:(vm_compute; reflexivity))
    as (f & T & G).
  assert (F : f = Frame REG_TRIG_HOLDOFF 0 2 52).
  { assert (E : transmitted
                  (trace_since (opened (mock (fun _ => frame0)))
                     (snd (set_trigger_holdoff 4660
                             (opened (mock (fun _ => frame0)))))) =
                [(3, Frame REG_TRIG_HOLDOFF 0 2 52)])
      by (vm_compute; reflexivity).
    rewrite E in T. apply (f_equal (map snd)) in T. cbn [map snd] in T.
    injection T as T. symmetry. exact T. }
  rewrite (G (opened (mock (fun _ => Frame REG_TRIG_HOLDOFF 0 2 52)))).
  - reflexivity.
  - rewrite m_env_opened. apply spi_ok_mock.
  - vm_compute; reflexivity.
  - rewrite m_env_opened, F. reflexivity.
Defined.

(** X17.  beacon_set_trigger_mask and beacon_get_trigger_mask agree on twenty-four
    bits: on a handle that does not lock the set function writes one frame
    to the master, and when the device answers the register read with that
    frame the get function returns the mask cut to its low 24 bits (the
    argument is a uint32_t). *)
Theorem trigger_mask_round_trip (mask : Z) (m : machine) :
  enable_locking (m_dev m) = 0 ->
  exists f,
    transmitted (trace_since m (snd (beacon_set_trigger_mask mask m))) =
    [(fd (m_dev m) MASTER, f)] /\
    forall m',
      spi_ok (m_env m') ->
      nused (m_dev m') MASTER = 0 ->
      rx_data (m_env m' (length (m_trace m'))
                 (SysSpiMessage (fd (m_dev m') MASTER)
                    (read_xfers REG_TRIGGER_MASK (L_result 12)))) 1%nat = f ->
      fst (beacon_get_trigger_mask m') = mask mod 2 ^ 24.
Proof.
  intros _. eexists. split.
  - unfold beacon_set_trigger_mask.
    change 4 with BN_SPI_BYTES at 1.
    rewrite write_frame_sends. reflexivity.
  - intros m' Hok Hn Hrx. unfold beacon_get_trigger_mask.
    change trigger_mask_buf with (L_result 12, 0).
    destruct (read_register_run REG_TRIGGER_MASK (L_result 12) MASTER m' Hok Hn)
      as (_ & B & _).
    rewrite Hrx in B.
    rewrite bind_eq, (bind_run get _ _ _ _ eq_refl). cbn [ret fst].
    rewrite B. cbn [byte1 byte2 byte3]. apply trigger_mask_bits.
Qed.

Lemma trigger_mask_round_trip_witness :
  fst (beacon_get_trigger_mask
         (opened (mock (fun _ => Frame REG_TRIGGER_MASK 255 0 1)))) = 16711681.
Proof.
  destruct (trigger_mask_round_trip 4294901761
              (opened (mock (fun _ => frame0)))
              ltac:(vm_compute; reflexivity)) as (f & T & G).
  assert (F : f = Frame REG_TRIGGER_MASK 255 0 1).
  { assert (E : transmitted
                  (trace_since (opened (mock (fun _ => frame0)))
                     (snd (beacon_set_trigger_mask 4294901761
                             (opened (mock (fun _ => frame0)))))) =
                [(3, Frame REG_TRIGGER_MASK 255 0 1)])
      by (vm_compute; reflexivity).
    rewrite E in T. apply (f_equal (map snd)) in T. cbn [map snd] in T.
    injection T as T. symmetry. exact T. }
  rewrite (G (opened (mock (fun _ => Frame REG_TRIGGER_MASK 255 0 1)))).
  - reflexivity.
  - rewrite m_env_opened. apply spi_ok_mock.
  - vm_compute; reflexivity.
  - rewrite m_env_opened, F. reflexivity.
Defined.

(** *** Several registers read in one message *)

Lemma reads_skip r rest :
  forallb (fun r' => negb (region_eqb r r')) (map snd rest) = true ->
  forallb (fun x => match rx_buf x with
                    | Some p => negb (region_eqb r (fst p))
                    | None => true
                    end) (reads_message rest) = true.
Proof.
  induction rest as [|[a r'] rest IH]; intro H; [reflexivity|].
  cbn [map snd forallb] in H. apply andb_true_iff in H. destruct H as [H1 H2].
  unfold reads_message. cbn [flat_map read_xfers app forallb rx_buf fst snd].
  rewrite H1. cbn [andb]. apply IH. exact H2.
Qed.

(** After a message that reads registers into pairwise different buffers,
    the buffer of read [k] holds the frame received by transfer [2k+1]. *)
Lemma store_rx_reads reads :
  distinct_regions (map snd reads) = true ->
  forall j rx mem k a r,
    nth_error reads k = Some (a, r) ->
    load_frame (store_rx (reads_message reads) j rx mem) (r, 0) =
    rx (j + 2 * k + 1)%nat.
Proof.
  induction reads as [|[a0 r0] reads IH]; intros D j rx mem k a r Hk.
  - destruct k; discriminate.
  - cbn [map snd distinct_regions] in D. apply andb_true_iff in D.
    destruct D as [D1 D2].
    unfold reads_message. cbn [flat_map read_xfers app fst snd].
    fold (reads_message reads). cbn [store_rx rx_buf].
    destruct k as [|k].
    + cbn [nth_error] in Hk. injection Hk as -> ->.
      rewrite (load_frame_ext _ _ r 0
                 (store_rx_skips r (reads_message reads)
                    (reads_skip r reads D1) _ rx _)).
      rewrite load_store_frame. f_equal. lia.
    + cbn [nth_error] in Hk.
      rewrite (IH D2 _ rx _ k a r Hk). f_equal. lia.
Qed.

Lemma sum_each_buffer_append which (tx : Z -> option frame)
    (rx : Z -> option ptr) (l : list Z) :
  forall m,
    0 <= nused (m_dev m) which ->
    nused (m_dev m) which + Z.of_nat (length l) <= MAX_XFERS ->
    sum_each l (fun i => buffer_append which (tx i) (rx i)) m =
    (0, append_all which (map (fun i => Xfer (tx i) (rx i)) l) m).
Proof.
  induction l as [|x l IH]; intros m H0 H; [reflexivity|].
  cbn [sum_each map length] in *.
  rewrite (bind_run _ _ m 0 _
             (buffer_append_appends which (tx x) (rx x) m ltac:(lia))).
  rewrite (bind_run _ _ _ 0 _ (IH (appended which (Xfer (tx x) (rx x)) m)
      ltac:(rewrite nused_appended;
      destruct which; cbn [board_eqb]; lia) ltac:(rewrite nused_appended;
      destruct which; cbn [board_eqb]; lia))).
  reflexivity.
Qed.

Lemma sum_each_read_register which (a : Z -> Z) (r : Z -> region)
    (l : list Z) :
  forall m,
    0 <= nused (m_dev m) which ->
    nused (m_dev m) which + 2 * Z.of_nat (length l) < MAX_XFERS ->
    sum_each l (fun i => append_read_register which (a i) (Some (r i, 0))) m =
    (0, append_all which (reads_message (map (fun i => (a i, r i)) l)) m).
Proof.
  induction l as [|x l IH]; intros m H0 H; [reflexivity|].
  cbn [sum_each map length] in *.
  rewrite (bind_run _ _ m 0 _
             (append_read_register_appends which (a x) (r x) m ltac:(lia))).
  rewrite (bind_run _ _ _ 0 _ (IH (append_all which (read_xfers (a x) (r x)) m)
             ltac:(rewrite nused_append_all; cbn [length read_xfers]; lia)
             ltac:(rewrite nused_append_all; cbn [length read_xfers]; lia))).
  unfold reads_message. cbn [flat_map fst snd ret].
  rewrite append_all_app. reflexivity.
Qed.

(** *** Thresholds *)

Lemma threshold_codec i t :
  0 <= t < 2 ^ 32 ->
  threshold_value (threshold_frame i t) =
  if t <? 2 ^ 31 then Z.min t 1048575 else t mod 2 ^ 20.
Proof.
  intro Ht. unfold threshold_value, threshold_frame, to_int, u32.
  rewrite (Z.mod_small t) by lia. cbn [byte1 byte2 byte3].
  destruct (t <? 2 ^ 31) eqn:S.
  - apply Z.ltb_lt in S.
    destruct (t <=? 1048575) eqn:C.
    + apply Z.leb_le in C. rewrite threshold_bits.
      rewrite Z.mod_small by lia. lia.
    + apply Z.leb_gt in C. rewrite threshold_bits.
      rewrite Z.mod_small by lia. lia.
  - apply Z.ltb_ge in S.
    replace (t - 2 ^ 32 <=? 1048575) with true
      by (symmetry; apply Z.leb_le; lia).
    rewrite threshold_bits.
    replace (t - 2 ^ 32) with (t + (- 2 ^ 12) * 2 ^ 20) by lia.
    apply Z_mod_plus_full.
Qed.

Lemma nth_error_zrange n k :
  (k < Z.to_nat n)%nat -> nth_error (zrange n) k = Some (Z.of_nat k).
Proof.
  intro H. unfold zrange. rewrite nth_error_map.
  rewrite (nth_error_nth' _ 0%nat) by (rewrite length_seq; exact H).
  rewrite seq_nth by exact H. reflexivity.
Qed.

Lemma set_thresholds_run t dont m :
  spi_ok (m_env m) ->
  nused (m_dev m) MASTER = 0 ->
  exists m',
    beacon_set_thresholds t dont m = (0, m') /\
    m_trace m' =
    m_trace m
    ++ [SysSpiMessage (fd (m_dev m) MASTER)
          (map (fun i => Xfer (Some (threshold_frame i (t i))) None)
             (zrange BN_NUM_BEAMS))].
Proof.
  intros Hok Hn. unfold beacon_set_thresholds.
  assert (E : sum_each (zrange BN_NUM_BEAMS)
                (fun i => buffer_append MASTER
                            (Some (threshold_frame i (t i))) None) m =
              (0, append_all MASTER
                    (map (fun i => Xfer (Some (threshold_frame i (t i))) None)
                       (zrange BN_NUM_BEAMS)) m)).
  { apply (sum_each_buffer_append MASTER
             (fun i => Some (threshold_frame i (t i))) (fun _ => None)).
    - rewrite Hn. lia.
    - rewrite Hn. vm_compute. discriminate. }
  rewrite (bind_run _ _ _ _ _ E).
  destruct (flush_appended MASTER
              (map (fun i => Xfer (Some (threshold_frame i (t i))) None)
                 (zrange BN_NUM_BEAMS)) m Hok Hn ltac:(discriminate))
    as (m' & F & _ & T & _).
  rewrite (bind_run _ _ _ _ _ F). cbn [ret Z.add].
  exists m'. split; [reflexivity | exact T].
Qed.

Lemma get_thresholds_run m :
  spi_ok (m_env m) ->
  nused (m_dev m) MASTER = 0 ->
  let rx := rx_data (m_env m (length (m_trace m))
                       (SysSpiMessage (fd (m_dev m) MASTER)
                          (reads_message threshold_reads))) in
  fst (fst (beacon_get_thresholds m)) = 0 /\
  forall i, 0 <= i < BN_NUM_BEAMS ->
    snd (fst (beacon_get_thresholds m)) i =
    threshold_value (rx (2 * Z.to_nat i + 1)%nat).
Proof.
  intros Hok Hn rx. unfold beacon_get_thresholds.
  assert (E : sum_each (zrange BN_NUM_BEAMS)
                (fun i => append_read_register MASTER (REG_THRESHOLDS + i)
                            (Some (thresholds_buf i))) m =
              (0, append_all MASTER (reads_message threshold_reads) m)).
  { apply (sum_each_read_register MASTER (fun i => REG_THRESHOLDS + i)
             (fun i => L_result (16 + Z.to_nat i))).
    - rewrite Hn. lia.
    - rewrite Hn. vm_compute. reflexivity. }
  rewrite (bind_run _ _ _ _ _ E).
  destruct (flush_appended MASTER (reads_message threshold_reads) m Hok Hn
              ltac:(discriminate)) as (m' & F & _ & _ & _ & Mem).
  rewrite (bind_run _ _ _ _ _ F).
  rewrite (bind_run get _ m' m' m' eq_refl).
  cbn [Z.add nonzero Z.eqb negb ret fst snd].
  split; [reflexivity|]. intros i Hi. f_equal.
  rewrite Mem. fold rx.
  change (thresholds_buf i) with (L_result (16 + Z.to_nat i), 0).
  apply (store_rx_reads threshold_reads eq_refl 0%nat rx (m_mem m)
           (Z.to_nat i) (REG_THRESHOLDS + i)).
  unfold threshold_reads. rewrite nth_error_map.
  rewrite nth_error_zrange by (unfold BN_NUM_BEAMS in *; lia).
  cbn [option_map fst thresholds_buf]. rewrite !Z2Nat.id by lia. reflexivity.
Qed.

(** X18.  beacon_set_thresholds and beacon_get_thresholds, on a working bus and
    from an empty list.  The set function sends the twenty-four threshold
    frames in one message and returns 0.  When the device answers the
    twenty-four register reads of the get function with those frames, the
    get function returns 0 and the thresholds it stores are the ones set
    with every value above 0xfffff replaced by 0xfffff, except that a value
    of 2^31 or more (negative as an int) is not replaced but cut to its low
    twenty bits. *)
Theorem thresholds_round_trip (t : Z -> Z) (dont : Z) (m : machine) :
  spi_ok (m_env m) ->
  nused (m_dev m) MASTER = 0 ->
  (forall i, 0 <= t i < 2 ^ 32) ->
  exists fs,
    length fs = 24%nat /\
    fst (beacon_set_thresholds t dont m) = 0 /\
    trace_since m (snd (beacon_set_thresholds t dont m)) =
    [SysSpiMessage (fd (m_dev m) MASTER)
       (map (fun f => Xfer (Some f) None) fs)] /\
    forall m',
      spi_ok (m_env m') ->
      nused (m_dev m') MASTER = 0 ->
      (forall k, (k < 24)%nat ->
         rx_data (m_env m' (length (m_trace m'))
                    (SysSpiMessage (fd (m_dev m') MASTER)
                       (reads_message threshold_reads)))
           (2 * k + 1)%nat = nth k fs frame0) ->
      fst (fst (beacon_get_thresholds m')) = 0 /\
      forall i, 0 <= i < BN_NUM_BEAMS ->
        snd (fst (beacon_get_thresholds m')) i =
        if t i <? 2 ^ 31 then Z.min (t i) 1048575 else t i mod 2 ^ 20.
Proof.
  intros Hok Hn Ht.
  exists (map (fun i => threshold_frame i (t i)) (zrange BN_NUM_BEAMS)).
  destruct (set_thresholds_run t dont m Hok Hn) as (s & S & T).
  rewrite S. cbn [fst snd].
  split; [reflexivity|]. split; [reflexivity|]. split.
  - apply trace_since_app. rewrite T, map_map. reflexivity.
  - intros m' Hok' Hn' Hrx.
    destruct (get_thresholds_run m' Hok' Hn') as (A & B).
    split; [exact A|]. intros i Hi. rewrite (B i Hi).
    rewrite Hrx by (unfold BN_NUM_BEAMS in Hi; lia).
    assert (Hk : nth_error (map (fun i => threshold_frame i (t i))
                              (zrange BN_NUM_BEAMS)) (Z.to_nat i) =
                 Some (threshold_frame i (t i))).
    { rewrite nth_error_map, nth_error_zrange
        by (unfold BN_NUM_BEAMS in *; lia).
      cbn [option_map]. rewrite Z2Nat.id by lia. reflexivity. }
    rewrite (nth_error_nth _ _ frame0 Hk).
    apply threshold_codec, Ht.
Qed.

Lemma thresholds_round_trip_witness :
  exists m',
    fst (fst (beacon_get_thresholds m')) = 0 /\
    snd (fst (beacon_get_thresholds m')) 3 = 1048575.
Proof.
  destruct (thresholds_round_trip (fun _ => 1193046) 0
              (opened (mock (fun _ => frame0)))) as (fs & _ & _ & _ & G).
  - rewrite m_env_opened. apply spi_ok_mock.
  - vm_compute; reflexivity.
  - intro i. lia.
  - exists (boot (mock (fun j => nth (Nat.div2 j) fs frame0))).
    destruct (G (boot (mock (fun j => nth (Nat.div2 j) fs frame0))))
      as (A & B).
    + apply spi_ok_mock.
    + reflexivity.
    + intros k Hk. cbn [boot m_env mock reply rx_data].
      rewrite Nat.add_1_r, Nat.div2_succ_double. reflexivity.
    + split; [exact A|]. rewrite B by (unfold BN_NUM_BEAMS; lia).
      reflexivity.
Defined.

(** *** Dynamic masking and pretrigger *)

Lemma set_dynamic_masking_run enable threshold holdoff m :
  spi_ok (m_env m) ->
  nused (m_dev m) MASTER = 0 ->
  exists m',
    beacon_set_dynamic_masking enable threshold holdoff m = (0, m') /\
    m_trace m' =
    m_trace m
    ++ [SysSpiMessage (fd (m_dev m) MASTER)
          [Xfer (Some (Frame REG_DYN_MASK 0 (Z.land enable 1) threshold)) None;
           Xfer (Some (Frame REG_DYN_HOLDOFF 0 (u8 (Z.shiftr holdoff 8))
                         (Z.land holdoff 255))) None]].
Proof.
  intros Hok Hn. unfold beacon_set_dynamic_masking. cbv zeta.
  rewrite (bind_run _ _ m 0 _
             (buffer_append_appends MASTER _ None m
                ltac:(rewrite Hn; reflexivity))).
  match goal with
  | |- context [appended MASTER ?x m] => set (m1 := appended MASTER x m)
  end.
  rewrite (bind_run _ _ m1 0 _
             (buffer_append_appends MASTER _ None m1
                ltac:(unfold m1; rewrite nused_appended, Hn; reflexivity))).
  unfold m1.
  match goal with
  | |- context [appended MASTER ?y (appended MASTER ?x m)] =>
      change (appended MASTER y (appended MASTER x m))
        with (append_all MASTER [x; y] m);
      destruct (flush_appended MASTER [x; y] m Hok Hn ltac:(discriminate))
        as (m' & F & _ & T & _)
  end.
  exists m'. split; [exact F | exact T].
Qed.

Lemma get_dynamic_masking_run m :
  spi_ok (m_env m) ->
  nused (m_dev m) MASTER = 0 ->
  let rx := rx_data (m_env m (length (m_trace m))
                       (SysSpiMessage (fd (m_dev m) MASTER)
                          (reads_message [(REG_DYN_MASK, L_result 10);
                                          (REG_DYN_HOLDOFF, L_result 11)]))) in
  fst (beacon_get_dynamic_masking m) =
  (0, Some (Z.land (byte2 (rx 1%nat)) 1, byte3 (rx 1%nat),
            u16 (Z.lor (byte3 (rx 3%nat)) (Z.shiftl (byte2 (rx 3%nat)) 8)))).
Proof.
  intros Hok Hn rx. unfold beacon_get_dynamic_masking.
  change dyn_buf0 with (L_result 10, 0). change dyn_buf1 with (L_result 11, 0).
  rewrite (bind_run _ _ m 0 _
             (append_read_register_appends MASTER REG_DYN_MASK (L_result 10) m
                ltac:(rewrite Hn; reflexivity))).
  rewrite (bind_run _ _ _ 0 _
             (append_read_register_appends MASTER REG_DYN_HOLDOFF (L_result 11)
                (append_all MASTER (read_xfers REG_DYN_MASK (L_result 10)) m)
                ltac:(rewrite nused_append_all, Hn; reflexivity))).
  rewrite <- append_all_app.
  change (read_xfers REG_DYN_MASK (L_result 10)
          ++ read_xfers REG_DYN_HOLDOFF (L_result 11))
    with (reads_message [(REG_DYN_MASK, L_result 10);
                         (REG_DYN_HOLDOFF, L_result 11)]).
  destruct (flush_appended MASTER
              (reads_message [(REG_DYN_MASK, L_result 10);
                              (REG_DYN_HOLDOFF, L_result 11)]) m Hok Hn
              ltac:(discriminate)) as (m' & F & _ & _ & _ & Mem).
  rewrite (bind_run _ _ _ _ _ F). cbn [nonzero Z.eqb negb].
  rewrite (bind_run get _ m' m' m' eq_refl). cbn [ret fst].
  rewrite Mem. fold rx.
  rewrite (store_rx_reads [(REG_DYN_MASK, L_result 10);
                           (REG_DYN_HOLDOFF, L_result 11)]
             eq_refl 0%nat rx (m_mem m) 0%nat
             REG_DYN_MASK (L_result 10) eq_refl).
  rewrite (store_rx_reads [(REG_DYN_MASK, L_result 10);
                           (REG_DYN_HOLDOFF, L_result 11)]
             eq_refl 0%nat rx (m_mem m) 1%nat
             REG_DYN_HOLDOFF (L_result 11) eq_refl).
  reflexivity.
Qed.

(** X19.  beacon_set_dynamic_masking and beacon_get_dynamic_masking, on a working
    bus and from an empty list.  The set function sends its two frames in one
    message to the master and returns 0.  When the device answers the two
    register reads of the get function with those frames, the get function
    returns 0 and stores the enable flag cut to its lowest bit, the
    threshold (a uint8_t), and the holdoff with all its sixteen bits. *)
Theorem dynamic_masking_round_trip (enable threshold holdoff : Z)
    (m : machine) :
  spi_ok (m_env m) ->
  nused (m_dev m) MASTER = 0 ->
  0 <= threshold < 256 ->
  exists f0 f1,
    fst (beacon_set_dynamic_masking enable threshold holdoff m) = 0 /\
    trace_since m (snd (beacon_set_dynamic_masking enable threshold holdoff m))
    = [SysSpiMessage (fd (m_dev m) MASTER)
         [Xfer (Some f0) None; Xfer (Some f1) None]] /\
    forall m',
      spi_ok (m_env m') ->
      nused (m_dev m') MASTER = 0 ->
      (let rx := rx_data (m_env m' (length (m_trace m'))
                    (SysSpiMessage (fd (m_dev m') MASTER)
                       (reads_message [(REG_DYN_MASK, L_result 10);
                                       (REG_DYN_HOLDOFF, L_result 11)]))) in
       rx 1%nat = f0 /\ rx 3%nat = f1) ->
      fst (beacon_get_dynamic_masking m') =
      (0, Some (Z.land enable 1, threshold, holdoff mod 2 ^ 16)).
Proof.
  intros Hok Hn Hth.
  destruct (set_dynamic_masking_run enable threshold holdoff m Hok Hn)
    as (s & S & T).
  do 2 eexists. rewrite S. cbn [fst snd].
  split; [reflexivity|]. split; [apply trace_since_app; exact T|].
  intros m' Hok' Hn' [R1 R3].
  rewrite (get_dynamic_masking_run m' Hok' Hn'), R1, R3.
  cbn [byte2 byte3].
  rewrite dyn_holdoff_bits, <- Z.land_assoc. reflexivity.
Qed.

Lemma dynamic_masking_round_trip_witness :
  exists m',
    fst (beacon_get_dynamic_masking m') = (0, Some (1, 7, 4660)).
Proof.
  destruct (dynamic_masking_round_trip 3 7 4660
              (opened (mock (fun _ => frame0)))) as (f0 & f1 & _ & _ & G).
  - rewrite m_env_opened. apply spi_ok_mock.
  - vm_compute; reflexivity.
  - lia.
  - exists (boot (mock (fun j => if Nat.eqb j 1 then f0 else f1))).
    rewrite (G (boot (mock (fun j => if Nat.eqb j 1 then f0 else f1)))).
    + reflexivity.
    + apply spi_ok_mock.
    + reflexivity.
    + split; reflexivity.
Defined.

Lemma synchronized_command_run cmd m :
  spi_ok (m_env m) ->
  nused (m_dev m) MASTER = 0 ->
  exists m',
    synchronized_command cmd 0 None None m = (0, m') /\
    m_trace m' =
    m_trace m
    ++ [SysSpiMessage (fd (m_dev m) MASTER) [Xfer (Some cmd) None]] /\
    m_env m' = m_env m /\
    nused (m_dev m') MASTER = 0.
Proof.
  intros Hok Hn.
  unfold synchronized_command, synchronized_command_master_only.
  rewrite (bind_run get_dev _ m (m_dev m) m eq_refl).
  change (NBD (m_dev m) <? 2) with true. cbv iota.
  rewrite (bind_run _ _ m 0 _
             (buffer_append_appends MASTER (Some cmd) None m
                ltac:(rewrite Hn; reflexivity))).
  change (nonzero 0) with false. cbv iota. rewrite bind_ret.
  change (appended MASTER (Xfer (Some cmd) None) m)
    with (append_all MASTER [Xfer (Some cmd) None] m).
  destruct (flush_appended MASTER [Xfer (Some cmd) None] m Hok Hn
              ltac:(discriminate)) as (m' & F & E & T & N & _).
  rewrite (bind_run _ _ _ _ _ F). cbn [ret Z.add].
  exists m'. repeat split; assumption.
Qed.

(** X20.  beacon_set_pretrigger on a working bus, from an empty list: the board is
    sent the low four bits of the pretrigger, the handle remembers the
    argument as it was given.  beacon_get_pretrigger (and the
    pretrigger_samples of the headers read later) follow the handle: for a
    pretrigger above 15 they differ from what the board was told. *)
Theorem pretrigger_wire_and_handle (p : Z) (m : machine) :
  spi_ok (m_env m) ->
  nused (m_dev m) MASTER = 0 ->
  0 <= p < 256 ->
  let r := (beacon_set_pretrigger p ;; beacon_get_pretrigger) m in
  fst r = p /\
  transmitted (trace_since m (snd r)) =
  [(fd (m_dev m) MASTER, Frame REG_PRETRIGGER 0 0 (Z.land p 15))].
Proof.
  intros Hok Hn Hp r. subst r. unfold beacon_set_pretrigger. cbv zeta.
  rewrite !bind_assoc.
  destruct (synchronized_command_run
              (Frame REG_PRETRIGGER 0 0 (Z.land p 15)) m Hok Hn)
    as (m' & S & T & _).
  rewrite (bind_run _ _ _ _ _ S). cbn [nonzero Z.eqb negb when].
  rewrite ?bind_assoc.
  rewrite (bind_run (modify_dev (with_pretrigger p)) _ m' tt _ eq_refl).
  rewrite !bind_ret. unfold beacon_get_pretrigger.
  rewrite (bind_run get_dev _ _ _ _ eq_refl). cbn [ret fst snd].
  split; [reflexivity|].
  erewrite trace_since_app by exact T. reflexivity.
Qed.

Lemma pretrigger_wire_and_handle_witness :
  fst ((beacon_set_pretrigger 31 ;; beacon_get_pretrigger)
         (opened (mock (fun _ => frame0)))) = 31 /\
  transmitted
    (trace_since (opened (mock (fun _ => frame0)))
       (snd ((beacon_set_pretrigger 31 ;; beacon_get_pretrigger)
               (opened (mock (fun _ => frame0)))))) =
  [(fd (m_dev (opened (mock (fun _ => frame0)))) MASTER,
    Frame REG_PRETRIGGER 0 0 15)].
Proof.
  apply (pretrigger_wire_and_handle 31 (opened (mock (fun _ => frame0)))).
  - rewrite m_env_opened. apply spi_ok_mock.
  - vm_compute; reflexivity.
  - lia.
Defined.

(** ** Where the waveforms go *)

Lemma chunk_body_run which start result x m :
  0 <= nused (m_dev m) which ->
  nused (m_dev m) which + 9 <= MAX_XFERS ->
  (r <- buffer_append which (Some (buf_ram_addr (start + x))) None ;;
   if nonzero r then ret r
   else
     until_fail (zrange BN_NUM_CHUNK) (fun ichunk =>
       r <- buffer_append which (Some (buf_chunk ichunk)) None ;;
       if nonzero r then ret r
       else
         buffer_append which None
           (Some (ptr_add result
                    (BN_NUM_CHUNK * BN_SPI_BYTES * x
                     + ichunk * BN_SPI_BYTES))))) m =
  (0, append_all which (chunk_xfers start result x) m).
Proof.
  intros H0 H.
  change (zrange BN_NUM_CHUNK) with [0; 1; 2; 3]. cbn [until_fail].
  unfold chunk_xfers. change (zrange BN_NUM_CHUNK) with [0; 1; 2; 3].
  cbn [flat_map app].
  repeat (rewrite ?bind_assoc;
          match goal with
          | |- context [bind (buffer_append which ?tx ?rx) ?k ?s] =>
              rewrite (bind_run (buffer_append which tx rx) k s 0 _
                         (buffer_append_appends which tx rx s
                            ltac:(repeat rewrite nused_appended;
                                  destruct which; cbn [board_eqb]; lia)));
              cbv beta; cbn [nonzero Z.eqb negb]
          | |- context [bind (ret ?a) ?k ?s] => rewrite (bind_ret a k s)
          end).
  reflexivity.
Qed.

Lemma chunks_loop which start result (li : list Z) :
  forall m,
    0 <= nused (m_dev m) which ->
    nused (m_dev m) which + 9 * Z.of_nat (length li) <= MAX_XFERS ->
    until_fail li (fun iaddr =>
      r <- buffer_append which (Some (buf_ram_addr (start + iaddr))) None ;;
      if nonzero r then ret r
      else
        until_fail (zrange BN_NUM_CHUNK) (fun ichunk =>
          r <- buffer_append which (Some (buf_chunk ichunk)) None ;;
          if nonzero r then ret r
          else
            buffer_append which None
              (Some (ptr_add result
                       (BN_NUM_CHUNK * BN_SPI_BYTES * iaddr
                        + ichunk * BN_SPI_BYTES))))) m =
    (0, append_all which (flat_map (chunk_xfers start result) li) m).
Proof.
  induction li as [|x li IH]; intros m H0 H; [reflexivity|].
  cbn [length] in H.
  cbn [until_fail flat_map]. rewrite append_all_app.
  rewrite (bind_run _ _ m 0 _
             (chunk_body_run which start result x m H0 ltac:(lia))).
  cbn [nonzero Z.eqb negb].
  apply IH.
  - rewrite nused_append_all. lia.
  - rewrite nused_append_all. unfold chunk_xfers.
    change (zrange BN_NUM_CHUNK) with [0; 1; 2; 3]. cbn [flat_map app length].
    lia.
Qed.

Lemma rx_targets_app l1 l2 :
  rx_targets (l1 ++ l2) = rx_targets l1 ++ rx_targets l2.
Proof. unfold rx_targets. apply flat_map_app. Qed.

Lemma zrange_S n : zrange (Z.of_nat (S n)) = zrange (Z.of_nat n) ++ [Z.of_nat n].
Proof.
  unfold zrange. rewrite !Nat2Z.id, seq_S, map_app. reflexivity.
Qed.

Lemma chunk_targets start result (n : nat) :
  rx_targets (flat_map (chunk_xfers start result) (zrange (Z.of_nat n))) =
  map (fun k => ptr_add result (4 * k)) (zrange (Z.of_nat (4 * n))).
Proof.
  induction n as [|n IH]; [reflexivity|].
  rewrite zrange_S, flat_map_app, rx_targets_app, IH.
  replace (4 * S n)%nat with (S (S (S (S (4 * n))))) by lia.
  rewrite !zrange_S, !map_app, <- !app_assoc. f_equal.
  cbn [flat_map app]. unfold chunk_xfers.
  change (zrange BN_NUM_CHUNK) with [0; 1; 2; 3].
  cbn [flat_map app rx_targets rx_buf map].
  unfold ptr_add, BN_NUM_CHUNK, BN_SPI_BYTES, BN_WORD_SIZE. cbn [fst snd].
  repeat (f_equal; try lia).
Qed.

(** X21.  The reads of a waveform land where they should.  When the list has room
    for them, loop_over_chunks_half_duplex queues nine transfers per RAM
    address and returns 0, and the four-byte reads among them fill the
    result buffer contiguously and in order: read k goes to byte 4k, for
    every k below 4 * naddr, each word once.  (The caller passes
    naddr = buffer_length / 16: the bytes of a buffer length that is not a
    multiple of 16 beyond the last multiple are not read.) *)
Theorem waveform_reads_are_contiguous (which : beacon_which_board_t)
    (naddr start : Z) (result : ptr) (m : machine) :
  0 <= naddr ->
  0 <= nused (m_dev m) which ->
  nused (m_dev m) which + 9 * naddr <= MAX_XFERS ->
  let r := loop_over_chunks_half_duplex which naddr start result m in
  fst r = 0 /\
  m_trace (snd r) = m_trace m /\
  exists l,
    pending which (m_dev (snd r)) = pending which (m_dev m) ++ l /\
    Z.of_nat (length l) = 9 * naddr /\
    rx_targets l = map (fun k => ptr_add result (4 * k)) (zrange (4 * naddr)).
Proof.
  intros Hn H0 H r. subst r. unfold loop_over_chunks_half_duplex.
  rewrite chunks_loop.
  - cbn [fst snd]. split; [reflexivity|].
    split; [apply m_trace_append_all|].
    exists (flat_map (chunk_xfers start result) (zrange naddr)).
    split; [apply pending_append_all; exact H0|].
    assert (L : forall li, Z.of_nat (length (flat_map (chunk_xfers start result) li))
                           = 9 * Z.of_nat (length li)).
    { induction li as [|x li IH]; [reflexivity|].
      cbn [flat_map]. rewrite length_app, Nat2Z.inj_add, IH.
      cbn [length]. unfold chunk_xfers.
      change (zrange BN_NUM_CHUNK) with [0; 1; 2; 3].
      cbn [flat_map app length]. lia. }
    split.
    + rewrite L. unfold zrange. rewrite length_map, length_seq. lia.
    + rewrite <- (Z2Nat.id naddr) by exact Hn. rewrite chunk_targets.
      rewrite Nat2Z.inj_mul. reflexivity.
  - exact H0.
  - unfold zrange. rewrite length_map, length_seq. lia.
Qed.

Lemma waveform_reads_are_contiguous_witness :
  let r := loop_over_chunks_half_duplex MASTER 2 1 (E_data 0 MASTER 0, 0)
             (opened (mock (fun _ => frame0))) in
  fst r = 0 /\
  exists l,
    pending MASTER (m_dev (snd r)) =
    pending MASTER (m_dev (opened (mock (fun _ => frame0)))) ++ l /\
    rx_targets l =
    map (fun k => ptr_add (E_data 0 MASTER 0, 0) (4 * k)) (zrange (4 * 2)).
Proof.
  intro r.
  destruct (waveform_reads_are_contiguous MASTER 2 1 (E_data 0 MASTER 0, 0)
              (opened (mock (fun _ => frame0)))) as (A & _ & l & P & _ & R).
  - lia.
  - vm_compute; discriminate.
  - vm_compute; discriminate.
  - split; [exact A|]. exists l. split; assumption.
Defined.

(** ** What a header holds after a read *)

Lemma store_rx_cons x l i rx mem :
  store_rx (x :: l) i rx mem =
  store_rx l (S i) rx (match rx_buf x with
                       | Some p => store_frame p (rx i) mem
                       | None => mem
                       end).
Proof. reflexivity. Qed.

Lemma metadata_message_reads h ibuf :
  metadata_message h ibuf =
  Xfer (Some (buf_buffer ibuf)) None :: reads_message (metadata_registers h).
Proof. reflexivity. Qed.

Lemma distinct_metadata h :
  distinct_regions (map snd (metadata_registers h)) = true.
Proof. reflexivity. Qed.

(** The frame that read [k] of the metadata message leaves in its buffer is
    the one received by transfer [2k+2]. *)
Lemma metadata_received h ibuf rx mem k a r :
  nth_error (metadata_registers h) k = Some (a, r) ->
  load_frame (store_rx (metadata_message h ibuf) 0 rx mem) (r, 0) =
  rx (2 * k + 2)%nat.
Proof.
  intro Hk.
  rewrite metadata_message_reads, store_rx_cons. cbn [rx_buf].
  rewrite (store_rx_reads (metadata_registers h) (distinct_metadata h) 1%nat
             rx mem k a r Hk).
  f_equal. lia.
Qed.

Lemma fill_header_master mask h e ibuf now m :
  let rd r := load_frame (m_mem m) (r, 0) in
  let evn := u64 (readout_number_offset (m_dev m)
                  + (field24 (rd (L_event_counter 0))
                     + Z.shiftl (field24 (rd (L_event_counter 1))) 24)) in
  let m' := snd (fill_header mask MASTER h e ibuf now m) in
  event_number (m_hd m' h) = evn /\
  ev_event_number (m_ev m' e) = evn /\
  buffer_number (m_hd m' h) = hwbuf_of (rd L_tinfo) /\
  buffer_mask (m_hd m' h) = mask /\
  readout_time (m_hd m' h) MASTER = tv_sec now /\
  hd_buffer_length (m_hd m' h) = buffer_length (m_dev m) /\
  ev_buffer_length (m_ev m' e) = buffer_length (m_dev m).
Proof.
  intros rd evn m'. subst m'. unfold fill_header.
  rewrite (bind_run get _ m m m eq_refl). cbv zeta. cbn [board_eqb].
  destruct (negb (hwbuf_of (load_frame (m_mem m) (L_tinfo, 0)) =? ibuf));
    unfold when, modify_hd, modify_ev, modify, bind, ret;
    cbn [fst snd m_hd m_ev with_hd with_ev];
    rewrite ?Nat.eqb_refl;
    cbn [with_master_fields with_board_fields with_sync_problem event_number
         ev_event_number buffer_number buffer_mask readout_time
         hd_buffer_length ev_buffer_length set2 board_eqb];
    repeat split.
Qed.

Lemma read_metadata_keeps_settings ibd h ibuf :
  keeps (fun m => (readout_number_offset (m_dev m), buffer_length (m_dev m),
                   m_hd m, m_ev m))
        (read_metadata ibd h ibuf).
Proof. solve_keeps. Qed.

Lemma read_waveforms_keeps_header h e ibuf :
  keeps (fun m => (event_number (m_hd m h), buffer_number (m_hd m h),
                   buffer_mask (m_hd m h), readout_time (m_hd m h) MASTER,
                   hd_buffer_length (m_hd m h), m_ev m))
        (read_waveforms MASTER h e ibuf).
Proof. solve_keeps_hd. Qed.

Lemma mark_buffers_done_keeps_header b :
  keeps (fun m => (m_hd m, m_ev m)) (mark_buffers_done b).
Proof. solve_keeps. Qed.

(** The turn of the master for a buffer of the mask, from an empty list and
    on a bus that works: what the header and the event hold afterwards. *)
Lemma read_board_fills mask h e ibuf m :
  spi_ok (m_env m) ->
  nused (m_dev m) MASTER = 0 ->
  Z.land mask (Z.shiftl 1 ibuf) <> 0 ->
  let rx := rx_data (m_env m (S (length (m_trace m)))
                       (SysSpiMessage (fd (m_dev m) MASTER)
                          (metadata_message h ibuf))) in
  let evn := u64 (readout_number_offset (m_dev m)
                  + (field24 (rx 2%nat) + Z.shiftl (field24 (rx 4%nat)) 24)) in
  let m' := snd (read_board mask h e ibuf MASTER m) in
  fst (read_board mask h e ibuf MASTER m) = Go None /\
  event_number (m_hd m' h) = evn /\
  ev_event_number (m_ev m' e) = evn /\
  buffer_number (m_hd m' h) = hwbuf_of (rx 16%nat) /\
  buffer_mask (m_hd m' h) = mask /\
  readout_time (m_hd m' h) MASTER =
  tv_sec (ret_time (m_env m (length (m_trace m))
                      (SysClockGettime CLOCK_REALTIME))) /\
  hd_buffer_length (m_hd m' h) = buffer_length (m_dev m) /\
  ev_buffer_length (m_ev m' e) = buffer_length (m_dev m).
Proof.
  intros Hok H0 Hbit rx evn m'. subst m'. unfold read_board.
  apply Z.eqb_neq in Hbit. rewrite Hbit.
  destruct (clock_gettime_step CLOCK_REALTIME m) as (m1 & C & E1 & T1 & D1).
  rewrite (bind_run _ _ _ _ _ C). cbn [board_eqb when].
  match goal with
  | |- context [bind (modify_dev ?f) ?k m1] =>
      rewrite (bind_run (modify_dev f) k m1 tt _ eq_refl);
      set (m2 := with_dev (f (m_dev m1)) m1)
  end.
  assert (F2 : m_env m2 = m_env m /\
               length (m_trace m2) = S (length (m_trace m)) /\
               nused (m_dev m2) MASTER = 0 /\
               fd (m_dev m2) = fd (m_dev m) /\
               readout_number_offset (m_dev m2) = readout_number_offset (m_dev m) /\
               buffer_length (m_dev m2) = buffer_length (m_dev m)).
  { unfold m2. cbn [m_env m_trace m_dev with_dev nused fd
                    readout_number_offset buffer_length
                    with_next_read_buffer with_event_counter].
    rewrite E1, T1, D1, length_app. cbn [length].
    rewrite Nat.add_1_r. repeat split. exact H0. }
  clearbody m2. destruct F2 as (E2 & T2 & N2 & D2 & O2 & B2).
  assert (Hok2 : spi_ok (m_env m2)) by (rewrite E2; exact Hok).
  destruct (read_metadata_master h ibuf m2 Hok2 N2) as (m3 & R3 & E3 & M3).
  pose proof (read_metadata_keeps_settings MASTER h ibuf m2) as K3.
  rewrite R3 in K3. cbn [snd] in K3.
  injection K3 as O3 B3 H3 V3.
  rewrite ebind_eq, R3. cbn [fst snd].
  rewrite ebind_eq, lift_eq. cbn [fst snd].
  destruct (fill_header_master mask h e ibuf
              (ret_time (m_env m (length (m_trace m))
                           (SysClockGettime CLOCK_REALTIME))) m3)
    as (A1 & A2 & A3 & A4 & A5 & A6 & A7).
  set (m4 := snd (fill_header mask MASTER h e ibuf _ m3)) in *.
  assert (Hok4 : spi_ok (m_env m4)).
  { unfold m4. rewrite fill_header_keeps_env, E3. exact Hok2. }
  clearbody m4.
  rewrite M3, E2, T2, D2 in A1, A2, A3. fold rx in A1, A2, A3.
  rewrite (metadata_received h ibuf rx (m_mem m2) 0%nat
             REG_EVENT_COUNTER_LOW (L_event_counter 0) eq_refl) in A1, A2.
  rewrite (metadata_received h ibuf rx (m_mem m2) 1%nat
             REG_EVENT_COUNTER_HIGH (L_event_counter 1) eq_refl) in A1, A2.
  rewrite (metadata_received h ibuf rx (m_mem m2) 7%nat
             REG_TRIG_INFO L_tinfo eq_refl) in A3.
  rewrite O3, O2 in A1, A2. rewrite B3, B2 in A6, A7.
  destruct (read_waveforms_master h e ibuf m4 Hok4) as [G _].
  pose proof (read_waveforms_keeps_header h e ibuf m4) as K5.
  injection K5 as W1 W2 W3 W4 W5 W6.
  rewrite G, W1, W2, W3, W4, W5, W6.
  repeat split; assumption.
Qed.

(** X22.  A read of the one buffer the cursor names, from an empty list and on a
    bus that works.  The header's event number is the handle's
    readout-number offset plus the 48-bit hardware event counter (the low
    and high 24 bits come from transfers 2 and 4 of the metadata message),
    and the event carries the same number; the header's buffer number is the
    one the hardware reports in the trig_info word (transfer 16), its buffer
    mask is the mask of the call, its readout time is the wall-clock second
    read at the start of the turn, and header and event have the handle's
    buffer length. *)
Theorem header_filled_from_hardware (hd ev : nat -> nat) (m : machine) :
  spi_ok (m_env m) ->
  nused (m_dev m) MASTER = 0 ->
  0 <= cursor m < 4 ->
  let rx := rx_data (m_env m (S (length (m_trace m)))
                       (SysSpiMessage (fd (m_dev m) MASTER)
                          (metadata_message (hd 0%nat) (cursor m)))) in
  let r := beacon_read_multiple_ptr (Z.shiftl 1 (cursor m)) hd ev m in
  let h := m_hd (snd r) (hd 0%nat) in
  let e := m_ev (snd r) (ev 0%nat) in
  fst r = 0 /\
  event_number h =
  u64 (readout_number_offset (m_dev m)
       + (field24 (rx 2%nat) + Z.shiftl (field24 (rx 4%nat)) 24)) /\
  ev_event_number e = event_number h /\
  buffer_number h = hwbuf_of (rx 16%nat) /\
  buffer_mask h = Z.shiftl 1 (cursor m) /\
  readout_time h MASTER =
  tv_sec (ret_time (m_env m (length (m_trace m))
                      (SysClockGettime CLOCK_REALTIME))) /\
  hd_buffer_length h = buffer_length (m_dev m) /\
  ev_buffer_length e = buffer_length (m_dev m).
Proof.
  intros Hok H0 Hc rx r h e. subst h e r.
  unfold beacon_read_multiple_ptr. rewrite (popcount_bit _ Hc).
  cbn [buffer_loop]. rewrite bind_eq, ebind_eq.
  unfold read_buffer.
  rewrite (bind_run get_dev _ m (m_dev m) m eq_refl).
  rewrite bind_eq.
  set (m0 := snd (modify_hd (hd 0%nat) (with_sync_problem 0) m)).
  assert (F0 : m_env m0 = m_env m /\ m_trace m0 = m_trace m /\
               m_dev m0 = m_dev m) by (repeat split).
  clearbody m0. destruct F0 as (E0 & T0 & D0).
  rewrite boards_below_NBD. cbn [board_loop].
  rewrite ebind_eq, ebind_eq. fold (cursor m).
  destruct (read_board_fills (Z.shiftl 1 (cursor m)) (hd 0%nat) (ev 0%nat)
              (cursor m) m0) as (G & A1 & A2 & A3 & A4 & A5 & A6 & A7).
  { rewrite E0. exact Hok. }
  { rewrite D0. exact H0. }
  { apply land_self_bit. lia. }
  rewrite E0, T0, D0 in *. fold rx in A1, A2, A3.
  rewrite G. cbn [fst snd ret]. rewrite bind_eq. cbn [fst snd ret].
  match goal with
  | |- context [mark_buffers_done ?b ?s] =>
      pose proof (mark_buffers_done_keeps_header b s) as K
  end.
  injection K as K1 K2. rewrite K1, K2.
  split; [reflexivity|].
  rewrite A1, A2, A3, A4, A5, A6, A7. repeat split.
Qed.

(** On the mock that answers every read with the frame [0, 0x40, 0, 5], the
    event counter words are both 0x400005. *)
Lemma header_filled_from_hardware_witness :
  let m := small (opened (mock (fun _ => Frame 0 64 0 5))) in
  let r := beacon_read_multiple_ptr (Z.shiftl 1 (cursor m)) (fun i => i)
             (fun i => i) m in
  fst r = 0 /\
  event_number (m_hd (snd r) 0%nat) =
  u64 (readout_number_offset (m_dev m) + (4194309 + Z.shiftl 4194309 24)) /\
  ev_event_number (m_ev (snd r) 0%nat) = event_number (m_hd (snd r) 0%nat) /\
  buffer_number (m_hd (snd r) 0%nat) = 1.
Proof.
  intros m r.
  assert (E : m_env m = mock (fun _ => Frame 0 64 0 5))
    by (unfold m; rewrite m_env_small; apply m_env_opened).
  destruct (header_filled_from_hardware (fun i => i) (fun i => i) m)
    as (A & B & C & D & _).
  - rewrite E. apply spi_ok_mock.
  - vm_compute; reflexivity.
  - assert (X : cursor m = 0) by (vm_compute; reflexivity). rewrite X. lia.
  - rewrite E in B, D. cbn [mock reply rx_data] in B, D.
    change (field24 (Frame 0 64 0 5)) with 4194309 in B.
    change (hwbuf_of (Frame 0 64 0 5)) with 1 in D.
    subst r. split; [exact A|]. split; [exact B|]. split; [exact C | exact D].
Defined.

(** *** Trigger enables *)

Lemma bit_cases x : 0 <= x <= 1 -> x = 0 \/ x = 1.
Proof. lia. Qed.

(** X23.  beacon_set_trigger_enables and beacon_get_trigger_enables agree on flags
    that are 0 or 1: on a handle that does not lock the set function writes
    one frame to the board, and when the device answers the register read
    with that frame the get function returns the four flags as they were
    set. *)
Theorem trigger_enables_round_trip (en : beacon_trigger_enable_t)
    (w : beacon_which_board_t) (m : machine) :
  enable_locking (m_dev m) = 0 ->
  0 <= enable_beamforming en <= 1 ->
  0 <= enable_beam8 en <= 1 ->
  0 <= enable_beam4a en <= 1 ->
  0 <= enable_beam4b en <= 1 ->
  exists f,
    transmitted (trace_since m (snd (beacon_set_trigger_enables en w m))) =
    [(fd (m_dev m) w, f)] /\
    forall m',
      spi_ok (m_env m') ->
      nused (m_dev m') w = 0 ->
      rx_data (m_env m' (length (m_trace m'))
                 (SysSpiMessage (fd (m_dev m') w)
                    (read_xfers REG_TRIG_ENABLE (L_result 5)))) 1%nat = f ->
      fst (beacon_get_trigger_enables w m') = en.
Proof.
  intros _ H1 H2 H3 H4. eexists. split.
  - unfold beacon_set_trigger_enables. cbv zeta.
    rewrite (bind_run get_dev _ m (m_dev m) m eq_refl).
    run_write. cbn [ret snd].
    rewrite (trace_since_app _ _ _ Et). reflexivity.
  - intros m' Hok Hn Hrx. unfold beacon_get_trigger_enables.
    change trigger_enable_buf with (L_result 5, 0).
    destruct (read_register_run REG_TRIG_ENABLE (L_result 5) w m' Hok Hn)
      as (_ & B & _).
    rewrite Hrx in B.
    rewrite bind_eq, (bind_run get _ _ _ _ eq_refl). cbn [ret fst].
    rewrite B. cbn [byte2 byte3].
    destruct en as [a b c d]. cbn [enable_beamforming enable_beam8
                                   enable_beam4a enable_beam4b] in *.
    destruct (bit_cases a H1) as [-> | ->];
      destruct (bit_cases b H2) as [-> | ->];
      destruct (bit_cases c H3) as [-> | ->];
      destruct (bit_cases d H4) as [-> | ->]; reflexivity.
Qed.

Lemma trigger_enables_round_trip_witness :
  exists m',
    fst (beacon_get_trigger_enables MASTER m') =
    {| enable_beamforming := 1; enable_beam8 := 0;
       enable_beam4a := 1; enable_beam4b := 1 |}.
Proof.
  destruct (trigger_enables_round_trip
              {| enable_beamforming := 1; enable_beam8 := 0;
                 enable_beam4a := 1; enable_beam4b := 1 |} MASTER
              (opened (mock (fun _ => frame0))))
    as (f & _ & G); cbn [enable_beamforming enable_beam8 enable_beam4a
                         enable_beam4b]; try lia.
  { vm_compute; reflexivity. }
  exists (boot (mock (fun _ => f))).
  apply G.
  - apply spi_ok_mock.
  - reflexivity.
  - reflexivity.
Defined.

(** ** The buffer length across a reset *)

Lemma reset_prologue_keeps_length ty :
  keeps (fun m => buffer_length (m_dev m)) (reset_prologue ty).
Proof. solve_keeps. Qed.

Lemma reset_counters_keeps_length :
  keeps (fun m => buffer_length (m_dev m)) reset_counters.
Proof. solve_keeps. Qed.

Ltac pop_bind :=
  match goal with
  | |- context [bind ?c ?k ?s] =>
      rewrite (bind_eq c k s);
      let a := fresh "a" in
      let s' := fresh "s" in
      generalize (fst (c s)) (snd (c s)); intros a s'
  end.

(** The calibration block puts the buffer length back, whatever happened in
    between (the loop may have ended happy or in misery). *)
Lemma calibrate_restores_length fuel m happy :
  fst (calibrate fuel m) = Some happy ->
  buffer_length (m_dev (snd (calibrate fuel m))) = buffer_length (m_dev m).
Proof.
  unfold calibrate.
  rewrite (bind_run get_dev _ m (m_dev m) m eq_refl).
  generalize (buffer_length (m_dev m)). intro old.
  do 5 pop_bind.
  destruct a3 as [hp|]; [|discriminate]. intros _.
  rewrite (bind_run (modify_dev (with_buffer_length old)) _ _ tt _ eq_refl).
  match goal with
  | |- buffer_length (m_dev (snd (?c ?s))) = _ =>
      assert (K : keeps (fun m => buffer_length (m_dev m)) c) by solve_keeps;
      rewrite (K s)
  end.
  reflexivity.
Qed.

(** X24.  beacon_reset never changes the buffer length of the handle: whatever the
    kind of reset and its result, once it has returned the buffer length is
    what it was before the call (the calibration sets it to 1024 and puts
    it back). *)
Theorem reset_keeps_buffer_length (fuel : nat) (ty : beacon_reset_t)
    (m : machine) (r : Z) :
  fst (beacon_reset fuel ty m) = Some r ->
  buffer_length (m_dev (snd (beacon_reset fuel ty m))) =
  buffer_length (m_dev m).
Proof.
  unfold beacon_reset. rewrite bind_eq.
  rewrite <- (reset_prologue_keeps_length ty m).
  generalize (fst (reset_prologue ty m)) (snd (reset_prologue ty m)).
  intros r0 s0.
  destruct (nonzero r0); [reflexivity|].
  rewrite bind_eq.
  destruct (reset_rank BN_RESET_CALIBRATE <=? reset_rank ty).
  - destruct (fst (calibrate fuel s0)) as [[|]|] eqn:C.
    + rewrite <- (calibrate_restores_length fuel s0 true C).
      rewrite bind_eq. cbn [ret snd]. intros _.
      apply reset_counters_keeps_length.
    + intros _. cbn [ret snd].
      apply (calibrate_restores_length fuel s0 false C).
    + discriminate.
  - cbn [ret fst snd]. rewrite bind_eq. cbn [ret snd]. intros _.
    apply reset_counters_keeps_length.
Qed.

(** A calibration that ends happy, on a handle with a buffer length of 16
    and one channel read: the event is read with 1024 samples (sample 1023
    of the calibration event holds what the device sent). *)
Lemma happy_calibration :
  let r := beacon_reset 1 BN_RESET_CALIBRATE
             (small (opened (mock (fun _ => Frame 33 33 33 33)))) in
  fst r = Some 0 /\ m_mem (snd r) (E_data calib_ev MASTER 0, 1023) = 33.
Proof. vm_compute. split; reflexivity. Qed.

(** After the happy calibration of [happy_calibration] the buffer length is
    16 again.  After a calibration that ends in misery (no buffer ever
    ready, every wait timing out) the reset returns -1 and the length is
    back at 624. *)
Lemma reset_keeps_buffer_length_witness :
  let happy := beacon_reset 1 BN_RESET_CALIBRATE
                 (small (opened (mock (fun _ => Frame 33 33 33 33)))) in
  let misery := beacon_reset 1 BN_RESET_CALIBRATE
                  (opened (mock_clocks (Timespec 0 0)
                             (Timespec 1700000000 1000))) in
  (fst happy = Some 0 /\
   m_mem (snd happy) (E_data calib_ev MASTER 0, 1023) = 33 /\
   buffer_length (m_dev (snd happy)) = 16) /\
  (fst misery = Some (-1) /\
   buffer_length (m_dev (snd misery)) = 624).
Proof.
  intros happy misery.
  pose proof happy_calibration as H. cbv zeta in H. destruct H as [H Hm].
  assert (M : fst misery = Some (-1)) by (vm_compute; reflexivity).
  split.
  - split; [exact H|]. split; [exact Hm|].
    unfold happy.
    rewrite (reset_keeps_buffer_length 1 BN_RESET_CALIBRATE _ 0 H).
    vm_compute; reflexivity.
  - split; [exact M|]. unfold misery.
    rewrite (reset_keeps_buffer_length 1 BN_RESET_CALIBRATE _ (-1) M).
    vm_compute; reflexivity.
Defined.

(** ** Close *)

(** X25.  beacon_close on a handle that does not lock gives the descriptors
    back whatever the pending flush, the GPIO and the unlocks return: the
    master's descriptor is closed, and so is the slave's when the handle has
    one. *)
Theorem close_releases_descriptors (m : machine) :
  enable_locking (m_dev m) = 0 ->
  In (SysClose (fd (m_dev m) MASTER)) (trace_since m (snd (beacon_close m))) /\
  (fd (m_dev m) SLAVE <> 0 ->
   In (SysClose (fd (m_dev m) SLAVE)) (trace_since m (snd (beacon_close m)))).
Proof.
  intros _.
  destruct (close_closes (fd (m_dev m)) m eq_refl Logic.I) as (l & T & C1 & C2).
  rewrite (trace_since_app _ _ _ T). split; assumption.
Qed.

Lemma close_releases_descriptors_witness :
  In (SysClose 4)
     (trace_since (opened_pair (mock_spi_dead))
        (snd (beacon_close (opened_pair (mock_spi_dead))))).
Proof.
  assert (F : fd (m_dev (opened_pair mock_spi_dead)) SLAVE = 4)
    by (vm_compute; reflexivity).
  destruct (close_releases_descriptors (opened_pair mock_spi_dead)) as [_ B].
  - vm_compute; reflexivity.
  - rewrite F in B. apply B. discriminate.
Defined.

(** ** The range of the buffer mask *)

(** X26.  Whatever the device answers, also when the transfer fails, the mask that
    beacon_check_buffers returns is within the four buffers (0 to 15) and the
    hardware-next hint it stores in the handle is a buffer index (0 to 3). *)
Theorem check_buffers_in_range (which : beacon_which_board_t) (m : machine) :
  0 <= fst (beacon_check_buffers (Some with_hardware_next) which m) <= 15 /\
  0 <= hardware_next
         (m_dev (snd (beacon_check_buffers (Some with_hardware_next) which m)))
    <= 3.
Proof.
  unfold beacon_check_buffers. do 2 pop_bind.
  rewrite (bind_run get _ _ _ _ eq_refl). cbv zeta.
  rewrite (bind_run (modify_dev _) _ _ tt _ eq_refl).
  cbn [ret fst snd m_dev with_dev hardware_next with_hardware_next].
  change BUF_MASK with (Z.ones 4).
  match goal with
  | |- context [Z.land ?a 3] => change (Z.land a 3) with (Z.land a (Z.ones 2))
  end.
  rewrite !Z.land_ones by lia.
  split;
    match goal with
    | |- 0 <= ?x mod ?k <= _ =>
        pose proof (Z.mod_pos_bound x k ltac:(lia)); lia
    end.
Qed.
